(** * pyspark/worker.py: the evaluation-mode dispatcher and UDF adapters

    A shallow embedding of the adapter layer of [python/pyspark/worker.py]:
    the function chain of [read_single_udf], the vectorised adapters
    ([wrap_scalar_pandas_udf], [wrap_arrow_batch_udf]), the result
    verification of [verify_pandas_result], the stateful grouped-map adapter,
    the bounded window adapter, the scalar-iterator loop of [read_udfs], the
    table-function lifecycle of [read_udtf] and the preamble of [main].

    Python exceptions are values of [exn]; a computation that may raise
    returns an [outcome].  Generators are modelled by what a consumer
    observes: the elements delivered and the exception, if any, that ends
    the iteration. *)

From Stdlib Require Import ZArith String List Bool Lia.
From stdpp Require Import base option list strings gmap.

Set Warnings "-register-all".
Local Open Scope string_scope.
Local Open Scope list_scope.

(** ** Python values *)

(** A column label or a Series name of a pandas object: a string, an
    integer, or [None]. *)
Inductive label :=
| LStr (s : string)
| LInt (n : Z)
| LNone.

#[global] Instance label_eq_dec : EqDecision label.
Proof. solve_decision. Defined.

#[global] Instance label_countable : Countable label.
Proof.
  refine (inj_countable'
            (fun l => match l with
                      | LStr s => inl s | LInt n => inr (Some n) | LNone => inr None
                      end)
            (fun x => match x with
                      | inl s => LStr s | inr (Some n) => LInt n | inr None => LNone
                      end) _).
  intros []; reflexivity.
Defined.

(** [isinstance(name, str)] *)
Definition is_str (l : label) : bool :=
  match l with LStr _ => true | _ => false end.

(** Plain Python objects: scalars, sequences, [pyspark.sql.types.Row],
    dicts with string keys held in insertion order, and instances of
    user-defined classes.  An instance has a [__dict__]; it is known by
    its identity, the name of its class and what [len] gives on it when
    the class defines [__len__]. *)
Inductive pyval :=
| PNone
| PInt (z : Z)
| PStr (s : string)
| PBytes (s : string)
| PList (xs : list pyval)
| PTuple (xs : list pyval)
| PRow (xs : list pyval)
| PDict (items : list (string * pyval))
| PObject (id : nat) (class_name : string) (len : option nat).

(** Python's [==] on these objects.  A [Row] is a tuple subclass, so a
    row and a tuple with equal items are equal.  Two dicts are equal when
    they have the same keys with equal values, in any order.  An instance
    of a class that does not define [__eq__] is equal to itself only. *)
Fixpoint pyval_eqb (a b : pyval) : bool :=
  let fix items (xs ys : list pyval) : bool :=
    match xs, ys with
    | [], [] => true
    | x :: xs', y :: ys' => pyval_eqb x y && items xs' ys'
    | _, _ => false
    end in
  let fix entries (xs ys : list (string * pyval)) : bool :=
    match xs with
    | [] => true
    | (k, v) :: xs' =>
        (fix find (l : list (string * pyval)) : bool :=
           match l with
           | [] => false
           | (k', v') :: l' => if String.eqb k k' then pyval_eqb v v' else find l'
           end) ys
        && entries xs' ys
    end in
  match a, b with
  | PNone, PNone => true
  | PInt x, PInt y => (x =? y)%Z
  | PStr x, PStr y => String.eqb x y
  | PBytes x, PBytes y => String.eqb x y
  | PList xs, PList ys => items xs ys
  | PTuple xs, PTuple ys => items xs ys
  | PTuple xs, PRow ys => items xs ys
  | PRow xs, PTuple ys => items xs ys
  | PRow xs, PRow ys => items xs ys
  | PDict xs, PDict ys => Nat.eqb (length xs) (length ys) && entries xs ys
  | PObject i _ _, PObject j _ _ => Nat.eqb i j
  | _, _ => false
  end.

(** A pandas Series with the default RangeIndex, and a pandas DataFrame
    held row-wise.  A frame may have rows without having columns
    ([pd.DataFrame([()])] has shape (1, 0)). *)
Record Series := mkSeries { sname : label; svalues : list pyval }.
Record DataFrame := mkDataFrame { columns : list label; rows : list (list pyval) }.

(** What a pandas UDF may hand back: a Series, a DataFrame, or anything
    else. *)
Inductive pobj :=
| OVal (v : pyval)
| OSeries (s : Series)
| OFrame (df : DataFrame).

(** [type(x).__name__] *)
Definition type_name_val (v : pyval) : string :=
  match v with
  | PNone => "NoneType"
  | PInt _ => "int"
  | PStr _ => "str"
  | PBytes _ => "bytes"
  | PList _ => "list"
  | PTuple _ => "tuple"
  | PRow _ => "Row"
  | PDict _ => "dict"
  | PObject _ class_name _ => class_name
  end.

Definition type_name (o : pobj) : string :=
  match o with
  | OVal v => type_name_val v
  | OSeries _ => "Series"
  | OFrame _ => "DataFrame"
  end.

(** [len(x)], for the objects that have [__len__]; [None] when
    [hasattr(x, "__len__")] is false.  The length of a frame is its number
    of rows. *)
Definition len_val (v : pyval) : option nat :=
  match v with
  | PNone | PInt _ => None
  | PStr s | PBytes s => Some (String.length s)
  | PList xs | PTuple xs | PRow xs => Some (length xs)
  | PDict items => Some (length items)
  | PObject _ _ len => len
  end.

Definition len_obj (o : pobj) : option nat :=
  match o with
  | OVal v => len_val v
  | OSeries s => Some (length (svalues s))
  | OFrame df => Some (length (rows df))
  end.

(** [iter(x)], for the plain objects that can be iterated: the items a
    loop over [x] gets, the keys for a dict; [None] when [x] is not
    iterable, as an instance of a class without [__iter__]. *)
Definition iter_val (v : pyval) : option (list pyval) :=
  match v with
  | PList xs | PTuple xs | PRow xs => Some xs
  | PStr s =>
      Some (map (fun c => PStr (String c EmptyString)) (list_ascii_of_string s))
  | PBytes s =>
      Some (map (fun c => PInt (Z.of_nat (Ascii.nat_of_ascii c))) (list_ascii_of_string s))
  | PDict items => Some (map (fun kv => PStr (fst kv)) items)
  | PNone | PInt _ | PObject _ _ _ => None
  end.

(** [DataFrame.empty]: true when any axis has length zero. *)
Definition df_empty (df : DataFrame) : bool :=
  Nat.eqb (length (columns df)) 0 || Nat.eqb (length (rows df)) 0.

(** ** Spark types *)

Record StructField := mkField { field_name : string }.

Inductive DataType :=
| StructType (fields : list StructField)
| StringType
| BinaryType
| AtomicType (name : string).

(** [type(return_type) == StructType] *)
Definition is_struct (t : DataType) : bool :=
  match t with StructType _ => true | _ => false end.

(** [len(return_type)] of a struct type. *)
Definition type_len (t : DataType) : nat :=
  match t with StructType fs => length fs | _ => 0 end.

(** Modelled from the spec: [to_arrow_type] is defined in
    [pyspark.sql.pandas.types], outside these sources; an adapter pairs
    each result with the declared return type converted by it, so the
    converted type is kept as a tag around the declared one. *)
Inductive ArrowType := to_arrow_type (t : DataType).

(** ** Exceptions *)

(** The exceptions of Python that the worker meets, and the error classes
    of [PySparkTypeError] and [PySparkRuntimeError] with their message
    parameters (numbers are kept as numbers).  The last three classes
    stand for the errors that [read_udtf] raises with a plain message. *)

Inductive exn :=
| PySparkTypeError (c : error_class)
| PySparkRuntimeError (c : error_class)
| AssertionError (msg : string)
| AttributeError (attr : string)
| IndexError
| KeyError
| TypeError (msg : string)
| StopIteration
| RuntimeError (msg : string)
| UnboundLocalError (name : string)
| ValueError (msg : string)
| EOFError
| IOError
| SystemExit (code : Z)
| UserException (msg : string)
with error_class :=
| UDF_RETURN_TYPE (expected actual : string)
| SCHEMA_MISMATCH_FOR_PANDAS_UDF (expected actual : nat)
| RESULT_COLUMNS_MISMATCH_FOR_PANDAS_UDF (missing extra : list label)
| RESULT_LENGTH_MISMATCH_FOR_PANDAS_UDF (expected actual : nat)
| INVALID_WINDOW_BOUND_TYPE (window_bound_type : string)
| UDTF_EXEC_ERROR (method_name : string) (error : exn)
| UDTF_RETURN_SCHEMA_MISMATCH (expected actual : nat)
| UDTF_INVALID_OUTPUT_ROW_TYPE (type : string)
| UDTF_RETURN_NOT_ITERABLE (type : string)
| STOP_ITERATION_OCCURRED_FROM_SCALAR_ITER_PANDAS_UDF
| RESULT_LENGTH_MISMATCH_FOR_SCALAR_ITER_PANDAS_UDF (output_length input_length : nat)
| INVALID_UDTF_HANDLER_TYPE (actual : string)
| UDTF_RETURN_TYPE_NOT_STRUCT
| UDTF_EVAL_NOT_IMPLEMENTED.

Inductive outcome (A : Type) :=
| Ret (a : A)
| Raise (e : exn).
Arguments Ret {A} a.
Arguments Raise {A} e.

#[global] Instance outcome_ret : MRet outcome := fun A a => Ret a.
#[global] Instance outcome_bind : MBind outcome :=
  fun A B k m => match m with Ret a => k a | Raise e => Raise e end.
#[global] Instance outcome_fmap : FMap outcome :=
  fun A B f m => match m with Ret a => Ret (f a) | Raise e => Raise e end.

Definition returns {A} (m : outcome A) : bool :=
  match m with Ret _ => true | Raise _ => false end.

(** [l[i]] on a Python sequence: a negative index counts from the end,
    an index out of range raises [IndexError]. *)
Definition getitem {A} (l : list A) (i : Z) : outcome A :=
  let j := if (i <? 0)%Z then (i + Z.of_nat (length l))%Z else i in
  if (j <? 0)%Z then Raise IndexError
  else match l !! Z.to_nat j with
       | Some x => Ret x
       | None => Raise IndexError
       end.

(** [d[k] = v] on a dict kept in insertion order: an existing key keeps its
    place. *)
Fixpoint dict_set {V} (d : list (string * V)) (k : string) (v : V) : list (string * V) :=
  match d with
  | [] => [(k, v)]
  | (k', v') :: d' =>
      if String.eqb k k' then (k, v) :: d' else (k', v') :: dict_set d' k v
  end.

(** A callable taking [*a, **kw]. *)
Definition pyfun (A R : Type) := list A -> list (string * A) -> outcome R.

(** [PythonEvalType] of [pyspark.rdd]. *)
Inductive PythonEvalType :=
| NON_UDF
| SQL_BATCHED_UDF
| SQL_ARROW_BATCHED_UDF
| SQL_SCALAR_PANDAS_UDF
| SQL_GROUPED_MAP_PANDAS_UDF
| SQL_GROUPED_AGG_PANDAS_UDF
| SQL_WINDOW_AGG_PANDAS_UDF
| SQL_SCALAR_PANDAS_ITER_UDF
| SQL_MAP_PANDAS_ITER_UDF
| SQL_COGROUPED_MAP_PANDAS_UDF
| SQL_MAP_ARROW_ITER_UDF
| SQL_GROUPED_MAP_PANDAS_UDF_WITH_STATE
| SQL_TABLE_UDF
| SQL_ARROW_TABLE_UDF.

#[global] Instance PythonEvalType_eq_dec : EqDecision PythonEvalType.
Proof. solve_decision. Defined.

(** ** The framed input stream *)

(** Modelled from the spec: the framed primitives [read_int], [read_long],
    [read_bool], [utf8_deserializer.loads] and [read_command] live in
    [pyspark.serializers] and [pyspark.worker_util], outside these sources.
    The spec gives their interface only: fixed-width integers, longs,
    booleans, length-prefixed strings and pickled commands read in turn
    from one stream.  The stream is the sequence of its fields; [C] is what
    [read_command] unpickles.  Reading past the end raises [EOFError]; a
    field of another kind than the one asked for is a malformed stream. *)

Module Stream.
Section Stream.
Context {C : Type}.

Inductive field :=
| FInt (z : Z)
| FLong (z : Z)
| FBool (b : bool)
| FUtf8 (s : string)
| FCommand (c : C).

Definition infile := list field.

(** A computation that reads from the stream: the value read and the
  fields left, or the exception raised. *)
Definition reader (A : Type) := infile -> outcome (A * infile).

Definition ret {A} (a : A) : reader A := fun s => Ret (a, s).
Definition bind {A B} (m : reader A) (k : A -> reader B) : reader B :=
fun s => match m s with
         | Ret (a, s') => k a s'
         | Raise e => Raise e
         end.
Definition raise {A} (e : exn) : reader A := fun _ => Raise e.

Definition malformed {A} : outcome A := Raise (ValueError "malformed stream").

Definition read_int : reader Z := fun s =>
match s with
| [] => Raise EOFError
| FInt z :: s' => Ret (z, s')
| _ :: _ => malformed
end.

Definition read_long : reader Z := fun s =>
match s with
| [] => Raise EOFError
| FLong z :: s' => Ret (z, s')
| _ :: _ => malformed
end.

Definition read_bool : reader bool := fun s =>
match s with
| [] => Raise EOFError
| FBool b :: s' => Ret (b, s')
| _ :: _ => malformed
end.

(** [utf8_deserializer.loads(infile)] *)
Definition read_utf8 : reader string := fun s =>
match s with
| [] => Raise EOFError
| FUtf8 x :: s' => Ret (x, s')
| _ :: _ => malformed
end.

(** [read_command(pickleSer, infile)] *)
Definition read_command : reader C := fun s =>
match s with
| [] => Raise EOFError
| FCommand c :: s' => Ret (c, s')
| _ :: _ => malformed
end.

(** [for _ in range(n): acc = body(acc)] *)
Fixpoint for_range {A} (n : nat) (body : A -> reader A) (acc : A) : reader A :=
match n with
| 0 => ret acc
| S n' => bind (body acc) (for_range n' body)
end.

(** The argument offsets of [read_single_udf] and [read_udtf], in the
  protocol with named arguments: each offset is followed by a flag,
  and a name when the flag is set. *)
Definition read_named_offsets (num_arg : Z)
: reader (list Z * list (string * Z)) :=
for_range (Z.to_nat num_arg)
  (fun '(args_offsets, kwargs_offsets) =>
     bind read_int (fun offset =>
     bind read_bool (fun named =>
     if named
     then bind read_utf8 (fun name =>
            ret (args_offsets, dict_set kwargs_offsets name offset))
     else ret (args_offsets ++ [offset], kwargs_offsets))))
  ([], []).

(** [[read_int(infile) for i in range(num_arg)]] *)
Definition read_plain_offsets (num_arg : Z) : reader (list Z) :=
for_range (Z.to_nat num_arg)
  (fun offsets => bind read_int (fun o => ret (offsets ++ [o]))) [].

End Stream.
Arguments field : clear implicits.
Arguments infile : clear implicits.
Arguments reader : clear implicits.
End Stream.

(** ** The function chain *)

Module Chain.
Section Chain.
(** [V]: the objects the guest callables exchange. *)
Context {V : Type}.

(** A deserialised stage: a callable, which the adapters call with
  positional and keyword arguments. *)
Definition stage := pyfun V V.

(** What Python raises when a lambda without a double-starred parameter
  is called with the keyword [k]; interpreters from 3.10 on write the
  qualified name of the lambda in the message. *)
Definition unexpected_keyword (k : string) : exn :=
TypeError ("<lambda>() got an unexpected keyword argument '" ++ k ++ "'")%string.

(** [chain(f, g)]: the lambda that applies [f] to its positional
  arguments and [g] to the single value [f] returns.  The lambda has a
  starred parameter and no double-starred one: called with a keyword
  argument it raises before [f] is called. *)
Definition chain (f g : stage) : stage :=
fun a kw =>
  match kw with
  | [] => x ← f a []; g [x] []
  | (k, _) :: _ => Raise (unexpected_keyword k)
  end.

(** The body of the loop of [read_single_udf]: [chained_func] starts as
  [None], and [return_type] is rebound at every iteration. *)
Definition read_chain_step (acc : option stage * option DataType)
: Stream.reader (stage * DataType) (option stage * option DataType) :=
Stream.bind Stream.read_command (fun '(f, return_type) =>
  match fst acc with
  | None => Stream.ret (Some f, Some return_type)
  | Some chained_func => Stream.ret (Some (chain chained_func f), Some return_type)
  end).

(** [for i in range(read_int(infile)): f, return_type = read_command(...)] *)
Definition read_chain
: Stream.reader (stage * DataType) (option stage * option DataType) :=
Stream.bind Stream.read_int (fun n =>
  Stream.for_range (Z.to_nat n) read_chain_step (None, None)).

(** Modelled from the spec: [fail_on_stopiteration] is defined in
  [pyspark.util], outside these sources.  By the comment at its call and
  the spec's rule that an "exhausted" signal of the guest must be
  reported as an explicit error, a [StopIteration] raised by the wrapped
  function is raised as a [RuntimeError] instead; anything else passes.
  The wrapper hands on the arguments it is called with. *)
Definition fail_on_stopiteration (f : stage) : stage :=
fun a kw => match f a kw with
            | Raise StopIteration =>
                Raise (RuntimeError "Caught StopIteration thrown from user's code; failing the task")
            | r => r
            end.

(** [func] of [read_single_udf]: the scalar iterator keeps the chain as
  it is, every other mode guards it against [StopIteration]. *)
Definition func_of (eval_type : PythonEvalType) (chained_func : stage) : stage :=
if decide (eval_type = SQL_SCALAR_PANDAS_ITER_UDF) then chained_func
else fail_on_stopiteration chained_func.

(** The chain part of [read_single_udf]: the function handed to the
  adapter and the return type in force after the loop.  With no stage
  read, [return_type] was never bound. *)
Definition read_func (eval_type : PythonEvalType)
: Stream.reader (stage * DataType) (stage * DataType) :=
Stream.bind read_chain (fun acc =>
  match acc with
  | (Some chained_func, Some return_type) =>
      Stream.ret (func_of eval_type chained_func, return_type)
  | _ => Stream.raise (UnboundLocalError "return_type")
  end).

(** The composition the specification describes: the first function
  receives the input, every later one the output of the one before, as
  its one positional argument. *)
Fixpoint compose_left_to_right (r : outcome V) (fs : list stage) : outcome V :=
match fs with
| [] => r
| g :: fs' =>
    match r with
    | Ret x => compose_left_to_right (g [x] []) fs'
    | Raise e => Raise e
    end
end.

(** How the driver frames a chain: its length, then the stages. *)
Definition encode_chain (cmds : list (stage * DataType))
: Stream.infile (stage * DataType) :=
Stream.FInt (Z.of_nat (length cmds)) :: map Stream.FCommand cmds.

End Chain.
Arguments stage : clear implicits.
End Chain.

(** ** The vectorised adapters *)

Module Vectorized.

(** [zip] over the starred iterables: one row per position, as many rows
    as the shortest iterable has items; no row when nothing is zipped. *)
Fixpoint zip_rows {A} (n : nat) (cols : list (list A)) : list (list A) :=
  match n with
  | 0 => []
  | S n' =>
      match mapM head cols with
      | Some row => row :: zip_rows n' (map tail cols)
      | None => []
      end
  end.

Definition zip_star {A} (cols : list (list A)) : list (list A) :=
  match cols with
  | [] => []
  | c :: _ => zip_rows (length c) cols
  end.

(** [len((list(a) + list(kw.values()))[0])] *)
Definition first_arg_len (a : list pobj) (kw : list (string * pobj)) : outcome nat :=
  x ← getitem (a ++ map snd kw) 0;
  match len_obj x with
  | Some n => Ret n
  | None => Raise (TypeError "object has no len()")
  end.

Section Wrap.
Variable return_type : DataType.

Definition verify_result_type (result : pobj) : outcome pobj :=
  match len_obj result with
  | None =>
      let pd_type :=
        if is_struct return_type then "pandas.DataFrame" else "pandas.Series" in
      Raise (PySparkTypeError (UDF_RETURN_TYPE pd_type (type_name result)))
  | Some _ => Ret result
  end.

Definition verify_result_length (result : pobj) (length : nat) : outcome pobj :=
  match len_obj result with
  | Some n =>
      if Nat.eqb n length then Ret result
      else Raise (PySparkRuntimeError (SCHEMA_MISMATCH_FOR_PANDAS_UDF length n))
  | None => Raise (TypeError "object has no len()")
  end.

(** The two checks as the returned lambda nests them: the result of
    the call is type-checked before the length of the first argument
    is taken. *)
Definition verify (r : outcome pobj) (a : list pobj) (kw : list (string * pobj))
  : outcome (pobj * ArrowType) :=
  result ← r;
  result ← verify_result_type result;
  length ← first_arg_len a kw;
  result ← verify_result_length result length;
  Ret (result, to_arrow_type return_type).

Definition wrap_scalar_pandas_udf (f : pyfun pobj pobj)
  : list pobj -> list (string * pobj) -> outcome (pobj * ArrowType) :=
  fun a kw => verify (f a kw) a kw.

(** The builtins [str] and [bytes]. *)
Variable str : pyval -> pyval.
Variable bytes : pyval -> outcome pyval.

Definition result_func (r : pyval) : outcome pyval :=
  match return_type with
  | StringType => match r with PNone => Ret r | _ => Ret (str r) end
  | BinaryType => match r with PNone => Ret r | _ => bytes r end
  | _ => Ret r
  end.

(** The iterables [evaluate] zips: the positional series, then the
    named ones in the order of [kwargs.keys()]. *)
Definition zipped_columns (args : list Series) (kwargs : list (string * Series))
  : list (list pyval) :=
  map svalues args ++ map (fun kv => svalues (snd kv)) kwargs.

(** One element of the list comprehension of [evaluate]. *)
Definition row_result (f : pyfun pyval pyval)
    (args : list Series) (kwargs : list (string * Series)) (row : list pyval)
  : outcome pyval :=
  let keys := map fst kwargs in
  let len_args := length args in
  r ← f (take len_args row) (zip keys (drop len_args row));
  result_func r.

(** [evaluate]: the function is applied to every row of the zipped
    argument series, and the results are gathered in a new Series. *)
Definition evaluate (f : pyfun pyval pyval)
    (args : list Series) (kwargs : list (string * Series)) : outcome pobj :=
  results ← mapM (row_result f args kwargs) (zip_star (zipped_columns args kwargs));
  Ret (OSeries (mkSeries LNone results)).

Definition wrap_arrow_batch_udf (f : pyfun pyval pyval)
  : list Series -> list (string * Series) -> outcome (pobj * ArrowType) :=
  fun a kw =>
    verify (evaluate f a kw) (map OSeries a) (map (fun kv => (fst kv, OSeries (snd kv))) kw).
End Wrap.

End Vectorized.

(** ** The bounded window adapter *)

Module Window.

(** The bounds of the Python slice [b:e] on a sequence of [n] items: a
    negative bound counts from the end, and both are clipped to the
    sequence. *)
Definition slice_bound (n : nat) (i : Z) : nat :=
  if (i <? 0)%Z then Z.to_nat (Z.max (i + Z.of_nat n) 0)
  else Nat.min (Z.to_nat i) n.

Definition slice {A} (l : list A) (b e : Z) : list A :=
  let lo := slice_bound (length l) b in
  let hi := slice_bound (length l) e in
  take (hi - lo) (drop lo l).

(** [s.iloc[b : e]] *)
Definition iloc (b e : Z) (s : Series) : Series :=
  mkSeries (sname s) (slice (svalues s) b e).

(** The half-open interval of the specification: the items of [l] at the
    positions [p] with [b <= p < e], in their order. *)
Definition interval {A} (b e : Z) (l : list A) : list A :=
  map snd
    (List.filter (fun px => (b <=? Z.of_nat (fst px))%Z && (Z.of_nat (fst px) <? e)%Z)
       (zip (seq 0 (length l)) l)).

(** An argument batch cut to the rows of that interval. *)
Definition between (b e : Z) (s : Series) : Series :=
  mkSeries (sname s) (interval b e (svalues s)).

Section Wrap.
Variable f : pyfun Series pyval.
Variable return_type : DataType.

(** The call of the function on all the series cut by [cut] between a
    pair of bounds. *)
Definition on_window (cut : Z -> Z -> Series -> Series)
    (args : list Series) (kwargs : list (string * Series)) (be : Z * Z) : outcome pyval :=
  f (map (cut (fst be) (snd be)) args)
    (map (fun kv => (fst kv, cut (fst be) (snd be) (snd kv))) kwargs).

(** [s.iloc[begin_array[i] : end_array[i]]], an element of one of the two
    comprehensions: both arrays are indexed for every series. *)
Definition window_slice (begin_array end_array : list Z) (i : nat) (s : Series)
  : outcome Series :=
  b ← getitem begin_array (Z.of_nat i);
  e ← getitem end_array (Z.of_nat i);
  Ret (iloc b e s).

(** The body of the loop for the window [i]: the slices of the
    positional and of the named series, then the call. *)
Definition window_call (begin_array end_array : list Z)
    (args : list Series) (kwargs : list (string * Series)) (i : nat) : outcome pyval :=
  args_slices ← mapM (window_slice begin_array end_array i) args;
  kwargs_slices ← mapM (fun kv => s ← window_slice begin_array end_array i (snd kv);
                                   Ret (fst kv, s)) kwargs;
  f args_slices kwargs_slices.

(** The loop [for i in range(len(begin_array))], over the indices left. *)
Fixpoint window_loop (begin_array end_array : list Z)
    (args : list Series) (kwargs : list (string * Series))
    (indices : list nat) (result : list pyval) : outcome (list pyval) :=
  match indices with
  | [] => Ret result
  | i :: indices' =>
      r ← window_call begin_array end_array args kwargs i;
      window_loop begin_array end_array args kwargs indices' (result ++ [r])
  end.

Definition wrapped (begin_index end_index : list Z)
    (args : list Series) (kwargs : list (string * Series)) : outcome Series :=
  result ← window_loop begin_index end_index args kwargs
             (seq 0 (length begin_index)) [];
  Ret (mkSeries LNone result).

Definition wrap_bounded_window_agg_pandas_udf
    (begin_index end_index : list Z)
    (args : list Series) (kwargs : list (string * Series))
  : outcome (Series * ArrowType) :=
  r ← wrapped begin_index end_index args kwargs;
  Ret (r, to_arrow_type return_type).
End Wrap.

End Window.

(** ** The mapper of the generic batched path *)

Module Mapper.
Section Mapper.
(** [A]: what a row or batch holds at an offset; [R]: what a wrapped UDF
  returns. *)
Context {A R : Type}.

(** An entry of [udfs]: [(args_offsets, kwargs_offsets, f)]. *)
Definition udf : Type := list Z * list (string * Z) * pyfun A R.

(** One element of the generator expression: the positional arguments
  are picked first, then the named ones, then [f] is called. *)
Definition call_udf (a : list A) (u : udf) : outcome R :=
let '(args_offsets, kwargs_offsets, f) := u in
args ← mapM (getitem a) args_offsets;
kwargs ← mapM (fun ko => x ← getitem a (snd ko); Ret (fst ko, x)) kwargs_offsets;
f args kwargs.

(** What [mapper] returns: one result, or the tuple of the results. *)
Inductive mapped :=
| Single (r : R)
| Tuple (rs : list R).

Definition mapper (udfs : list udf) (a : list A) : outcome mapped :=
result ← mapM (call_udf a) udfs;
match result with
| [r] => Ret (Single r)
| _ => Ret (Tuple result)
end.
End Mapper.
Arguments udf : clear implicits.
Arguments mapped : clear implicits.
End Mapper.

(** ** Verification of a pandas result *)

Module PandasResult.

(** [set([field.name for field in return_type.fields])] *)
Definition field_name_set (fields : list StructField) : gset label :=
list_to_set (map (fun fd => LStr (field_name fd)) fields).

(** The guard "check the schema of the result only if it is not empty or
    has columns": [not result.empty or len(result.columns) != 0]. *)
Definition schema_is_checked (result : DataFrame) : bool :=
negb (df_empty result) || negb (Nat.eqb (length (columns result)) 0).

(** The labels of [l] that are not in [s], each once. *)
Definition difference (l : list label) (s : gset label) : list label :=
remove_dups (filter (fun x => x ∉ s) l).

(** [sorted] on a list of strings. *)
Fixpoint insert_sorted (x : string) (l : list string) : list string :=
match l with
| [] => [x]
| y :: l' => if String.leb x y then x :: l else y :: insert_sorted x l'
end.

Definition sorted (l : list string) : list string :=
foldr insert_sorted [] l.

(** [sorted(list(names))] followed by [', '.join]: the names in order when
    all of them are strings.  With a label that is not a string, [sorted]
    raises a TypeError when it compares it with a string, and [join]
    raises one otherwise; the text of the message, which depends on the
    iteration order of the set, is not kept. *)
Definition sorted_names (names : list label) : outcome (list label) :=
match mapM (fun l => match l with LStr x => Some x | _ => None end) names with
| Some xs => Ret (map LStr (sorted xs))
| None => Raise (TypeError "column label is not a str")
end.

Definition verify_pandas_result (result : pobj) (return_type : DataType)
  (assign_cols_by_name truncate_return_schema : bool) : outcome unit :=
match return_type with
| StructType fields =>
    match result with
    | OFrame df =>
        if schema_is_checked df then
          let field_names := field_name_set fields in
          let result_columns :=
            if truncate_return_schema then take (size field_names) (columns df)
            else columns df in
          let column_names : gset label := list_to_set result_columns in
          if assign_cols_by_name
             && existsb is_str (columns df)
             && negb (bool_decide (column_names = field_names))
          then
            missing ← sorted_names
                        (difference (map (fun fd => LStr (field_name fd)) fields)
                           column_names);
            extra ← sorted_names (difference result_columns field_names);
            Raise (PySparkRuntimeError (RESULT_COLUMNS_MISMATCH_FOR_PANDAS_UDF missing extra))
          else if negb (Nat.eqb (length result_columns) (length fields)) then
            Raise (PySparkRuntimeError
                     (RESULT_LENGTH_MISMATCH_FOR_PANDAS_UDF
                        (length fields) (length (columns df))))
          else Ret tt
        else Ret tt
    | _ => Raise (PySparkTypeError (UDF_RETURN_TYPE "pandas.DataFrame" (type_name result)))
    end
| _ =>
    match result with
    | OSeries _ => Ret tt
    | _ => Raise (PySparkTypeError (UDF_RETURN_TYPE "pandas.Series" (type_name result)))
    end
end.

End PandasResult.

(** ** Generators, as their consumer sees them *)

Module Gen.

(** What a consumer gets from an iterator: the elements delivered, and
    the exception that ended the iteration, if it did not end by
    exhaustion. *)
Definition stream (A : Type) : Type := list A * option exn.

(** [(check(x) for x in items)], over an iterator that yields [items] and
    then ends with [ending]: the first element that fails the check ends
    the stream. *)
Fixpoint checked {A B} (check : A -> outcome B) (items : list A) (ending : option exn)
  : stream B :=
match items with
| [] => ([], ending)
| x :: items' =>
    match check x with
    | Ret y => let '(ys, e) := checked check items' ending in (y :: ys, e)
    | Raise e => ([], Some e)
    end
end.

End Gen.

(** ** The stateful grouped-map adapter *)

Module GroupedMapWithState.

(** The GroupState handle: only the timeout flag is read here. *)
Record GroupState := mkGroupState { hasTimedOut : bool; state_object : pyval }.

(** [s[0]] on a Series with the default index. *)
Definition series_first (s : Series) : outcome pyval :=
match svalues s with
| v :: _ => Ret v
| [] => Raise KeyError
end.

(** [pd.concat(series, axis=1)]: one column per series, named after it
    (an unnamed series is labelled by its position); rows are aligned on
    the index, a missing cell is [None]. *)
Definition concat_columns (xs : list Series) : list label :=
imap (fun i s => match sname s with LNone => LInt (Z.of_nat i) | l => l end) xs.

Definition concat_rows (xs : list Series) : list (list pyval) :=
let n := foldr Nat.max 0 (map (fun s => length (svalues s)) xs) in
map (fun i => map (fun s => default PNone (svalues s !! i)) xs) (seq 0 n).

Definition concat (xs : list Series) : outcome DataFrame :=
match xs with
| [] => Raise (ValueError "No objects to concatenate")
| _ => Ret (mkDataFrame (concat_columns xs) (concat_rows xs))
end.

(** What the user function receives as [values]. *)
Inductive values :=
| ValuesList (dfs : list DataFrame)
| ValuesGen (dfs : list (outcome DataFrame)).

(** What the user function returns: a plain object, or an iterator over
    [items] that ends by exhaustion or with an exception. *)
Inductive returned :=
| RObj (o : pobj)
| RIter (items : list pobj) (ending : option exn).

Definition returned_type_name (r : returned) : string :=
match r with
| RObj o => type_name o
| RIter _ _ => "generator"
end.

(** [iter(result_iter)], for the objects that are iterable. *)
Definition iter_of (r : returned) : option (list pobj * option exn) :=
match r with
| RIter items ending => Some (items, ending)
| RObj (OVal v) => (fun xs => (map OVal xs, None)) <$> iter_val v
| RObj (OSeries s) => Some (map OVal (svalues s), None)
| RObj (OFrame df) =>
    Some (map (fun l => match l with
                        | LStr x => OVal (PStr x)
                        | LInt z => OVal (PInt z)
                        | LNone => OVal PNone
                        end) (columns df), None)
end.

Definition user_function : Type :=
pyval -> values -> GroupState -> outcome (returned * GroupState).

(** The branch on [state.hasTimedOut]: the [values] handed to the user
    function, and what is left of [value_series_gen] once they are built.
    On a timeout [next(value_series_gen)] takes the first element for its
    column labels. *)
Definition values_for (state : GroupState) (value_series_gen : list (list Series))
  : outcome (values * list (list Series)) :=
if hasTimedOut state then
  match value_series_gen with
  | [] => Raise StopIteration
  | x :: rest =>
      df ← concat x;
      Ret (ValuesList [mkDataFrame (columns df) []], rest)
  end
else
  Ret (ValuesGen (map concat value_series_gen), value_series_gen).

Section Wrap.
Variable f : user_function.
Variable return_type : DataType.

(** The shape [verify_element] lets through: as many columns as the
    return type has fields, or no column at all in an empty frame. *)
Definition accepted_shape (d : DataFrame) : Prop :=
length (columns d) = type_len return_type
\/ (length (columns d) = 0 /\ df_empty d = true).

Definition verify_element (result : pobj) : outcome DataFrame :=
match result with
| OFrame df =>
    if Nat.eqb (length (columns df)) (type_len return_type)
       || (Nat.eqb (length (columns df)) 0 && df_empty df)
    then Ret df
    else Raise (PySparkRuntimeError
                  (RESULT_LENGTH_MISMATCH_FOR_PANDAS_UDF
                     (type_len return_type) (length (columns df))))
| _ => Raise (PySparkTypeError
                (UDF_RETURN_TYPE "iterator of pandas.DataFrame"
                   ("iterator of " ++ type_name result)%string))
end.

Definition wrapped (key_series : list Series)
  (value_series_gen : list (list Series)) (state : GroupState)
  : outcome (Gen.stream DataFrame * GroupState) :=
key ← mapM series_first key_series;
'(values, _) ← values_for state value_series_gen;
'(result_iter, state) ← f (PTuple key) values state;
match result_iter with
| RObj (OFrame _) =>
    Raise (PySparkTypeError
             (UDF_RETURN_TYPE "iterable of pandas.DataFrame"
                (returned_type_name result_iter)))
| _ =>
    match iter_of result_iter with
    | None =>
        Raise (PySparkTypeError
                 (UDF_RETURN_TYPE "iterable" (returned_type_name result_iter)))
    | Some (items, ending) =>
        Ret (Gen.checked verify_element items ending, state)
    end
end.

(** The lambda the adapter builder returns. *)
Definition wrap_grouped_map_pandas_udf_with_state
  (k : list Series) (v : list (list Series)) (s : GroupState)
  : outcome (list ((Gen.stream DataFrame * GroupState) * ArrowType)) :=
r ← wrapped k v s;
Ret [(r, to_arrow_type return_type)].
End Wrap.

End GroupedMapWithState.

(** ** The iterator adapters and the loop of [read_udfs] *)

Module ScalarIter.

(** A [pyarrow.RecordBatch], held row-wise with the names of its schema. *)
Record RecordBatch := mkRecordBatch {
  schema_names : list string;
  batch_rows : list (list pyval)
}.

(** What travels through an iterator task: a pandas object or a plain
    value, or an arrow record batch. *)
Inductive item :=
| Obj (o : pobj)
| Batch (b : RecordBatch).

(** [type(x).__name__] *)
Definition item_type_name (x : item) : string :=
match x with
| Obj o => type_name o
| Batch _ => "RecordBatch"
end.

(** [len(x)]; the length of a record batch is its number of rows. *)
Definition item_len (x : item) : option nat :=
match x with
| Obj o => len_obj o
| Batch b => Some (length (batch_rows b))
end.

(** What [next(iterator)] gives the user code: the arguments of the next
    batch, the end of the input, or the exception [map_batch] raised. *)
Inductive pulled :=
| Item (udf_args : list item)
| Exhausted
| Failed (e : exn).

(** The iterator a guest function returns, by what it does when it is
    resumed: it ends, yields an element, asks the input iterator for its
    next element, or lets an exception escape. *)
Inductive ugen :=
| Stop
| Yield (elem : item) (k : ugen)
| Next (k : pulled -> ugen)
| Fail (e : exn).

(** What the guest function returns when called with the iterator: a
    plain object, or an iterator. *)
Inductive returned :=
| Object (o : pyval)
| Iterator (g : ugen).

Record loop_state := mkLoopState {
  input : list (list item);
  num_input_rows : nat;
  num_output_rows : nat
}.

(** What the consumer of [func] observes, and the state the loop is left
    in. *)
Record run := mkRun {
  emitted : list (item * ArrowType);
  ended : option exn;
  final : loop_state
}.

Definition emit (x : item * ArrowType) (r : run) : run :=
mkRun (x :: emitted r) (ended r) (final r).

Section Func.
Variable eval_type : PythonEvalType.
Variable return_type : DataType.
Variable arg_offsets : list Z.

Definition is_scalar_iter : bool := bool_decide (eval_type = SQL_SCALAR_PANDAS_ITER_UDF).
Definition is_map_pandas_iter : bool := bool_decide (eval_type = SQL_MAP_PANDAS_ITER_UDF).
Definition is_map_arrow_iter : bool := bool_decide (eval_type = SQL_MAP_ARROW_ITER_UDF).

Definition iter_type_label : string :=
if is_struct return_type then "pandas.DataFrame" else "pandas.Series".

(** The adapter that [read_single_udf] builds for the task:
    [wrap_arrow_batch_iter_udf] for the arrow map iterator,
    [wrap_pandas_batch_iter_udf] for the two pandas iterators.  Both name
    what they expect in their errors. *)
Definition expected : string :=
if is_map_arrow_iter then "iterator of pyarrow.RecordBatch"
else ("iterator of " ++ iter_type_label)%string.

(** [verify_element] of [wrap_pandas_batch_iter_udf]. *)
Definition verify_pandas_element (elem : item) : outcome item :=
let not_an_instance :=
  Raise (PySparkTypeError
           (UDF_RETURN_TYPE ("iterator of " ++ iter_type_label)%string
              ("iterator of " ++ item_type_name elem)%string)) in
match elem with
| Obj o =>
    let is_instance :=
      match o with
      | OFrame _ => is_struct return_type
      | OSeries _ => negb (is_struct return_type)
      | OVal _ => false
      end in
    if is_instance then
      _ ← PandasResult.verify_pandas_result o return_type true true;
      Ret elem
    else not_an_instance
| Batch _ => not_an_instance
end.

(** [verify_element] of [wrap_arrow_batch_iter_udf]: a record batch
    passes as it is. *)
Definition verify_arrow_element (elem : item) : outcome item :=
match elem with
| Batch _ => Ret elem
| Obj _ =>
    Raise (PySparkTypeError
             (UDF_RETURN_TYPE "iterator of pyarrow.RecordBatch"
                ("iterator of " ++ item_type_name elem)%string))
end.

Definition verify_element (elem : item) : outcome item :=
if is_map_arrow_iter then verify_arrow_element elem else verify_pandas_element elem.

(** [verify_result] of both adapters. *)
Definition verify_result (result : returned) : outcome ugen :=
match result with
| Iterator g => Ret g
| Object o =>
    match iter_val o with
    | Some items => Ret (foldr (fun x k => Yield (Obj (OVal x)) k) Stop items)
    | None => Raise (PySparkTypeError (UDF_RETURN_TYPE expected (type_name_val o)))
    end
end.

(** [map_batch]: the arguments picked from the batch, and the rows they
    add to [num_input_rows]. *)
Definition map_batch (batch : list item) : outcome (list item * nat) :=
udf_args ← mapM (getitem batch) arg_offsets;
first ← getitem udf_args 0;
match item_len first with
| Some n => Ret (udf_args, n)
| None => Raise (TypeError "object has no len()")
end.

(** The overrun check of the loop. *)
Definition overrun : exn :=
AssertionError "Pandas SCALAR_ITER UDF outputted more rows than input rows.".

(** The code after the loop, run when the result iterator is exhausted. *)
Definition after_loop (st : loop_state) : run :=
if is_scalar_iter then
  match input st with
  | batch :: rest =>
      match map_batch batch with
      | Ret (_, n) =>
          mkRun []
            (Some (PySparkRuntimeError STOP_ITERATION_OCCURRED_FROM_SCALAR_ITER_PANDAS_UDF))
            (mkLoopState rest (num_input_rows st + n) (num_output_rows st))
      | Raise e =>
          mkRun [] (Some e) (mkLoopState rest (num_input_rows st) (num_output_rows st))
      end
  | [] =>
      if negb (Nat.eqb (num_output_rows st) (num_input_rows st)) then
        mkRun []
          (Some (PySparkRuntimeError
                   (RESULT_LENGTH_MISMATCH_FOR_SCALAR_ITER_PANDAS_UDF
                      (num_output_rows st) (num_input_rows st))))
          st
      else mkRun [] None st
  end
else mkRun [] None st.

(** The loop [for result_batch, result_type in result_iter], driven by the
    guest iterator: a pull goes through [map(map_batch, iterator)], a
    yield goes through [verify_element] and the overrun check.  A guest
    iterator that raises [StopIteration] is exhausted. *)
Fixpoint loop (g : ugen) (st : loop_state) : run :=
match g with
| Stop => after_loop st
| Fail StopIteration => after_loop st
| Fail e => mkRun [] (Some e) st
| Next k =>
    match input st with
    | [] => loop (k Exhausted) st
    | batch :: rest =>
        match map_batch batch with
        | Ret (udf_args, n) =>
            loop (k (Item udf_args))
              (mkLoopState rest (num_input_rows st + n) (num_output_rows st))
        | Raise e =>
            loop (k (Failed e))
              (mkLoopState rest (num_input_rows st) (num_output_rows st))
        end
    end
| Yield elem k =>
    match verify_element elem with
    | Raise e => mkRun [] (Some e) st
    | Ret result_batch =>
        match item_len result_batch with
        | None => mkRun [] (Some (TypeError "object has no len()")) st
        | Some n =>
            let st' := mkLoopState (input st) (num_input_rows st) (num_output_rows st + n) in
            if is_map_pandas_iter || is_map_arrow_iter
               || Nat.leb (num_output_rows st') (num_input_rows st')
            then emit (result_batch, to_arrow_type return_type) (loop k st')
            else mkRun [] (Some overrun) st'
        end
    end
end.

(** [func(_, iterator)], consumed to its end. *)
Definition func (f : returned) (iterator : list (list item)) : run :=
let st := mkLoopState iterator 0 0 in
match verify_result f with
| Ret g => loop g st
| Raise e => mkRun [] (Some e) st
end.

(** The points of a run of the loop that starts with the guest iterator
    [g0] in the state [st0]: the iterator as it stands, the state of the
    loop and the batches delivered so far. *)
Inductive reaches (g0 : ugen) (st0 : loop_state)
  : ugen -> loop_state -> list (item * ArrowType) -> Prop :=
| at_start : reaches g0 st0 g0 st0 []
| after_pull k st out batch rest udf_args n :
    reaches g0 st0 (Next k) st out ->
    input st = batch :: rest ->
    map_batch batch = Ret (udf_args, n) ->
    reaches g0 st0 (k (Item udf_args))
      (mkLoopState rest (num_input_rows st + n) (num_output_rows st)) out
| after_failed_pull k st out batch rest e :
    reaches g0 st0 (Next k) st out ->
    input st = batch :: rest ->
    map_batch batch = Raise e ->
    reaches g0 st0 (k (Failed e))
      (mkLoopState rest (num_input_rows st) (num_output_rows st)) out
| after_empty_pull k st out :
    reaches g0 st0 (Next k) st out ->
    input st = [] ->
    reaches g0 st0 (k Exhausted) st out
| after_yield elem k st out result_batch n :
    reaches g0 st0 (Yield elem k) st out ->
    verify_element elem = Ret result_batch ->
    item_len result_batch = Some n ->
    is_map_pandas_iter || is_map_arrow_iter
    || Nat.leb (num_output_rows st + n) (num_input_rows st) = true ->
    reaches g0 st0 k
      (mkLoopState (input st) (num_input_rows st) (num_output_rows st + n))
      (out ++ [(result_batch, to_arrow_type return_type)]).

(** The rows that a batch of the input holds for the task: those of the
    first argument picked from it, when every argument can be picked. *)
Definition batch_rows_read (batch : list item) : nat :=
match mapM (getitem batch) arg_offsets with
| Ret (first :: _) => default 0 (item_len first)
| _ => 0
end.

(** The rows of the input read with the batches [consumed]. *)
Definition rows_read (consumed : list (list item)) : nat :=
foldr (fun batch acc => batch_rows_read batch + acc) 0 consumed.

End Func.

(** The rows of the emitted batches. *)
Definition emitted_rows (out : list (item * ArrowType)) : nat :=
foldr (fun x acc => default 0 (item_len (fst x)) + acc) 0 out.

End ScalarIter.

(** ** Table functions *)

Module UDTF.

(** An attribute of a handler instance: absent, bound to [None], or a
    method. *)
Inductive attr (M : Type) :=
| Missing
| IsNone
| Method (m : M).
Arguments Missing {M}.
Arguments IsNone {M}.
Arguments Method {M} m.

(** What a handler method returns: [None], an object that cannot be
    iterated, or an iterable that yields [rows] and then ends, by
    exhaustion or with an exception. *)
Inductive method_result :=
| MNone
| MNotIterable (o : pyval)
| MRows (rows : list pyval) (ending : option exn).

(** The calls made on handler instances; an instance is named by its
    rank of creation. *)
Inductive event :=
| Created (id : nat)
| Evaluated (id : nat) (args : list pyval) (kwargs : list (string * pyval))
| Terminated (id : nat).

Definition is_created (ev : event) : bool :=
match ev with Created _ => true | _ => false end.

Definition is_terminated (ev : event) : bool :=
match ev with Terminated _ => true | _ => false end.

Section Handler.
(** [S]: the state a handler instance keeps between calls. *)
Context {S : Type}.

(** A handler class: its constructor and its two methods.  A method
    returns or raises, and leaves the instance in a new state. *)
Record handler_class := mkHandler {
  h_init : outcome S;
  h_eval : attr (S -> list pyval -> list (string * pyval) -> outcome method_result * S);
  h_terminate : attr (S -> outcome method_result * S)
}.

(** What [read_command] may unpickle as the handler. *)
Inductive unpickled :=
| Class (h : handler_class)
| Instance (type_name : string).

(** The objects a task mutates: the calls made so far, the handler
    instance in use ([udtf], or [self._udtf] of the wrapper) and
    [self._prev_arguments]. *)
Record world := mkWorld {
  trace : list event;
  instance : nat * S;
  prev_arguments : list pyval
}.

Definition prog (A : Type) : Type := world -> outcome A * world.

Definition ret {A} (a : A) : prog A := fun w => (Ret a, w).
Definition raise {A} (e : exn) : prog A := fun w => (Raise e, w).
Definition lift {A} (m : outcome A) : prog A := fun w => (m, w).
Definition bind {A B} (m : prog A) (k : A -> prog B) : prog B :=
fun w => match m w with
         | (Ret a, w') => k a w'
         | (Raise e, w') => (Raise e, w')
         end.

(** [try: m except Exception as e: raise handler(e)]; [SystemExit] is not
    an [Exception]. *)
Definition try_except {A} (m : prog A) (handler : exn -> exn) : prog A :=
fun w => match m w with
         | (Raise (SystemExit c), w') => (Raise (SystemExit c), w')
         | (Raise e, w') => (Raise (handler e), w')
         | r => r
         end.

(** The call of the handler class: a new instance, when [__init__]
    returns. *)
Definition construct (h : handler_class) (tr : list event)
  : outcome (nat * S) * list event :=
match h_init h with
| Ret s =>
    let id := length (List.filter is_created tr) in
    (Ret (id, s), tr ++ [Created id])
| Raise e => (Raise e, tr)
end.

(** [self._udtf = self._create_udtf()] *)
Definition create_udtf (h : handler_class) : prog unit :=
fun w => match construct h (trace w) with
         | (Ret inst, tr) => (Ret tt, mkWorld tr inst (prev_arguments w))
         | (Raise e, tr) => (Raise e, mkWorld tr (instance w) (prev_arguments w))
         end.

(** The calls of the methods of the instance in use. *)
Definition call_eval
  (m : S -> list pyval -> list (string * pyval) -> outcome method_result * S)
  (args : list pyval) (kwargs : list (string * pyval)) : prog method_result :=
fun w =>
  let '(id, s) := instance w in
  let '(r, s') := m s args kwargs in
  (r, mkWorld (trace w ++ [Evaluated id args kwargs]) (id, s') (prev_arguments w)).

Definition call_terminate (m : S -> outcome method_result * S) : prog method_result :=
fun w =>
  let '(id, s) := instance w in
  let '(r, s') := m s in
  (r, mkWorld (trace w ++ [Terminated id]) (id, s') (prev_arguments w)).

(** [for row in result: yield row], each row going through the consumer
    of the generator as it is yielded.  An iterator that raises
    [StopIteration] is exhausted. *)
Definition yield_rows {B} (consume : pyval -> outcome B) (result : method_result)
  : outcome (list B) :=
match result with
| MNone => Ret []
| MNotIterable o => Raise (TypeError "object is not iterable")
| MRows rows ending =>
    out ← mapM consume rows;
    match ending with
    | None | Some StopIteration => Ret out
    | Some e => Raise e
    end
end.

(** A call made in the body of a generator: a generator never lets a
    [StopIteration] raised in its body escape, Python raises a
    [RuntimeError] in its place. *)
Definition generator_body {A} (body : prog A) : prog A :=
fun w => match body w with
         | (Raise StopIteration, w') =>
             (Raise (RuntimeError "generator raised StopIteration"), w')
         | r => r
         end.

(** *** UDTFWithPartitions *)

Section Partitions.
Variable h : handler_class.
Variable partition_child_indexes : list Z.

Definition is_row (x : pyval) : bool :=
match x with PRow _ => true | _ => false end.

(** [[x for x in inputs if type(x) is Row][0]] *)
Definition _get_table_arg (inputs : list pyval) : outcome (list pyval) :=
match List.filter is_row inputs with
| PRow items :: _ => Ret items
| _ => Raise IndexError
end.

(** [any(k != v for k, v in zip(cur, prev))] *)
Definition any_differ (cur prev : list pyval) : bool :=
existsb (fun kv => negb (pyval_eqb (fst kv) (snd kv))) (zip cur prev).

Definition _check_partition_boundaries (arguments : list pyval) : prog bool :=
fun w =>
  let finish (result : bool) :=
    (Ret result, mkWorld (trace w) (instance w) arguments) in
  if Nat.ltb 0 (length (prev_arguments w)) then
    match
      cur_table_arg ← _get_table_arg arguments;
      prev_table_arg ← _get_table_arg (prev_arguments w);
      mapM (fun i =>
              c ← getitem cur_table_arg i;
              p ← getitem prev_table_arg i;
              Ret (c, p)) partition_child_indexes
    with
    | Ret pairs => finish (any_differ (map fst pairs) (map snd pairs))
    | Raise e => (Raise e, w)
    end
  else finish false.

(** The generator [eval] of the wrapper, run to its end by a consumer
    that applies [consume] to every row it is given. *)
Definition partitioned_eval {B} (consume : pyval -> outcome B)
  (args : list pyval) (kwargs : list (string * pyval)) : prog (list B) :=
bind (_check_partition_boundaries (args ++ map snd kwargs)) (fun changed_partitions =>
bind (if changed_partitions then
        bind (match h_terminate h with
              | Missing => raise (AttributeError "terminate")
              | IsNone => ret []
              | Method m =>
                  bind (generator_body (call_terminate m)) (fun result =>
                  lift (yield_rows consume result))
              end) (fun out =>
        bind (generator_body (create_udtf h)) (fun _ => ret out))
      else ret []) (fun out1 =>
bind (match h_eval h with
      | Missing => raise (AttributeError "eval")
      | IsNone => ret []
      | Method m =>
          bind (generator_body (call_eval m args kwargs)) (fun result =>
          lift (yield_rows consume result))
      end) (fun out2 =>
ret (out1 ++ out2)))).

(** [terminate] of the wrapper. *)
Definition partitioned_terminate : prog method_result :=
match h_terminate h with
| Missing => raise (AttributeError "terminate")
| IsNone => ret (MRows [] None)
| Method m => call_terminate m
end.

End Partitions.

(** *** read_udtf *)

(** The object [udtf]: the handler instance itself, or the wrapper when
    partition columns are declared. *)
Inductive udtf_object :=
| Plain (h : handler_class)
| UDTFWithPartitions (h : handler_class) (partition_child_indexes : list Z).

(** [hasattr(udtf, "eval")] and [hasattr(udtf, "terminate")]: the wrapper
    class defines both methods. *)
Definition has_eval (udtf : udtf_object) : bool :=
match udtf with
| Plain h => match h_eval h with Missing => false | _ => true end
| UDTFWithPartitions _ _ => true
end.

Definition has_terminate (udtf : udtf_object) : bool :=
match udtf with
| Plain h => match h_terminate h with Missing => false | _ => true end
| UDTFWithPartitions _ _ => true
end.

Record decoded := mkDecoded {
  d_args_offsets : list Z;
  d_kwargs_offsets : list (string * Z);
  d_udtf : udtf_object;
  d_return_type : DataType;
  d_world : world
}.

(** [_parse_datatype_json_string] of [pyspark.sql.types]. *)
Variable parse_datatype_json_string : string -> outcome DataType.

(** The runner configuration read for the arrow variant. *)
Definition read_conf : Stream.reader unpickled (list (string * string)) :=
Stream.bind Stream.read_int (fun num_conf =>
Stream.for_range (Z.to_nat num_conf)
  (fun runner_conf =>
     Stream.bind Stream.read_utf8 (fun k =>
     Stream.bind Stream.read_utf8 (fun v =>
     Stream.ret (dict_set runner_conf k v)))) []).

(** [read_udtf], up to the validation of the handler. *)
Definition read_udtf (eval_type : PythonEvalType) : Stream.reader unpickled decoded :=
Stream.bind (if decide (eval_type = SQL_ARROW_TABLE_UDF)
             then read_conf else Stream.ret []) (fun _ =>
Stream.bind Stream.read_int (fun num_arg =>
Stream.bind (Stream.read_named_offsets num_arg) (fun '(args_offsets, kwargs_offsets) =>
Stream.bind Stream.read_int (fun num_partition_child_indexes =>
Stream.bind (Stream.read_plain_offsets num_partition_child_indexes)
  (fun partition_child_indexes =>
Stream.bind Stream.read_command (fun handler =>
match handler with
| Instance type_name =>
    Stream.raise (PySparkRuntimeError (INVALID_UDTF_HANDLER_TYPE type_name))
| Class h =>
    Stream.bind Stream.read_utf8 (fun json =>
    fun rest =>
      match parse_datatype_json_string json with
      | Raise e => Raise e
      | Ret return_type =>
          if negb (is_struct return_type) then
            Raise (PySparkRuntimeError UDTF_RETURN_TYPE_NOT_STRUCT)
          else
            (* Instantiate the UDTF class. *)
            match construct h [] with
            | (Raise (SystemExit c), _) => Raise (SystemExit c)
            | (Raise e, _) =>
                Raise (PySparkRuntimeError (UDTF_EXEC_ERROR "__init__" e))
            | (Ret inst, tr) =>
                let udtf :=
                  if Nat.ltb 0 (length partition_child_indexes)
                  then UDTFWithPartitions h partition_child_indexes
                  else Plain h in
                (* Validate the UDTF *)
                if negb (has_eval udtf) then
                  Raise (PySparkRuntimeError UDTF_EVAL_NOT_IMPLEMENTED)
                else
                  Ret (mkDecoded args_offsets kwargs_offsets udtf return_type
                         (mkWorld tr inst []), rest)
            end
      end)
end)))))).

(** *** The row-based adapter and its mapper

    The adapter of [SQL_TABLE_UDF].  The vectorised variant wraps the same
    [udtf] object and differs in how a result is turned into a batch and
    verified. *)

Section RowMode.
Variable return_type : DataType.

(** [isinstance(result, (list, dict, tuple)) or hasattr(result, "__dict__")];
    a [Row] is a tuple. *)
Definition is_row_like (result : pyval) : bool :=
match result with
| PList _ | PTuple _ | PRow _ | PDict _ | PObject _ _ _ => true
| PNone | PInt _ | PStr _ | PBytes _ => false
end.

(** [hasattr(result, "__len__") and len(result) != return_type_size] *)
Definition has_other_length (result : pyval) (return_type_size : nat) : bool :=
match len_val result with
| Some n => negb (Nat.eqb n return_type_size)
| None => false
end.

(** [verify_and_convert_result] of [wrap_udtf]; the conversion by
    [toInternal] of [pyspark.sql.types] is left out, a row is kept as it
    is. *)
Definition verify_and_convert_result (result : pyval) : outcome pyval :=
let return_type_size := type_len return_type in
match result with
| PNone => Ret result
| _ =>
    if has_other_length result return_type_size then
      Raise (PySparkRuntimeError
               (UDTF_RETURN_SCHEMA_MISMATCH return_type_size (default 0 (len_val result))))
    else if negb (is_row_like result) then
      Raise (PySparkRuntimeError (UDTF_INVALID_OUTPUT_ROW_TYPE (type_name_val result)))
    else Ret result
end.

(** [evaluate] of [wrap_udtf] around a method that is called, not
    resumed: an exception of the call is reported as UDTF_EXEC_ERROR. *)
Definition evaluate_call (method_name : string) (call : prog method_result)
  : prog (list pyval) :=
bind (try_except call
        (fun e => PySparkRuntimeError (UDTF_EXEC_ERROR method_name e))) (fun res =>
match res with
| MNone => ret []
| MNotIterable o =>
    raise (PySparkRuntimeError (UDTF_RETURN_NOT_ITERABLE (type_name_val o)))
| _ => lift (yield_rows verify_and_convert_result res)
end).

(** [eval = wrap_udtf(getattr(udtf, "eval"), return_type)].  The [eval]
    of the wrapper is a generator function: calling it raises nothing,
    and [evaluate] runs it by feeding its rows to
    [verify_and_convert_result].  A handler attribute bound to [None] is
    not callable, and the [except] clause of [evaluate] then fails on its
    [__name__]. *)
Definition eval (udtf : udtf_object)
  (args : list pyval) (kwargs : list (string * pyval)) : prog (list pyval) :=
match udtf with
| UDTFWithPartitions h partition_child_indexes =>
    partitioned_eval h partition_child_indexes verify_and_convert_result args kwargs
| Plain h =>
    match h_eval h with
    | Method m => evaluate_call "eval" (call_eval m args kwargs)
    | IsNone => raise (AttributeError "__name__")
    | Missing => raise (AttributeError "eval")
    end
end.

(** [terminate], when [hasattr(udtf, "terminate")]. *)
Definition terminate (udtf : udtf_object) : option (prog (list pyval)) :=
if has_terminate udtf then
  Some match udtf with
       | UDTFWithPartitions h _ => evaluate_call "terminate" (partitioned_terminate h)
       | Plain h =>
           match h_terminate h with
           | Method m => evaluate_call "terminate" (call_terminate m)
           | IsNone => raise (AttributeError "__name__")
           | Missing => raise (AttributeError "terminate")
           end
       end
else None.

Variable args_offsets : list Z.
Variable kwargs_offsets : list (string * Z).
Variable udtf : udtf_object.

(** The body of the loop of [mapper] for the input row [a]. *)
Definition mapper_step (a : list pyval) : prog (list pyval) :=
bind (lift (mapM (getitem a) args_offsets)) (fun args =>
bind (lift (mapM (fun ko => x ← getitem a (snd ko); Ret (fst ko, x)) kwargs_offsets))
  (fun kwargs =>
eval udtf args kwargs)).

(** The [finally] clause of [mapper]: [terminate] is called once, also
    when an exception is on its way. *)
Definition mapper_finally (pending : option exn) (w : world)
  : Gen.stream (list pyval) * world :=
match terminate udtf with
| None => (([], pending), w)
| Some t =>
    match t w with
    | (Ret out, w') => (([out], pending), w')
    | (Raise e, w') => (([], Some e), w')
    end
end.

(** A method result that [evaluate] accepts: [None], or rows that all
    pass [verify_and_convert_result]. *)
Definition valid_result (r : outcome method_result) : bool :=
match r with
| Ret MNone => true
| Ret (MRows rows None) =>
    forallb (fun row => returns (verify_and_convert_result row)) rows
| _ => false
end.

(** [mapper(_, it)], consumed to its end. *)
Fixpoint mapper (it : list (list pyval)) (w : world)
  : Gen.stream (list pyval) * world :=
match it with
| [] => mapper_finally None w
| a :: it' =>
    match mapper_step a w with
    | (Ret out, w') =>
        let '((outs, e), w'') := mapper it' w' in ((out :: outs, e), w'')
    | (Raise e, w') => mapper_finally (Some e) w'
    end
end.

End RowMode.

End Handler.
Arguments handler_class : clear implicits.
Arguments unpickled : clear implicits.
Arguments world : clear implicits.
Arguments udtf_object : clear implicits.
Arguments decoded : clear implicits.

Definition count_created (tr : list event) : nat :=
length (List.filter is_created tr).

Definition count_terminated (tr : list event) : nat :=
length (List.filter is_terminated tr).

End UDTF.

(** ** The task runner *)

Module Main.

(** What the worker writes. *)
Inductive written :=
| WInt (z : Z)
| WLong (z : Z)
| WBytes (s : string).

Section Main.
Context {C : Type}.

(** The two streams of a task: the fields not read yet, what has been
    written, and whether the peer has closed the output. *)
Record io := mkIO {
  infile : Stream.infile C;
  outfile : list written;
  out_closed : bool
}.

(** How the process ends: [sys.exit(code)], or [main] returns. *)
Inductive ending :=
| Exited (code : Z)
| Returned.

Definition write (x : written) (s : io) : outcome unit * io :=
if out_closed s then (Raise IOError, s)
else (Ret tt, mkIO (infile s) (outfile s ++ [x]) false).

(** [SpecialLengths.PYTHON_EXCEPTION_THROWN] of [pyspark.serializers]. *)
Variable PYTHON_EXCEPTION_THROWN : Z.

(** [traceback.format_exc()] *)
Variable format_exc : exn -> string.

(** The fault handler that [main] installs and removes around the [try]
    statement writes to a file of its own and is left out. *)

(** The task between the check of the partition index and the end of the
    [try] block: version check, task context, broadcasts, decoding of the
    command and [process()]. *)
Variable task : Z -> io -> outcome unit * io.

(** The code after the [try] statement: timing report, accumulators and
    the end-of-stream handshake. *)
Variable report : io -> ending * io.

(** The clause [except BaseException]: the exception is reported, unless
    the peer has closed the stream, and the process exits with -1. *)
Definition except_BaseException (e : exn) (s : io) : ending * io :=
match write (WInt PYTHON_EXCEPTION_THROWN) s with
| (Ret _, s1) =>
    match write (WBytes (format_exc e)) s1 with
    | (_, s2) => (Exited (-1), s2)
    end
| (Raise _, s1) => (Exited (-1), s1)
end.

Definition main (s : io) : ending * io :=
match Stream.read_int (infile s) with
| Raise e => except_BaseException e s
| Ret (split_index, rest) =>
    let s1 := mkIO rest (outfile s) (out_closed s) in
    if (split_index =? -1)%Z then
      (* sys.exit(-1), inside the try block *)
      except_BaseException (SystemExit (-1)) s1
    else
      match task split_index s1 with
      | (Raise e, s2) => except_BaseException e s2
      | (Ret _, s2) => report s2
      end
end.

End Main.
Arguments io : clear implicits.
End Main.

(** ** Guest functions used in the examples *)

Module Examples.

(** The sum of the integers of the first argument series. *)
Definition sum_first : pyfun Series pyval := fun args _ =>
  match args with
  | s :: _ =>
      Ret (PInt (fold_right
                   (fun v acc => match v with PInt z => (z + acc)%Z | _ => acc end)
                   0%Z (svalues s)))
  | [] => Raise (TypeError "missing argument")
  end.

(** The number of series it is given, positional and named. *)
Definition count_arguments : pyfun Series pyval := fun args kwargs =>
  Ret (PInt (Z.of_nat (length args + length kwargs))).

(** A stateful grouped-map function that ignores its input and yields one
    frame of shape (1, 0), the frame of [pd.DataFrame([()])]. *)
Definition yield_empty_row : GroupedMapWithState.user_function :=
fun _ _ state =>
  Ret (GroupedMapWithState.RIter [OFrame (mkDataFrame [] [[]])] None, state).

(** A stateful grouped-map function that yields one frame of two columns
    and no row. *)
Definition yield_two_columns : GroupedMapWithState.user_function :=
fun _ _ state =>
  Ret (GroupedMapWithState.RIter
         [OFrame (mkDataFrame [LStr "a"; LStr "b"] [])] None, state).

(** A scalar-iterator function that reads one batch and then yields six
    rows. *)
Definition six_rows : Series :=
mkSeries LNone [PInt 1; PInt 2; PInt 3; PInt 4; PInt 5; PInt 6].

Definition six_after_one_batch : ScalarIter.ugen :=
ScalarIter.Next
  (fun _ => ScalarIter.Yield (ScalarIter.Obj (OSeries six_rows)) ScalarIter.Stop).

Definition yield_six_after_one_batch : ScalarIter.returned :=
ScalarIter.Iterator six_after_one_batch.

(** An arrow iterator that does the same with a record batch of six
    rows. *)
Definition six_row_batch : ScalarIter.RecordBatch :=
ScalarIter.mkRecordBatch ["x"] [[PInt 1]; [PInt 2]; [PInt 3]; [PInt 4]; [PInt 5]; [PInt 6]].

Definition five_row_batch : ScalarIter.RecordBatch :=
ScalarIter.mkRecordBatch ["x"] [[PInt 1]; [PInt 2]; [PInt 3]; [PInt 4]; [PInt 5]].

Definition six_after_one_record_batch : ScalarIter.ugen :=
ScalarIter.Next
  (fun _ => ScalarIter.Yield (ScalarIter.Batch six_row_batch) ScalarIter.Stop).

(** The identity scalar-iterator function, [for batch in it: yield batch],
    over at most [n] batches. *)
Fixpoint echo (n : nat) : ScalarIter.ugen :=
match n with
| 0 => ScalarIter.Stop
| S n' =>
    ScalarIter.Next (fun p =>
      match p with
      | ScalarIter.Item [x] => ScalarIter.Yield x (echo n')
      | ScalarIter.Item _ => ScalarIter.Fail (TypeError "one argument expected")
      | ScalarIter.Exhausted => ScalarIter.Stop
      | ScalarIter.Failed e => ScalarIter.Fail e
      end)
end.

(** A table-function handler that counts the rows of its partition and
    reports the count when it is terminated. *)
Definition counting_handler : UDTF.handler_class nat :=
UDTF.mkHandler (Ret 0)
  (UDTF.Method (fun n _ _ => (Ret UDTF.MNone, S n)))
  (UDTF.Method (fun n => (Ret (UDTF.MRows [PTuple [PInt (Z.of_nat n)]] None), n))).

(** A handler class without an [eval] method. *)
Definition no_eval_handler : UDTF.handler_class unit :=
UDTF.mkHandler (Ret tt) UDTF.Missing
  (UDTF.Method (fun s => (Ret UDTF.MNone, s))).

(** A parser that knows one schema, of one field. *)
Definition parse_one_field : string -> outcome DataType :=
fun _ => Ret (StructType [mkField "n"]).

(** The command of a table function with one positional argument at
    offset 0 and the given partition columns. *)
Definition udtf_command {S} (partition_child_indexes : list Z) (h : UDTF.handler_class S)
  : Stream.infile (UDTF.unpickled S) :=
[Stream.FInt 1; Stream.FInt 0; Stream.FBool false;
 Stream.FInt (Z.of_nat (length partition_child_indexes))]
++ map Stream.FInt partition_child_indexes
++ [Stream.FCommand (UDTF.Class h); Stream.FUtf8 "struct<n:int>"].

(** Three stages on integers; each takes its argument by position or
    under the name [x]. *)
Definition one_argument (body : Z -> Z) : Chain.stage Z :=
fun a kw =>
  match a, kw with
  | [x], [] => Ret (body x)
  | [], [(name, x)] =>
      if String.eqb name "x" then Ret (body x)
      else Raise (TypeError "unexpected keyword argument")
  | _, _ => Raise (TypeError "arity")
  end.

Definition inc : Chain.stage Z := one_argument (fun x => (x + 1)%Z).
Definition dbl : Chain.stage Z := one_argument (fun x => (2 * x)%Z).
Definition neg : Chain.stage Z := one_argument (fun x => (- x)%Z).

Definition five_rows : Series :=
mkSeries (LStr "x") [PInt 1; PInt 2; PInt 3; PInt 4; PInt 5].

Definition two_rows : Series := mkSeries (LStr "x") [PInt 6; PInt 7].

End Examples.

(** ** The driver's side of the argument protocol *)

Module Driver.
Section Driver.
Context {C : Type}.

(** How the driver frames a list of plain offsets: one integer each. *)
Definition encode_plain_offsets (offsets : list Z) : Stream.infile C :=
map Stream.FInt offsets.

(** How the driver frames arguments in the protocol with named
    arguments: the offset, the flag, and the name when there is one. *)
Definition encode_argument (arg : Z * option string) : Stream.infile C :=
match snd arg with
| None => [Stream.FInt (fst arg); Stream.FBool false]
| Some name => [Stream.FInt (fst arg); Stream.FBool true; Stream.FUtf8 name]
end.

Definition encode_arguments (args : list (Z * option string)) : Stream.infile C :=
concat (map encode_argument args).

End Driver.

(** The offsets of the arguments passed by position, in their order. *)
Definition positional (args : list (Z * option string)) : list Z :=
omap (fun arg => match snd arg with None => Some (fst arg) | Some _ => None end) args.

(** The dict of the arguments passed by name, filled in their order. *)
Definition named (args : list (Z * option string)) (d : list (string * Z))
  : list (string * Z) :=
fold_left (fun d arg => match snd arg with
                        | Some name => dict_set d name (fst arg)
                        | None => d
                        end) args d.

End Driver.

(** ** Measures used in the statements *)

Module Measure.

(** The length of the shortest of the columns, capped by [n]. *)
Definition shortest {A} (n : nat) (cols : list (list A)) : nat :=
foldr (fun c m => Nat.min (length c) m) n cols.

End Measure.

(** ** The vectorised table function: verification of a result *)

Module ArrowUDTF.

(** [verify_result] of [wrap_arrow_udtf], on a result that is a DataFrame
    (any other object raises INVALID_ARROW_UDTF_RETURN_TYPE before these
    checks): the number of columns is checked when the frame has rows or
    columns, then [verify_pandas_result] is run by position without
    truncation. *)
Definition verify_result (return_type : DataType) (result : DataFrame)
  : outcome DataFrame :=
let return_type_size := type_len return_type in
if Nat.ltb 0 (length (rows result)) || Nat.ltb 0 (length (columns result)) then
  if negb (Nat.eqb (length (columns result)) return_type_size) then
    Raise (PySparkRuntimeError
             (UDTF_RETURN_SCHEMA_MISMATCH return_type_size (length (columns result))))
  else
    _ ← PandasResult.verify_pandas_result (OFrame result) return_type false false;
    Ret result
else
  _ ← PandasResult.verify_pandas_result (OFrame result) return_type false false;
  Ret result.

End ArrowUDTF.

(** ** Well-behaved guest iterators *)

Module GuestIterator.

(** A guest iterator that raises nothing itself and yields only elements
    that pass the element check of the adapter of the task, whatever the
    input iterator answers. *)
Inductive well_behaved (eval_type : PythonEvalType) (return_type : DataType)
  : ScalarIter.ugen -> Prop :=
| wb_Stop : well_behaved eval_type return_type ScalarIter.Stop
| wb_Yield (elem : ScalarIter.item) (k : ScalarIter.ugen) :
    returns (ScalarIter.verify_element eval_type return_type elem) = true ->
    well_behaved eval_type return_type k ->
    well_behaved eval_type return_type (ScalarIter.Yield elem k)
| wb_Next (k : ScalarIter.pulled -> ScalarIter.ugen) :
    (forall p, well_behaved eval_type return_type (k p)) ->
    well_behaved eval_type return_type (ScalarIter.Next k).

End GuestIterator.

(** ** Key and value offsets of the grouped modes *)

Module GroupedOffsets.

(** The body of the [while] loop of [extract_key_value_indexes], run at
    most [fuel] times: [None] when the loop has not ended by then.  The
    slices are Python slices; [idx] may go back when a group declares a
    negative length. *)
Fixpoint extract_loop (fuel : nat) (grouped_arg_offsets : list Z) (idx : Z)
  (parsed : list (list Z * list Z)) : option (outcome (list (list Z * list Z))) :=
match fuel with
| 0 => None
| S fuel' =>
    if (idx <? Z.of_nat (length grouped_arg_offsets))%Z then
      match getitem grouped_arg_offsets idx with
      | Raise e => Some (Raise e)
      | Ret offsets_len =>
          let idx := (idx + 1)%Z in
          let offsets := Window.slice grouped_arg_offsets idx (idx + offsets_len) in
          match getitem offsets 0 with
          | Raise e => Some (Raise e)
          | Ret first =>
              let split_index := (first + 1)%Z in
              let offset_keys := Window.slice offsets 1 split_index in
              let offset_values :=
                Window.slice offsets split_index (Z.of_nat (length offsets)) in
              extract_loop fuel' grouped_arg_offsets (idx + offsets_len)
                (parsed ++ [(offset_keys, offset_values)])
          end
      end
    else Some (Ret parsed)
end.

Definition extract_key_value_indexes (fuel : nat) (grouped_arg_offsets : list Z)
  : option (outcome (list (list Z * list Z))) :=
extract_loop fuel grouped_arg_offsets 0 [].

(** The format of the docstring: the length of the group, the number of
    key indexes, the key indexes, the value indexes. *)
Definition encode_group (g : list Z * list Z) : list Z :=
Z.of_nat (1 + length (fst g) + length (snd g))
:: Z.of_nat (length (fst g)) :: fst g ++ snd g.

Definition encode_groups (groups : list (list Z * list Z)) : list Z :=
concat (map encode_group groups).

End GroupedOffsets.

(** ** The grouped-map and cogrouped-map adapters *)

Module GroupedMap.
Section Wrap.
(** The user function, called with positional arguments: the key tuple
    when it takes one, and the frames. *)
Variable f : list pobj -> outcome pobj.
Variable return_type : DataType.
(** [len(argspec.args)] *)
Variable nargs : nat.
(** [assign_cols_by_name(runner_conf)], computed when the adapter is
    built. *)
Variable _assign_cols_by_name : bool.

(** [tuple(s[0] for s in key_series)] *)
Definition key_of (key_series : list Series) : outcome pobj :=
key ← mapM GroupedMapWithState.series_first key_series;
Ret (OVal (PTuple key)).

(** The end of both [wrapped] functions: the result, when a branch has
    bound it, is verified and returned. *)
Definition verified (result : option pobj) : outcome pobj :=
match result with
| None => Raise (UnboundLocalError "result")
| Some r =>
    _ ← PandasResult.verify_pandas_result r return_type _assign_cols_by_name false;
    Ret r
end.

(** [wrapped] of [wrap_grouped_map_pandas_udf] *)
Definition grouped_wrapped (key_series value_series : list Series) : outcome pobj :=
match nargs with
| 1 =>
    df ← GroupedMapWithState.concat value_series;
    result ← f [OFrame df];
    verified (Some result)
| 2 =>
    key ← key_of key_series;
    df ← GroupedMapWithState.concat value_series;
    result ← f [key; OFrame df];
    verified (Some result)
| _ => verified None
end.

Definition wrap_grouped_map_pandas_udf (k v : list Series)
  : outcome (list (pobj * ArrowType)) :=
r ← grouped_wrapped k v;
Ret [(r, to_arrow_type return_type)].

(** [wrapped] of [wrap_cogrouped_map_pandas_udf] *)
Definition cogrouped_wrapped
  (left_key_series left_value_series right_key_series right_value_series : list Series)
  : outcome pobj :=
left_df ← GroupedMapWithState.concat left_value_series;
right_df ← GroupedMapWithState.concat right_value_series;
match nargs with
| 2 =>
    result ← f [OFrame left_df; OFrame right_df];
    verified (Some result)
| 3 =>
    let key_series :=
      if negb (df_empty left_df) then left_key_series else right_key_series in
    key ← key_of key_series;
    result ← f [key; OFrame left_df; OFrame right_df];
    verified (Some result)
| _ => verified None
end.

Definition wrap_cogrouped_map_pandas_udf (kl vl kr vr : list Series)
  : outcome (list (pobj * ArrowType)) :=
r ← cogrouped_wrapped kl vl kr vr;
Ret [(r, to_arrow_type return_type)].

End Wrap.
End GroupedMap.

(** ** More guest functions used in the examples *)

Module MoreExamples.

(** A grouped-map function that returns its last argument, the frame of
    the group (the right one for a cogroup). *)
Definition last_argument : list pobj -> outcome pobj :=
fun a => getitem a (-1).

(** A cogrouped-map function of three arguments that returns a frame of
    one column named a and one row: the first value of the key. *)
Definition key_as_frame : list pobj -> outcome pobj :=
fun a =>
  match a with
  | [OVal (PTuple (k :: _)); OFrame _; OFrame _] =>
      Ret (OFrame (mkDataFrame [LStr "a"] [[k]]))
  | _ => Raise (TypeError "three arguments expected")
  end.

Definition key_column : Series := mkSeries (LStr "k") [PInt 7; PInt 7].
Definition value_column : Series := mkSeries (LStr "a") [PInt 10; PInt 20].
Definition empty_key_column : Series := mkSeries (LStr "k") [].
Definition empty_value_column : Series := mkSeries (LStr "a") [].

(** The eval method of a handler that fails on the argument 0 and counts
    the other rows, and its terminate method. *)
Definition eval_unless_zero (n : nat) (args : list pyval) (kwargs : list (string * pyval))
  : outcome UDTF.method_result * nat :=
match args with
| [PInt 0] => (Raise (UserException "zero"), n)
| _ => (Ret UDTF.MNone, S n)
end.

Definition report_count (n : nat) : outcome UDTF.method_result * nat :=
(Ret (UDTF.MRows [PTuple [PInt (Z.of_nat n)]] None), n).

Definition unless_zero_handler : UDTF.handler_class nat :=
UDTF.mkHandler (Ret 0) (UDTF.Method eval_unless_zero) (UDTF.Method report_count).

(** A handler whose eval is a generator: it yields its argument as a row
    of one field, and on the argument 0 it raises after that row. *)
Definition eval_generator (n : nat) (args : list pyval) (kwargs : list (string * pyval))
  : outcome UDTF.method_result * nat :=
match args with
| [PInt 0] => (Ret (UDTF.MRows [PTuple [PInt 0]] (Some (UserException "zero"))), n)
| [x] => (Ret (UDTF.MRows [PTuple [x]] None), S n)
| _ => (Ret UDTF.MNone, n)
end.

Definition generator_handler : UDTF.handler_class nat :=
UDTF.mkHandler (Ret 0) (UDTF.Method eval_generator) (UDTF.Method report_count).

(** A parser that knows two type names. *)
Definition parse_struct_or_string (json : string) : outcome DataType :=
if decide (json = "string") then Ret StringType else Ret (StructType [mkField "n"]).

(** A handler class whose constructor raises. *)
Definition failing_init_handler : UDTF.handler_class nat :=
UDTF.mkHandler (Raise (ValueError "init")) (UDTF.Method eval_unless_zero)
  (UDTF.Method report_count).

(** A task body that writes the partition index and then raises. *)
Definition failing_task (split_index : Z) (s : Main.io unit) : outcome unit * Main.io unit :=
match Main.write (Main.WInt split_index) s with
| (Ret _, s1) => (Raise (ValueError "task"), s1)
| (Raise e, s1) => (Raise e, s1)
end.

End MoreExamples.

(** ** Table functions: what the statements count *)

Module Lifecycle.

(** The number of rows whose partition key differs from the key of the
    row before; [prev] is the key of the row before the first one. *)
Fixpoint key_changes (prev : Z) (keys : list Z) : nat :=
match keys with
| [] => 0
| k :: keys' => (if (k =? prev)%Z then 0 else 1) + key_changes k keys'
end.

Definition changes (keys : list Z) : nat :=
match keys with
| [] => 0
| k :: keys' => key_changes k keys'
end.

Definition is_evaluated (ev : UDTF.event) : bool :=
match ev with UDTF.Evaluated _ _ _ => true | _ => false end.

Definition count_evaluated (tr : list UDTF.event) : nat :=
length (List.filter is_evaluated tr).

(** [isinstance(e, Exception)]: of the exceptions of the model only
    [SystemExit] is not one. *)
Definition is_Exception (e : exn) : bool :=
match e with SystemExit _ => false | _ => true end.

(** The call recorded for the arguments [ak] on the instance [id]. *)
Definition evaluated (id : nat) (ak : list pyval * list (string * pyval)) : UDTF.event :=
UDTF.Evaluated id (fst ak) (snd ak).

(** The arguments that [mapper] picks from the input row [a]. *)
Definition picked (args_offsets : list Z) (kwargs_offsets : list (string * Z))
  (a : list pyval) : outcome (list pyval * list (string * pyval)) :=
args ← mapM (getitem a) args_offsets;
kwargs ← mapM (fun ko => x ← getitem a (snd ko); Ret (fst ko, x)) kwargs_offsets;
Ret (args, kwargs).

(** The input row that holds one table argument: a Row that starts with
    the partition key. *)
Definition keyed_row (kr : Z * list pyval) : list pyval :=
[PRow (PInt (fst kr) :: snd kr)].

(** How the driver frames the command of a table function: the runner
    configuration for the vectorised variant, the arguments, the partition
    columns, the pickled handler and the return type as JSON. *)
Definition encode_conf {C} (conf : list (string * string)) : Stream.infile C :=
Stream.FInt (Z.of_nat (length conf))
:: concat (map (fun kv => [Stream.FUtf8 (fst kv); Stream.FUtf8 (snd kv)]) conf).

Definition encode_command {S} (eval_type : PythonEvalType) (conf : list (string * string))
  (args : list (Z * option string)) (partition_child_indexes : list Z)
  (handler : UDTF.unpickled S) (json : string) : Stream.infile (UDTF.unpickled S) :=
(if decide (eval_type = SQL_ARROW_TABLE_UDF) then encode_conf conf else [])
++ Stream.FInt (Z.of_nat (length args)) :: Driver.encode_arguments args
++ Stream.FInt (Z.of_nat (length partition_child_indexes))
   :: Driver.encode_plain_offsets partition_child_indexes
++ [Stream.FCommand handler; Stream.FUtf8 json].

End Lifecycle.

(** * Properties *)

(** ** The function chain *)

Lemma last_cons_default {A} (l : list A) (x d d' : A) :
  List.last (x :: l) d = List.last (x :: l) d'.
Proof.
  revert x. induction l as [|y l IH]; intros x; [reflexivity|].
  change (List.last (y :: l) d = List.last (y :: l) d'). apply IH.
Qed.

Section ChainProperties.
Context {V : Type}.
Import Chain.

Lemma compose_left_to_right_raise (e : exn) (fs : list (stage V)) :
  compose_left_to_right (Raise e) fs = Raise e.
Proof. destruct fs; reflexivity. Qed.

(** Reading the remaining stages extends the chain read so far: on
    positional arguments the chain composes its stages, and once a second
    stage is read it refuses keyword arguments. *)
Lemma read_chain_loop (rest : list (stage V * DataType)) :
  forall (c : stage V) (t : DataType) (tail : Stream.infile (stage V * DataType)),
  exists chained,
    Stream.for_range (length rest) read_chain_step (Some c, Some t)
      (map Stream.FCommand rest ++ tail)
    = Ret ((Some chained, Some (snd (List.last rest (c, t)))), tail)
    /\ (forall a, chained a [] = compose_left_to_right (c a []) (map fst rest))
    /\ (forall a k v kw,
          chained a ((k, v) :: kw)
          = match rest with
            | [] => c a ((k, v) :: kw)
            | _ :: _ => Raise (unexpected_keyword k)
            end).
Proof.
  induction rest as [|[g tg] rest IH]; intros c t tail.
  - exists c. repeat split; reflexivity.
  - destruct (IH (chain c g) tg tail) as (chained & Hrun & Hfun & Hkw).
    exists chained. split; [|split].
    + cbn [length Stream.for_range map app].
      unfold Stream.bind at 1. unfold read_chain_step at 1.
      unfold Stream.bind at 1. cbn [Stream.read_command fst Stream.ret].
      rewrite Hrun.
      destruct rest as [|[g' tg'] rest']; [reflexivity|].
      rewrite (last_cons_default rest' (g', tg') (chain c g, tg) (c, t)).
      reflexivity.
    + intros a. rewrite Hfun. cbn [map fst compose_left_to_right].
      unfold chain. destruct (c a []) as [x|e]; cbn.
      * reflexivity.
      * apply compose_left_to_right_raise.
    + intros a k v kw. rewrite Hkw. destruct rest; reflexivity.
Qed.

Lemma func_of_agrees (eval_type : PythonEvalType) (c : stage V) (a : list V)
    (kw : list (string * V)) :
  c a kw <> Raise StopIteration -> func_of eval_type c a kw = c a kw.
Proof.
  intros Hne. unfold func_of, fail_on_stopiteration.
  destruct (decide (eval_type = SQL_SCALAR_PANDAS_ITER_UDF)); [reflexivity|].
  destruct (c a kw) as [x|[]]; try reflexivity. congruence.
Qed.

(** Decoding a framed chain of n >= 1 (callable, return type) pairs
    keeps the return type of the last pair and gives a function that, on
    positional arguments, returns what composing the n callables left to
    right returns.  The function handed to the adapter is that chain,
    guarded against [StopIteration] in every mode but the scalar
    iterator. *)
Lemma decoded_chain (eval_type : PythonEvalType) (f1 : stage V) (t1 : DataType)
    (rest : list (stage V * DataType))
    (tail : Stream.infile (stage V * DataType)) :
  exists chained_func,
    read_chain (encode_chain ((f1, t1) :: rest) ++ tail)
      = Ret ((Some chained_func,
              Some (snd (List.last ((f1, t1) :: rest) (f1, t1)))), tail)
    /\ read_func eval_type (encode_chain ((f1, t1) :: rest) ++ tail)
      = Ret ((func_of eval_type chained_func,
              snd (List.last ((f1, t1) :: rest) (f1, t1))), tail)
    /\ (forall a, chained_func a [] = compose_left_to_right (f1 a []) (map fst rest))
    /\ (forall a k v kw,
          chained_func a ((k, v) :: kw)
          = match rest with
            | [] => f1 a ((k, v) :: kw)
            | _ :: _ => Raise (unexpected_keyword k)
            end).
Proof.
  destruct (read_chain_loop rest f1 t1 tail) as (chained & Hrun & Hfun & Hkw).
  assert (Hlast : List.last ((f1, t1) :: rest) (f1, t1) = List.last rest (f1, t1)).
  { destruct rest as [|p rest']; reflexivity. }
  assert (Hchain : read_chain (encode_chain ((f1, t1) :: rest) ++ tail)
                   = Ret ((Some chained, Some (snd (List.last rest (f1, t1)))), tail)).
  { unfold read_chain, encode_chain.
    cbn [app]. unfold Stream.bind at 1. cbn [Stream.read_int].
    rewrite Nat2Z.id. cbn [length Stream.for_range map app].
    unfold Stream.bind at 1. unfold read_chain_step at 1.
    unfold Stream.bind at 1. cbn [Stream.read_command fst Stream.ret].
    exact Hrun. }
  exists chained. rewrite Hlast. split; [exact Hchain|]. split; [|split].
  - unfold read_func, Stream.bind. rewrite Hchain. reflexivity.
  - exact Hfun.
  - exact Hkw.
Qed.

(** C7: the function decoded from a chain of n >= 1 (callable, return
    type) pairs keeps the return type of the last pair, and on positional
    arguments it returns what composing the n callables left to right
    returns.  On an input with a keyword argument, which read_single_udf
    reads and the adapters pass on, only the chain of one stage does so:
    the decoded chain of two or more stages raises a TypeError without
    calling any stage, also where the first stage accepts the keyword and
    the composition of the stages returns. *)
Theorem C7_decoded_chain_refuses_keyword_arguments
    (eval_type : PythonEvalType) (f1 f2 : stage V) (t1 t2 : DataType)
    (rest : list (stage V * DataType))
    (tail : Stream.infile (stage V * DataType))
    (a : list V) (k : string) (v : V) (kw : list (string * V)) (x y : V) :
  f1 a ((k, v) :: kw) = Ret x ->
  compose_left_to_right (f2 [x] []) (map fst rest) = Ret y ->
  exists func,
    read_func eval_type (encode_chain ((f1, t1) :: (f2, t2) :: rest) ++ tail)
    = Ret ((func, snd (List.last rest (f2, t2))), tail)
    /\ compose_left_to_right (f1 a ((k, v) :: kw)) (map fst ((f2, t2) :: rest)) = Ret y
    /\ func a ((k, v) :: kw) = Raise (unexpected_keyword k)
    /\ (forall a',
          compose_left_to_right (f1 a' []) (map fst ((f2, t2) :: rest))
          <> Raise StopIteration ->
          func a' [] = compose_left_to_right (f1 a' []) (map fst ((f2, t2) :: rest)))
    /\ exists func1,
         read_func eval_type (encode_chain [(f1, t1)] ++ tail) = Ret ((func1, t1), tail)
         /\ func1 a ((k, v) :: kw) = Ret x.
Proof.
  intros Hf1 Hrest.
  destruct (decoded_chain eval_type f1 t1 ((f2, t2) :: rest) tail)
    as (chained & _ & Hread & Hfun & Hkw).
  destruct (decoded_chain eval_type f1 t1 [] tail) as (single & _ & Hread1 & _ & Hkw1).
  exists (func_of eval_type chained). split; [|split; [|split; [|split]]].
  - rewrite Hread.
    change (List.last ((f1, t1) :: (f2, t2) :: rest) (f1, t1))
      with (List.last ((f2, t2) :: rest) (f1, t1)).
    destruct rest as [|p rest']; [reflexivity|].
    change (List.last ((f2, t2) :: p :: rest') (f1, t1))
      with (List.last (p :: rest') (f1, t1)).
    rewrite (last_cons_default rest' p (f1, t1) (f2, t2)). reflexivity.
  - cbn [map fst compose_left_to_right]. rewrite Hf1. exact Hrest.
  - rewrite func_of_agrees; rewrite Hkw; [reflexivity|discriminate].
  - intros a' Hne. rewrite <- Hfun in *. apply func_of_agrees. exact Hne.
  - exists (func_of eval_type single). split; [exact Hread1|].
    rewrite func_of_agrees; rewrite Hkw1; [exact Hf1|congruence].
Qed.
End ChainProperties.

(** A chain of one stage and a chain of three, decoded and run on a
    positional argument. *)
Example chain_of_one_and_three :
  (match Chain.read_func SQL_BATCHED_UDF (Chain.encode_chain [(Examples.inc, StringType)]) with
   | Ret ((f, t), _) => Some (f [5%Z] [], t)
   | Raise _ => None
   end = Some (Ret 6%Z, StringType))
  /\ (match Chain.read_func SQL_BATCHED_UDF
             (Chain.encode_chain [(Examples.inc, StringType); (Examples.dbl, BinaryType);
                                  (Examples.neg, AtomicType "int")]) with
      | Ret ((f, t), _) => Some (f [5%Z] [], t)
      | Raise _ => None
      end = Some (Ret (-12)%Z, AtomicType "int")).
Proof. split; reflexivity. Qed.

(** The stage [inc] called with its argument by name, alone and as the
    first stage of a chain of two. *)
Lemma C7_decoded_chain_refuses_keyword_arguments_witness :
  exists func1 func,
    Chain.read_func SQL_BATCHED_UDF (Chain.encode_chain [(Examples.inc, StringType)] ++ [])
    = Ret ((func1, StringType), [])
    /\ func1 [] [("x", 5%Z)] = Ret 6%Z
    /\ Chain.read_func SQL_BATCHED_UDF
         (Chain.encode_chain [(Examples.inc, StringType); (Examples.dbl, BinaryType)] ++ [])
       = Ret ((func, BinaryType), [])
    /\ Chain.compose_left_to_right (Examples.inc [] [("x", 5%Z)]) [Examples.dbl] = Ret 12%Z
    /\ func [] [("x", 5%Z)]
       = Raise (TypeError "<lambda>() got an unexpected keyword argument 'x'").
Proof.
  destruct (C7_decoded_chain_refuses_keyword_arguments SQL_BATCHED_UDF
              Examples.inc Examples.dbl StringType BinaryType [] []
              [] "x" 5%Z [] 6%Z 12%Z eq_refl eq_refl)
    as (func & Hread & Hcomp & Hkw & _ & func1 & Hread1 & Hkw1).
  exists func1, func. repeat split; assumption.
Defined.

(** ** Sequencing over lists *)

Lemma bind_Ret {A B} (a : A) (k : A -> outcome B) : (x ← Ret a; k x) = k a.
Proof. reflexivity. Qed.

Lemma bind_Raise {A B} (e : exn) (k : A -> outcome B) : (x ← Raise e; k x) = Raise e.
Proof. reflexivity. Qed.

Lemma mapM_nil {A B} (f : A -> outcome B) : mapM f [] = Ret [].
Proof. reflexivity. Qed.

Lemma mapM_cons {A B} (f : A -> outcome B) (x : A) (l : list A) :
  mapM f (x :: l) = (y ← f x; k ← mapM f l; Ret (y :: k)).
Proof. reflexivity. Qed.

Lemma mapM_Ret_intro {A B} (f : A -> outcome B) (l : list A) (k : list B) :
  Forall2 (fun x y => f x = Ret y) l k -> mapM f l = Ret k.
Proof.
  induction 1 as [|x y l k Hxy _ IH]; [reflexivity|].
  rewrite mapM_cons, Hxy, bind_Ret, IH. reflexivity.
Qed.

Lemma mapM_Ret_elim {A B} (f : A -> outcome B) (l : list A) :
  forall k, mapM f l = Ret k -> Forall2 (fun x y => f x = Ret y) l k.
Proof.
  induction l as [|x l IH]; intros k.
  - rewrite mapM_nil. intros [= <-]. constructor.
  - rewrite mapM_cons. destruct (f x) as [y|e] eqn:Hx; [|discriminate].
    rewrite bind_Ret. destruct (mapM f l) as [k'|e]; [|discriminate].
    rewrite bind_Ret. intros [= <-]. constructor; auto.
Qed.

(** ** The mapper of the generic batched path *)

Section MapperProperties.
Context {A R : Type}.
Import Mapper.

(** C10: in the generic batched path the mapper calls the decoded UDFs
    in their order on the row; with exactly one UDF it returns that
    UDF's result itself, with more than one it returns the tuple of
    all results in decode order. *)
Theorem C10_mapper_result_shape
    (udfs : list (udf A R)) (a : list A) (rs : list R) :
  Forall2 (fun u r => call_udf a u = Ret r) udfs rs ->
  (length udfs = 1 -> exists r, rs = [r] /\ mapper udfs a = Ret (Single r))
  /\ (1 < length udfs ->
      length rs = length udfs /\ mapper udfs a = Ret (Tuple rs)).
Proof.
  intros Hall. pose proof (Forall2_length _ _ _ Hall) as Hlen.
  unfold mapper. rewrite (mapM_Ret_intro _ _ _ Hall), bind_Ret.
  split; intros Hn.
  - destruct rs as [|r [|r' rs']]; simpl in *; try lia.
    exists r. split; reflexivity.
  - split; [lia|].
    destruct rs as [|r [|r' rs']]; simpl in *; try lia. reflexivity.
Qed.
End MapperProperties.

(** Two UDFs over a three-column row: the mapper returns the pair, first
    UDF first. *)
Lemma C10_mapper_result_shape_witness :
  let sum : pyfun Z Z := fun args _ => Ret (fold_right Z.add 0%Z args) in
  let neg : pyfun Z Z := fun args _ =>
    match args with [x] => Ret (- x)%Z | _ => Raise (TypeError "arity") end in
  let udfs : list (Mapper.udf Z Z) := [([0%Z; 2%Z], [], sum); ([1%Z], [], neg)] in
  Mapper.mapper udfs [10; 20; 30]%Z = Ret (Mapper.Tuple [40; -20]%Z).
Proof.
  intros sum neg udfs.
  refine (proj2 (proj2 (C10_mapper_result_shape udfs [10; 20; 30]%Z [40; -20]%Z _) _)).
  - repeat constructor.
  - simpl. lia.
Defined.

Example mapper_single_udf :
  let neg : pyfun Z Z := fun args _ =>
    match args with [x] => Ret (- x)%Z | _ => Raise (TypeError "arity") end in
  Mapper.mapper [([1%Z], [], neg)] [10; 20; 30]%Z = Ret (Mapper.Single (-20)%Z).
Proof. reflexivity. Qed.

(** ** The bounded window adapter *)

Lemma getitem_of_nat {A} (l : list A) (i : nat) (x : A) :
  l !! i = Some x -> getitem l (Z.of_nat i) = Ret x.
Proof.
  intros H. unfold getitem. cbv zeta.
  assert (Hn : (Z.of_nat i <? 0)%Z = false) by (apply Z.ltb_ge; lia).
  rewrite !Hn, Nat2Z.id, H. reflexivity.
Qed.

Lemma mapM_Ret_map {A B} (g : A -> outcome B) (h : A -> B) (l : list A) :
  (forall x, g x = Ret (h x)) -> mapM g l = Ret (map h l).
Proof.
  intros Hg. induction l as [|x l IH]; [reflexivity|].
  rewrite mapM_cons, Hg, bind_Ret, IH. reflexivity.
Qed.

Lemma mapM_Ret_lookup {A B} (g : A -> outcome B) (l : list A) (k : list B) :
  mapM g l = Ret k ->
  length k = length l
  /\ forall i x, l !! i = Some x -> exists y, k !! i = Some y /\ g x = Ret y.
Proof.
  intros H. apply mapM_Ret_elim in H. induction H as [|x y l k Hxy _ [IHl IH]].
  - split; [reflexivity|]. intros i x Hx. discriminate.
  - split; [cbn; lia|]. intros [|i] x' Hx'.
    + injection Hx' as <-. exists y. split; [reflexivity|exact Hxy].
    + apply (IH i x' Hx').
Qed.

Section WindowProperties.
Import Window.

(** The items between two positions, counted from the position [i] of
    the head of the list. *)
Lemma interval_from {A} (b e : Z) (l : list A) :
  (0 <= b)%Z -> (0 <= e)%Z ->
  forall i : nat,
    map snd
      (List.filter (fun px => (b <=? Z.of_nat (fst px))%Z && (Z.of_nat (fst px) <? e)%Z)
         (zip (seq i (length l)) l))
    = take (Z.to_nat e - Nat.max (Z.to_nat b) i) (drop (Z.to_nat b - i) l).
Proof.
  intros Hb He. induction l as [|x l IH]; intros i.
  - rewrite drop_nil, take_nil. reflexivity.
  - cbn [length seq zip zip_with List.filter fst].
    destruct (Z.leb_spec b (Z.of_nat i)) as [Hbi|Hbi]; cbn [andb].
    + replace (Z.to_nat b - i) with 0 by lia. rewrite drop_0.
      replace (Nat.max (Z.to_nat b) i) with i by lia.
      destruct (Z.ltb_spec (Z.of_nat i) e) as [Hie|Hie].
      * cbn [map snd]. rewrite IH.
        replace (Z.to_nat b - S i) with 0 by lia. rewrite drop_0.
        replace (Nat.max (Z.to_nat b) (S i)) with (S i) by lia.
        replace (Z.to_nat e - i) with (S (Z.to_nat e - S i)) by lia.
        reflexivity.
      * rewrite IH.
        replace (Z.to_nat e - Nat.max (Z.to_nat b) (S i)) with 0 by lia.
        replace (Z.to_nat e - i) with 0 by lia. reflexivity.
    + rewrite IH.
      replace (Z.to_nat b - i) with (S (Z.to_nat b - S i)) by lia.
      replace (Nat.max (Z.to_nat b) (S i)) with (Nat.max (Z.to_nat b) i) by lia.
      reflexivity.
Qed.

(** For bounds that are not negative, the slice that pandas takes is the
    half-open interval. *)
Lemma slice_interval {A} (l : list A) (b e : Z) :
  (0 <= b)%Z -> (0 <= e)%Z -> slice l b e = interval b e l.
Proof.
  intros Hb He. unfold interval. rewrite (interval_from b e l Hb He 0).
  unfold slice, slice_bound.
  destruct (Z.ltb_spec b 0) as [?|_]; [lia|].
  destruct (Z.ltb_spec e 0) as [?|_]; [lia|].
  rewrite Nat.sub_0_r, Nat.max_0_r.
  destruct (decide (Z.to_nat b <= length l)) as [Hin|Hout].
  - rewrite (Nat.min_l (Z.to_nat b)) by lia.
    destruct (decide (Z.to_nat e <= length l)) as [Hein|Heout].
    + rewrite (Nat.min_l (Z.to_nat e)) by lia. reflexivity.
    + rewrite (Nat.min_r (Z.to_nat e)) by lia.
      rewrite !take_ge; [reflexivity| |]; rewrite length_drop; lia.
  - rewrite (Nat.min_r (Z.to_nat b)) by lia.
    rewrite !drop_ge by lia. rewrite !take_nil. reflexivity.
Qed.

Lemma iloc_between (b e : Z) (s : Series) :
  (0 <= b)%Z -> (0 <= e)%Z -> iloc b e s = between b e s.
Proof.
  intros Hb He. unfold iloc, between. rewrite slice_interval by assumption. reflexivity.
Qed.

Variable f : pyfun Series pyval.
Variable return_type : DataType.

Lemma window_call_at (begin_array end_array : list Z)
    (args : list Series) (kwargs : list (string * Series)) (i : nat) (b e : Z) :
  begin_array !! i = Some b -> end_array !! i = Some e ->
  window_call f begin_array end_array args kwargs i = on_window f iloc args kwargs (b, e).
Proof.
  intros Hb He. unfold window_call, on_window. cbn [fst snd].
  assert (Hs : forall s, window_slice begin_array end_array i s = Ret (iloc b e s)).
  { intros s. unfold window_slice.
    rewrite (getitem_of_nat _ _ _ Hb), bind_Ret, (getitem_of_nat _ _ _ He). reflexivity. }
  rewrite (mapM_Ret_map _ (iloc b e) args Hs), bind_Ret.
  rewrite (mapM_Ret_map _ (fun kv => (fst kv, iloc b e (snd kv))) kwargs), bind_Ret.
  - reflexivity.
  - intros kv. rewrite Hs. reflexivity.
Qed.

Lemma window_loop_seq (begin_array end_array : list Z)
    (args : list Series) (kwargs : list (string * Series)) (n : nat) :
  forall (i : nat) (result0 : list pyval),
    i + n <= length begin_array -> i + n <= length end_array ->
    window_loop f begin_array end_array args kwargs (seq i n) result0
    = (rs ← mapM (on_window f iloc args kwargs) (take n (drop i (zip begin_array end_array)));
       Ret (result0 ++ rs)).
Proof.
  induction n as [|n IH]; intros i result0 Hb He.
  - cbn [seq window_loop]. rewrite take_0, mapM_nil, bind_Ret, app_nil_r. reflexivity.
  - destruct (lookup_lt_is_Some_2 begin_array i) as [b Hbi]; [lia|].
    destruct (lookup_lt_is_Some_2 end_array i) as [e Hei]; [lia|].
    assert (Hz : zip begin_array end_array !! i = Some (b, e)).
    { apply lookup_zip_Some. split; assumption. }
    rewrite (drop_S _ _ _ Hz), firstn_cons. cbn [seq window_loop].
    rewrite (window_call_at _ _ _ _ i b e Hbi Hei), mapM_cons.
    destruct (on_window f iloc args kwargs (b, e)) as [r|ex]; [|reflexivity].
    rewrite !bind_Ret, IH by lia.
    destruct (mapM (on_window f iloc args kwargs)
                (take n (drop (S i) (zip begin_array end_array)))) as [rs|ex];
      [|reflexivity].
    rewrite !bind_Ret, <- app_assoc. reflexivity.
Qed.

(** What the adapter computes when the two index arrays have one
    length, whatever the bounds are: the function is called once per
    pair of bounds, on the [iloc] slices of all the series. *)
Lemma wrap_bounded_window_unfold (begin_index end_index : list Z)
    (args : list Series) (kwargs : list (string * Series)) :
  length begin_index = length end_index ->
  wrap_bounded_window_agg_pandas_udf f return_type begin_index end_index args kwargs
  = (result ← mapM (on_window f iloc args kwargs) (zip begin_index end_index);
     Ret (mkSeries LNone result, to_arrow_type return_type)).
Proof.
  intros Hlen. unfold wrap_bounded_window_agg_pandas_udf, wrapped.
  rewrite window_loop_seq by lia. rewrite drop_0.
  rewrite take_ge by (rewrite length_zip; lia).
  destruct (mapM (on_window f iloc args kwargs) (zip begin_index end_index)); reflexivity.
Qed.

Lemma on_window_between (args : list Series) (kwargs : list (string * Series))
    (be : Z * Z) :
  (0 <= fst be)%Z -> (0 <= snd be)%Z ->
  on_window f iloc args kwargs be = on_window f between args kwargs be.
Proof.
  intros Hb He. unfold on_window. f_equal.
  - apply map_ext. intros s. apply iloc_between; assumption.
  - apply map_ext. intros kv. rewrite iloc_between by assumption. reflexivity.
Qed.

Lemma mapM_ext_Forall {A B} (g h : A -> outcome B) (l : list A) :
  Forall (fun x => g x = h x) l -> mapM g l = mapM h l.
Proof.
  induction 1 as [|x l Hx _ IH]; [reflexivity|].
  rewrite !mapM_cons, Hx, IH. reflexivity.
Qed.

End WindowProperties.


Example bounded_window_two_rows :
  Window.wrap_bounded_window_agg_pandas_udf Examples.sum_first (AtomicType "long")
    [0; 1]%Z [2; 3]%Z [mkSeries (LStr "v") [PInt 10; PInt 20; PInt 30]] []
  = Ret (mkSeries LNone [PInt 30; PInt 50], to_arrow_type (AtomicType "long")).
Proof. reflexivity. Qed.

(** ** The vectorised adapters *)

Lemma mapM_returns {A B} (f : A -> outcome B) (l : list A) :
  (forall x, x ∈ l -> returns (f x) = true) ->
  exists k, mapM f l = Ret k /\ length k = length l.
Proof.
  induction l as [|x l IH]; intros Hall.
  - exists []. split; reflexivity.
  - destruct (f x) as [y|e] eqn:Hx.
    + destruct IH as (k & Hk & Hlen).
      { intros x' Hin. apply Hall. right. exact Hin. }
      exists (y :: k). rewrite mapM_cons, Hx, bind_Ret, Hk. simpl. auto.
    + specialize (Hall x (list_elem_of_here _ _)). rewrite Hx in Hall. discriminate.
Qed.

Section VectorizedProperties.
Import Vectorized.

(** Zipping columns of one length gives that many rows. *)
Lemma length_zip_rows {A} (n : nat) :
  forall cols : list (list A),
  Forall (fun c => length c = n) cols -> length (zip_rows n cols) = n.
Proof.
  induction n as [|n IH]; intros cols Hall; [reflexivity|].
  cbn [zip_rows].
  destruct (mapM head cols) as [row|] eqn:Hrow.
  - cbn [length]. f_equal. apply IH.
    apply Forall_fmap. eapply Forall_impl; [exact Hall|].
    intros [|x c] Hc; simpl in *; lia.
  - exfalso. apply mapM_None_1 in Hrow. apply Exists_exists in Hrow.
    destruct Hrow as (c & Hin & Hc).
    rewrite Forall_forall in Hall. specialize (Hall c Hin).
    destruct c; simpl in *; [lia|discriminate].
Qed.

Lemma length_zip_star {A} (n : nat) (cols : list (list A)) :
  cols <> [] -> Forall (fun c => length c = n) cols ->
  length (zip_star cols) = n.
Proof.
  intros Hne Hall. destruct cols as [|c cols]; [congruence|].
  unfold zip_star. rewrite (Forall_inv Hall). apply length_zip_rows, Hall.
Qed.

Variable return_type : DataType.
Variable str : pyval -> pyval.
Variable bytes : pyval -> outcome pyval.

End VectorizedProperties.



(** ** Verification of a pandas result *)

Section PandasResultProperties.
Import PandasResult.

(** The schema checks are skipped exactly for a frame without columns. *)
Lemma schema_is_checked_false (df : DataFrame) :
  schema_is_checked df = false <-> columns df = [].
Proof.
  unfold schema_is_checked, df_empty.
  destruct (columns df) as [|c cs]; simpl.
  - split; reflexivity.
  - split; [|discriminate]. destruct (length (rows df)); discriminate.
Qed.

(** C2, amended: for a structured return type, a result without columns
    skips the column-name check and the column-count check, so
    [verify_pandas_result] returns; a result that has columns is checked
    whatever its number of rows, zero included: the outcome is the one of
    any other result with the same columns. *)
Theorem C2_empty_result_skips_checks
    (df : DataFrame) (fields : list StructField)
    (assign_cols_by_name truncate_return_schema : bool) :
  columns df = [] ->
  verify_pandas_result (OFrame df) (StructType fields)
    assign_cols_by_name truncate_return_schema = Ret tt
  /\ (forall df1 df2 : DataFrame,
        columns df1 = columns df2 -> columns df1 <> [] ->
        schema_is_checked df1 = true
        /\ verify_pandas_result (OFrame df1) (StructType fields)
             assign_cols_by_name truncate_return_schema
           = verify_pandas_result (OFrame df2) (StructType fields)
               assign_cols_by_name truncate_return_schema).
Proof.
  intros Hcols. split.
  - unfold verify_pandas_result.
    rewrite (proj2 (schema_is_checked_false df) Hcols). reflexivity.
  - intros df1 df2 Heq Hne.
    assert (H1 : schema_is_checked df1 = true).
    { destruct (schema_is_checked df1) eqn:E; [reflexivity|].
      apply schema_is_checked_false in E. contradiction. }
    assert (H2 : schema_is_checked df2 = true).
    { destruct (schema_is_checked df2) eqn:E; [reflexivity|].
      apply schema_is_checked_false in E. congruence. }
    split; [exact H1|].
    unfold verify_pandas_result. rewrite H1, H2, Heq. reflexivity.
Qed.

End PandasResultProperties.

(** A frame of shape (3, 0) against a schema of two fields. *)
Lemma C2_empty_result_skips_checks_witness :
  PandasResult.verify_pandas_result (OFrame (mkDataFrame [] [[]; []; []]))
    (StructType [mkField "a"; mkField "b"]) true false = Ret tt.
Proof.
  refine (proj1 (C2_empty_result_skips_checks (mkDataFrame [] [[]; []; []])
                   [mkField "a"; mkField "b"] true false _)).
  reflexivity.
Defined.

(** C2 as stated fails for a result with zero rows that has columns: the
    name check and the count check both run on it. *)
Lemma C2_zero_rows_counterexample :
  df_empty (mkDataFrame [LStr "x"] []) = true
  /\ length (rows (mkDataFrame [LStr "x"] [])) = 0
  /\ PandasResult.verify_pandas_result (OFrame (mkDataFrame [LStr "x"] []))
       (StructType [mkField "a"; mkField "b"]) true false
     = Raise (PySparkRuntimeError
                (RESULT_COLUMNS_MISMATCH_FOR_PANDAS_UDF [LStr "a"; LStr "b"] [LStr "x"]))
  /\ PandasResult.verify_pandas_result (OFrame (mkDataFrame [LInt 0] []))
       (StructType [mkField "a"; mkField "b"]) true false
     = Raise (PySparkRuntimeError (RESULT_LENGTH_MISMATCH_FOR_PANDAS_UDF 2 1)).
Proof. repeat split; vm_compute; reflexivity. Qed.

(** The names of a mismatch are reported in sorted order; an unexpected
    label that is not a string ends the report with a TypeError. *)
Example column_names_mismatch_report :
  PandasResult.verify_pandas_result (OFrame (mkDataFrame [LStr "z"; LStr "y"; LStr "a"] []))
    (StructType [mkField "c"; mkField "b"; mkField "a"]) true false
  = Raise (PySparkRuntimeError
             (RESULT_COLUMNS_MISMATCH_FOR_PANDAS_UDF [LStr "b"; LStr "c"] [LStr "y"; LStr "z"]))
  /\ PandasResult.verify_pandas_result (OFrame (mkDataFrame [LStr "a"; LInt 5] []))
       (StructType [mkField "a"; mkField "b"]) true false
     = Raise (TypeError "column label is not a str").
Proof. split; vm_compute; reflexivity. Qed.

(** ** The stateful grouped-map adapter *)

Lemma checked_Forall {A B} (check : A -> outcome B) (P : B -> Prop) :
  (forall x y, check x = Ret y -> P y) ->
  forall items ending, Forall P (fst (Gen.checked check items ending)).
Proof.
  intros Hcheck items ending. induction items as [|x items IH]; [constructor|].
  cbn [Gen.checked]. destruct (check x) as [y|e] eqn:Hx; [|constructor].
  destruct (Gen.checked check items ending) as [ys e']. cbn [fst] in *.
  constructor; [eapply Hcheck; exact Hx | exact IH].
Qed.

Section GroupedMapWithStateProperties.
Import GroupedMapWithState.

Variable f : user_function.
Variable return_type : DataType.

Lemma verify_element_Ret (o : pobj) (d : DataFrame) :
  verify_element return_type o = Ret d -> o = OFrame d /\ accepted_shape return_type d.
Proof.
  unfold verify_element, accepted_shape. destruct o as [v|s|df]; try discriminate.
  destruct (Nat.eqb_spec (length (columns df)) (type_len return_type)) as [Hn|Hn]; cbn [orb].
  - intros [= <-]. auto.
  - destruct (Nat.eqb_spec (length (columns df)) 0) as [H0|H0]; cbn [andb]; [|discriminate].
    destruct (df_empty df) eqn:He; [|discriminate].
    intros [= <-]. auto.
Qed.

(** C1, amended: on a timeout the adapter takes the first element of the
    value sequence, and only that one, for its column labels; the chain is
    called with a one-element list holding a batch of zero rows with those
    columns; and every element delivered from the returned sequence has as
    many columns as the declared type has fields, or has no columns and is
    empty in the sense of pandas. *)
Theorem C1_timed_out_group
    (key_series : list Series) (x : list Series) (rest : list (list Series))
    (state state' : GroupState) (key : list pyval)
    (r : returned) (items : list pobj) (ending : option exn) :
  hasTimedOut state = true ->
  mapM series_first key_series = Ret key ->
  x <> [] ->
  f (PTuple key) (ValuesList [mkDataFrame (concat_columns x) []]) state = Ret (r, state') ->
  (forall df, r <> RObj (OFrame df)) ->
  iter_of r = Some (items, ending) ->
  values_for state (x :: rest)
  = Ret (ValuesList [mkDataFrame (concat_columns x) []], rest)
  /\ wrapped f return_type key_series (x :: rest) state
     = Ret (Gen.checked (verify_element return_type) items ending, state')
  /\ Forall (accepted_shape return_type)
       (fst (Gen.checked (verify_element return_type) items ending)).
Proof.
  intros Hto Hkey Hx Hf Hframe Hiter.
  assert (Hvalues : values_for state (x :: rest)
                    = Ret (ValuesList [mkDataFrame (concat_columns x) []], rest)).
  { unfold values_for. rewrite Hto. destruct x; [contradiction|]. reflexivity. }
  split; [exact Hvalues|]. split.
  - unfold wrapped. rewrite Hkey, bind_Ret, Hvalues, bind_Ret, Hf, bind_Ret.
    rewrite Hiter.
    destruct r as [[v|s|df]|its e]; try reflexivity.
    exfalso. exact (Hframe df eq_refl).
  - apply checked_Forall. intros o d Hd. apply (verify_element_Ret o d Hd).
Qed.

End GroupedMapWithStateProperties.

(** A timed-out group with two pending value batches. *)
Lemma C1_timed_out_group_witness :
  let ks := [mkSeries (LStr "k") [PInt 1; PInt 1]] in
  let x := [mkSeries (LStr "v") [PInt 10; PInt 20]] in
  let y := [mkSeries (LStr "v") [PInt 30]] in
  let st := GroupedMapWithState.mkGroupState true PNone in
  let rt := StructType [mkField "a"; mkField "b"] in
  GroupedMapWithState.values_for st [x; y]
  = Ret (GroupedMapWithState.ValuesList [mkDataFrame [LStr "v"] []], [y])
  /\ GroupedMapWithState.wrapped Examples.yield_two_columns rt ks [x; y] st
     = Ret (([mkDataFrame [LStr "a"; LStr "b"] []], None), st).
Proof.
  intros ks x y st rt.
  destruct (C1_timed_out_group Examples.yield_two_columns rt ks x [y] st st [PInt 1]
              (GroupedMapWithState.RIter [OFrame (mkDataFrame [LStr "a"; LStr "b"] [])] None)
              [OFrame (mkDataFrame [LStr "a"; LStr "b"] [])] None)
    as (Hvalues & Hwrapped & _).
  - reflexivity.
  - reflexivity.
  - discriminate.
  - reflexivity.
  - discriminate.
  - reflexivity.
  - split; [exact Hvalues | exact Hwrapped].
Defined.

(** C1 as stated fails twice on a timeout: the adapter does take an
    element of the value sequence, and a frame with one row and no column
    is delivered although the declared type has two fields. *)
Lemma C1_timed_out_counterexample :
  let ks := [mkSeries (LStr "k") [PInt 1; PInt 1]] in
  let x := [mkSeries (LStr "v") [PInt 10; PInt 20]] in
  let y := [mkSeries (LStr "v") [PInt 30]] in
  let st := GroupedMapWithState.mkGroupState true PNone in
  let rt := StructType [mkField "a"; mkField "b"] in
  let d := mkDataFrame [] [[]] in
  (exists values, GroupedMapWithState.values_for st [x; y] = Ret (values, [y]))
  /\ GroupedMapWithState.wrapped Examples.yield_empty_row rt ks [x; y] st
     = Ret (([d], None), st)
  /\ length (columns d) <> type_len rt
  /\ ~ (length (columns d) = 0 /\ length (rows d) = 0).
Proof.
  cbv zeta. split; [eexists; reflexivity|]. split; [reflexivity|].
  split; simpl; [discriminate|]. intros [_ H]. discriminate.
Qed.

(** ** The loop of the scalar iterator *)

Section ScalarIterProperties.
Import ScalarIter.

Variable eval_type : PythonEvalType.
Variable return_type : DataType.
Variable arg_offsets : list Z.

Lemma emitted_rows_cons (x : item * ArrowType) (out : list (item * ArrowType)) :
  emitted_rows (x :: out) = default 0 (item_len (fst x)) + emitted_rows out.
Proof. reflexivity. Qed.

Lemma emitted_rows_app (out1 out2 : list (item * ArrowType)) :
  emitted_rows (out1 ++ out2) = emitted_rows out1 + emitted_rows out2.
Proof.
  induction out1 as [|x out1 IH]; [reflexivity|].
  cbn [app]. rewrite !emitted_rows_cons, IH. lia.
Qed.

Lemma rows_read_app (consumed1 consumed2 : list (list item)) :
  rows_read arg_offsets (consumed1 ++ consumed2)
  = rows_read arg_offsets consumed1 + rows_read arg_offsets consumed2.
Proof.
  induction consumed1 as [|b consumed1 IH]; [reflexivity|].
  unfold rows_read in *. cbn [app foldr]. rewrite IH. lia.
Qed.

(** What [map_batch] adds to [num_input_rows] is the number of rows of
    the first argument of the batch; a batch on which it raises adds
    nothing. *)
Lemma map_batch_rows (batch : list item) :
  match map_batch arg_offsets batch with
  | Ret (_, n) => n = batch_rows_read arg_offsets batch
  | Raise _ => batch_rows_read arg_offsets batch = 0
  end.
Proof.
  unfold map_batch, batch_rows_read.
  destruct (mapM (getitem batch) arg_offsets) as [udf_args|e]; [|reflexivity].
  rewrite bind_Ret. destruct udf_args as [|first udf_args]; [reflexivity|].
  change (getitem (first :: udf_args) 0) with (Ret first : outcome item).
  rewrite bind_Ret. destruct (item_len first) as [n|]; reflexivity.
Qed.

Lemma verify_element_same (elem r : item) :
  verify_element eval_type return_type elem = Ret r -> r = elem.
Proof.
  unfold verify_element, verify_arrow_element, verify_pandas_element.
  destruct (is_map_arrow_iter eval_type).
  - destruct elem; [discriminate|]. intros [= <-]. reflexivity.
  - destruct elem as [o|b]; [|discriminate]. cbv zeta.
    destruct (match o with
              | OVal _ => false
              | OSeries _ => negb (is_struct return_type)
              | OFrame _ => is_struct return_type
              end); [|discriminate].
    destruct (PandasResult.verify_pandas_result o return_type true true); [|discriminate].
    rewrite bind_Ret. intros [= <-]. reflexivity.
Qed.

(** From a point of a run the loop goes on as a loop started there: what
    was delivered before the point comes first. *)
Lemma reaches_loop (g0 g : ugen) (st0 st : loop_state) (out : list (item * ArrowType)) :
  reaches eval_type return_type arg_offsets g0 st0 g st out ->
  emitted (loop eval_type return_type arg_offsets g0 st0)
  = out ++ emitted (loop eval_type return_type arg_offsets g st)
  /\ ended (loop eval_type return_type arg_offsets g0 st0)
     = ended (loop eval_type return_type arg_offsets g st)
  /\ final (loop eval_type return_type arg_offsets g0 st0)
     = final (loop eval_type return_type arg_offsets g st).
Proof.
  induction 1 as [|k st out batch rest udf_args n _ IH Hin Hmb
                  |k st out batch rest e _ IH Hin Hmb
                  |k st out _ IH Hin
                  |elem k st out rb n _ IH Hv Hlen Hok].
  - repeat split; reflexivity.
  - cbn [loop] in IH. rewrite Hin, Hmb in IH. exact IH.
  - cbn [loop] in IH. rewrite Hin, Hmb in IH. exact IH.
  - cbn [loop] in IH. rewrite Hin in IH. exact IH.
  - cbn [loop] in IH. rewrite Hv, Hlen in IH. cbv zeta in IH.
    cbn [num_output_rows num_input_rows] in IH. rewrite Hok in IH.
    cbn [emit emitted ended final] in IH. destruct IH as (He & Hd & Hf).
    repeat split; [|exact Hd|exact Hf].
    rewrite He, <- app_assoc. reflexivity.
Qed.

(** At every point of a run the two counters of the loop hold the rows
    of the batches taken from the input and the rows of the batches
    delivered. *)
Lemma reaches_counters (iterator : list (list item)) (g0 g : ugen) (st : loop_state)
    (out : list (item * ArrowType)) :
  reaches eval_type return_type arg_offsets g0 (mkLoopState iterator 0 0) g st out ->
  exists consumed,
    iterator = consumed ++ input st
    /\ num_input_rows st = rows_read arg_offsets consumed
    /\ num_output_rows st = emitted_rows out
    /\ (is_scalar_iter eval_type = true ->
        emitted_rows out <= rows_read arg_offsets consumed).
Proof.
  intros H. remember (mkLoopState iterator 0 0) as st0 eqn:Hst0.
  induction H as [|k st out batch rest udf_args n _ IH Hin Hmb
                  |k st out batch rest e _ IH Hin Hmb
                  |k st out _ IH Hin
                  |elem k st out rb n _ IH Hv Hlen Hok].
  - subst st0. exists []. cbn. repeat split; lia.
  - destruct IH as (consumed & Hsplit & Hi & Ho & Hle).
    exists (consumed ++ [batch]). cbn [input num_input_rows num_output_rows].
    pose proof (map_batch_rows batch) as Hrows. rewrite Hmb in Hrows.
    rewrite rows_read_app. cbn [rows_read foldr]. split; [|split; [|split]].
    + rewrite Hsplit, Hin, <- app_assoc. reflexivity.
    + lia.
    + exact Ho.
    + intros Hs. specialize (Hle Hs). lia.
  - destruct IH as (consumed & Hsplit & Hi & Ho & Hle).
    exists (consumed ++ [batch]). cbn [input num_input_rows num_output_rows].
    pose proof (map_batch_rows batch) as Hrows. rewrite Hmb in Hrows.
    rewrite rows_read_app. cbn [rows_read foldr]. split; [|split; [|split]].
    + rewrite Hsplit, Hin, <- app_assoc. reflexivity.
    + lia.
    + exact Ho.
    + intros Hs. specialize (Hle Hs). lia.
  - exact IH.
  - destruct IH as (consumed & Hsplit & Hi & Ho & Hle).
    exists consumed. cbn [input num_input_rows num_output_rows].
    rewrite emitted_rows_app, emitted_rows_cons. cbn [fst emitted_rows foldr].
    rewrite Hlen. cbn [default from_option]. unfold id.
    split; [exact Hsplit|]. split; [exact Hi|]. split; [lia|].
    intros Hs. unfold is_scalar_iter, is_map_pandas_iter, is_map_arrow_iter in *.
    apply bool_decide_eq_true in Hs. subst eval_type.
    cbn in Hok. apply Nat.leb_le in Hok. lia.
Qed.

End ScalarIterProperties.

Section ScalarIterAccounting.
Import ScalarIter.

Variable return_type : DataType.
Variable arg_offsets : list Z.

(** C4: at every point of a scalar-iterator task the loop has delivered
    no more rows than the batches it has taken from the input hold.  When
    the guest iterator then yields a valid batch that takes the rows it
    has produced above the rows taken from the input, the task ends there
    with the overrun error: the batch is not delivered and nothing more
    is taken from the input.  When the guest iterator is exhausted, a
    batch left in the input ends the task with an error, and so does a
    number of rows produced that differs from the number of rows taken;
    otherwise the task ends without an error, with all the input read and
    as many rows delivered. *)
Theorem C4_scalar_iter_row_accounting
    (g g' : ugen) (iterator : list (list item)) (st : loop_state)
    (out : list (item * ArrowType)) :
  reaches SQL_SCALAR_PANDAS_ITER_UDF return_type arg_offsets
    g (mkLoopState iterator 0 0) g' st out ->
  exists consumed,
    iterator = consumed ++ input st
    /\ num_input_rows st = rows_read arg_offsets consumed
    /\ num_output_rows st = emitted_rows out
    /\ emitted_rows out <= rows_read arg_offsets consumed
    /\ (forall elem k n,
          g' = Yield elem k ->
          verify_element SQL_SCALAR_PANDAS_ITER_UDF return_type elem = Ret elem ->
          item_len elem = Some n ->
          rows_read arg_offsets consumed < emitted_rows out + n ->
          func SQL_SCALAR_PANDAS_ITER_UDF return_type arg_offsets (Iterator g) iterator
          = mkRun out (Some overrun)
              (mkLoopState (input st) (rows_read arg_offsets consumed)
                 (emitted_rows out + n)))
    /\ (forall batch rest,
          g' = Stop -> input st = batch :: rest ->
          func SQL_SCALAR_PANDAS_ITER_UDF return_type arg_offsets (Iterator g) iterator
          = mkRun out
              (Some match map_batch arg_offsets batch with
                    | Ret _ =>
                        PySparkRuntimeError
                          STOP_ITERATION_OCCURRED_FROM_SCALAR_ITER_PANDAS_UDF
                    | Raise e => e
                    end)
              (mkLoopState rest (rows_read arg_offsets (consumed ++ [batch]))
                 (emitted_rows out)))
    /\ (g' = Stop -> input st = [] ->
        func SQL_SCALAR_PANDAS_ITER_UDF return_type arg_offsets (Iterator g) iterator
        = mkRun out
            (if Nat.eqb (emitted_rows out) (rows_read arg_offsets iterator) then None
             else Some (PySparkRuntimeError
                          (RESULT_LENGTH_MISMATCH_FOR_SCALAR_ITER_PANDAS_UDF
                             (emitted_rows out) (rows_read arg_offsets iterator))))
            (mkLoopState [] (rows_read arg_offsets iterator) (emitted_rows out))).
Proof.
  intros Hreach.
  destruct (reaches_counters _ _ _ _ _ _ _ _ Hreach) as (consumed & Hsplit & Hi & Ho & Hle).
  specialize (Hle eq_refl).
  destruct (reaches_loop _ _ _ _ _ _ _ _ Hreach) as (He & Hd & Hf).
  assert (Hrun : forall r,
            loop SQL_SCALAR_PANDAS_ITER_UDF return_type arg_offsets g' st = r ->
            func SQL_SCALAR_PANDAS_ITER_UDF return_type arg_offsets (Iterator g) iterator
            = mkRun (out ++ emitted r) (ended r) (final r)).
  { intros r <-. unfold func. cbn [verify_result].
    destruct (loop SQL_SCALAR_PANDAS_ITER_UDF return_type arg_offsets g
                (mkLoopState iterator 0 0)) as [em en fi].
    cbn [emitted ended final] in He, Hd, Hf. subst. reflexivity. }
  exists consumed. split; [exact Hsplit|]. split; [exact Hi|]. split; [exact Ho|].
  split; [exact Hle|]. split; [|split].
  - intros elem k n -> Hv Hlen Hover.
    rewrite (Hrun _ eq_refl). cbn [loop]. rewrite Hv, Hlen. cbv zeta.
    change (is_map_pandas_iter SQL_SCALAR_PANDAS_ITER_UDF) with false.
    change (is_map_arrow_iter SQL_SCALAR_PANDAS_ITER_UDF) with false.
    cbn [orb num_output_rows num_input_rows].
    destruct (Nat.leb_spec (num_output_rows st + n) (num_input_rows st)); [lia|].
    cbn [emitted ended final]. rewrite app_nil_r, Hi, Ho. reflexivity.
  - intros batch rest -> Hin. rewrite (Hrun _ eq_refl). cbn [loop]. unfold after_loop.
    change (is_scalar_iter SQL_SCALAR_PANDAS_ITER_UDF) with true. cbv iota.
    rewrite Hin. pose proof (map_batch_rows arg_offsets batch) as Hrows.
    rewrite rows_read_app. cbn [rows_read foldr].
    destruct (map_batch arg_offsets batch) as [[udf_args n]|e];
      cbn [emitted ended final]; rewrite app_nil_r, Hi, Ho, Hrows;
      repeat f_equal; lia.
  - intros -> Hin. rewrite (Hrun _ eq_refl). cbn [loop]. unfold after_loop.
    change (is_scalar_iter SQL_SCALAR_PANDAS_ITER_UDF) with true. cbv iota.
    rewrite Hin in *. rewrite app_nil_r in Hsplit. subst consumed.
    rewrite Ho, Hi.
    destruct st as [inp ni no]. cbn [input num_input_rows num_output_rows] in *. subst inp.
    destruct (Nat.eqb (emitted_rows out) (rows_read arg_offsets iterator));
      cbn [negb emitted ended final]; rewrite app_nil_r, Hi, Ho; reflexivity.
Qed.

(** The run of the loop from a state whose counters hold the rows taken
    and the rows delivered. *)
Lemma loop_accounting (g : ugen) :
  forall (st : loop_state) (consumed : list (list item)) (delivered : nat),
    num_input_rows st = rows_read arg_offsets consumed ->
    num_output_rows st = delivered ->
    delivered <= rows_read arg_offsets consumed ->
    exists consumed',
      consumed ++ input st
      = consumed'
        ++ input (final (loop SQL_SCALAR_PANDAS_ITER_UDF return_type arg_offsets g st))
      /\ num_input_rows (final (loop SQL_SCALAR_PANDAS_ITER_UDF return_type arg_offsets g st))
         = rows_read arg_offsets consumed'
      /\ delivered
         + emitted_rows (emitted (loop SQL_SCALAR_PANDAS_ITER_UDF return_type arg_offsets g st))
         <= rows_read arg_offsets consumed'
      /\ (ended (loop SQL_SCALAR_PANDAS_ITER_UDF return_type arg_offsets g st) = None ->
          input (final (loop SQL_SCALAR_PANDAS_ITER_UDF return_type arg_offsets g st)) = []
          /\ delivered
             + emitted_rows
                 (emitted (loop SQL_SCALAR_PANDAS_ITER_UDF return_type arg_offsets g st))
             = rows_read arg_offsets consumed').
Proof.
  assert (Hafter : forall (st : loop_state) (consumed : list (list item)) (delivered : nat),
            num_input_rows st = rows_read arg_offsets consumed ->
            num_output_rows st = delivered ->
            delivered <= rows_read arg_offsets consumed ->
            exists consumed',
              consumed ++ input st
              = consumed'
                ++ input (final (after_loop SQL_SCALAR_PANDAS_ITER_UDF arg_offsets st))
              /\ num_input_rows (final (after_loop SQL_SCALAR_PANDAS_ITER_UDF arg_offsets st))
                 = rows_read arg_offsets consumed'
              /\ delivered
                 + emitted_rows (emitted (after_loop SQL_SCALAR_PANDAS_ITER_UDF arg_offsets st))
                 <= rows_read arg_offsets consumed'
              /\ (ended (after_loop SQL_SCALAR_PANDAS_ITER_UDF arg_offsets st) = None ->
                  input (final (after_loop SQL_SCALAR_PANDAS_ITER_UDF arg_offsets st)) = []
                  /\ delivered
                     + emitted_rows
                         (emitted (after_loop SQL_SCALAR_PANDAS_ITER_UDF arg_offsets st))
                     = rows_read arg_offsets consumed')).
  { intros st consumed delivered Hi Ho Hle. unfold after_loop.
    change (is_scalar_iter SQL_SCALAR_PANDAS_ITER_UDF) with true. cbv iota.
    destruct (input st) as [|batch rest] eqn:Hin.
    - exists consumed.
      destruct (Nat.eqb_spec (num_output_rows st) (num_input_rows st)) as [Heq|Hne];
        cbn [negb emitted ended final emitted_rows foldr]; rewrite Hin;
        (split; [reflexivity|]); (split; [exact Hi|]); (split; [lia|]).
      + intros _. split; [reflexivity|lia].
      + discriminate.
    - exists (consumed ++ [batch]).
      pose proof (map_batch_rows arg_offsets batch) as Hrows.
      rewrite rows_read_app. cbn [rows_read foldr].
      destruct (map_batch arg_offsets batch) as [[udf_args n]|e];
        cbn [emitted ended final emitted_rows foldr input num_input_rows];
        (split; [rewrite <- app_assoc; reflexivity|]); (split; [lia|]);
        (split; [lia|discriminate]). }
  induction g as [|elem k IH|k IH|e]; intros st consumed delivered Hi Ho Hle.
  - cbn [loop]. apply Hafter; assumption.
  - cbn [loop].
    destruct (verify_element SQL_SCALAR_PANDAS_ITER_UDF return_type elem) as [rb|e] eqn:Hv.
    + destruct (item_len rb) as [n|] eqn:Hlen.
      * cbv zeta.
        change (is_map_pandas_iter SQL_SCALAR_PANDAS_ITER_UDF) with false.
        change (is_map_arrow_iter SQL_SCALAR_PANDAS_ITER_UDF) with false.
        cbn [orb num_output_rows num_input_rows].
        destruct (Nat.leb_spec (num_output_rows st + n) (num_input_rows st)) as [Hok|Hover].
        -- destruct (IH (mkLoopState (input st) (num_input_rows st) (num_output_rows st + n))
                       consumed (delivered + n)) as (consumed' & Hs & Hi' & Hle' & Hend).
           { exact Hi. } { cbn. lia. } { lia. }
           exists consumed'. cbn [emit emitted ended final input] in *.
           rewrite emitted_rows_cons. cbn [fst]. rewrite Hlen.
           cbn [default from_option]. unfold id.
           split; [exact Hs|]. split; [exact Hi'|]. split; [lia|].
           intros Hn. destruct (Hend Hn) as [Hin Heq]. split; [exact Hin|lia].
        -- exists consumed. cbn [emitted ended final input num_input_rows emitted_rows foldr].
           split; [reflexivity|]. split; [exact Hi|]. split; [lia|discriminate].
      * exists consumed. cbn [emitted ended final emitted_rows foldr].
        split; [reflexivity|]. split; [exact Hi|]. split; [lia|discriminate].
    + exists consumed. cbn [emitted ended final emitted_rows foldr].
      split; [reflexivity|]. split; [exact Hi|]. split; [lia|discriminate].
  - cbn [loop]. destruct (input st) as [|batch rest] eqn:Hin.
    + destruct (IH Exhausted st consumed delivered Hi Ho Hle)
        as (consumed' & Hs & Hrest).
      exists consumed'. rewrite Hin in Hs. split; [exact Hs|exact Hrest].
    + pose proof (map_batch_rows arg_offsets batch) as Hrows.
      destruct (map_batch arg_offsets batch) as [[udf_args n]|e].
      * destruct (IH (Item udf_args)
                     (mkLoopState rest (num_input_rows st + n) (num_output_rows st))
                     (consumed ++ [batch]) delivered) as (consumed' & Hs & Hrest).
        { rewrite rows_read_app. cbn [rows_read foldr num_input_rows]. lia. }
        { exact Ho. }
        { rewrite rows_read_app. lia. }
        exists consumed'. cbn [input] in Hs. rewrite <- app_assoc in Hs.
        split; [exact Hs|exact Hrest].
      * destruct (IH (Failed e)
                     (mkLoopState rest (num_input_rows st) (num_output_rows st))
                     (consumed ++ [batch]) delivered) as (consumed' & Hs & Hrest).
        { rewrite rows_read_app. cbn [rows_read foldr num_input_rows]. lia. }
        { exact Ho. }
        { rewrite rows_read_app. lia. }
        exists consumed'. cbn [input] in Hs. rewrite <- app_assoc in Hs.
        split; [exact Hs|exact Hrest].
  - destruct e; try (exists consumed; cbn [loop emitted ended final emitted_rows foldr];
                     split; [reflexivity|]; split; [exact Hi|]; split; [lia|discriminate]).
    cbn [loop]. apply Hafter; assumption.
Qed.

(** X13: in a scalar-iterator task the consumer never gets more rows
    than the input batches that the task has taken hold: at the end of any
    run, failed or not, the batches taken are a prefix of the input, the
    counter of input rows holds their rows, and the rows delivered do not
    exceed them; a run that ends without an error has taken the whole
    input and has delivered exactly as many rows as the input holds. *)
Theorem X13_scalar_iter_never_emits_more_than_read
    (f : returned) (iterator : list (list item)) :
  exists consumed,
    iterator
    = consumed
      ++ input (final (func SQL_SCALAR_PANDAS_ITER_UDF return_type arg_offsets f iterator))
    /\ num_input_rows
         (final (func SQL_SCALAR_PANDAS_ITER_UDF return_type arg_offsets f iterator))
       = rows_read arg_offsets consumed
    /\ emitted_rows
         (emitted (func SQL_SCALAR_PANDAS_ITER_UDF return_type arg_offsets f iterator))
       <= rows_read arg_offsets consumed
    /\ (ended (func SQL_SCALAR_PANDAS_ITER_UDF return_type arg_offsets f iterator) = None ->
        consumed = iterator
        /\ emitted_rows
             (emitted (func SQL_SCALAR_PANDAS_ITER_UDF return_type arg_offsets f iterator))
           = rows_read arg_offsets iterator).
Proof.
  unfold func.
  destruct (verify_result SQL_SCALAR_PANDAS_ITER_UDF return_type f) as [g|e].
  - destruct (loop_accounting g (mkLoopState iterator 0 0) [] 0)
      as (consumed & Hs & Hi & Hle & Hend); [reflexivity|reflexivity|cbn; lia|].
    cbn [app input] in Hs. exists consumed.
    split; [exact Hs|]. split; [exact Hi|]. split; [lia|].
    intros Hn. destruct (Hend Hn) as [Hin Heq]. rewrite Hin, app_nil_r in Hs.
    subst consumed. split; [reflexivity|lia].
  - exists []. cbn. split; [reflexivity|]. split; [reflexivity|]. split; [lia|].
    discriminate.
Qed.

End ScalarIterAccounting.

(** Five input rows read, six rows yielded: the loop stops with the
    overrun error and the second batch stays unread. *)
Lemma C4_scalar_iter_row_accounting_witness :
  ScalarIter.func SQL_SCALAR_PANDAS_ITER_UDF (AtomicType "long") [0%Z]
    Examples.yield_six_after_one_batch
    [[ScalarIter.Obj (OSeries Examples.five_rows)];
     [ScalarIter.Obj (OSeries Examples.two_rows)]]
  = ScalarIter.mkRun [] (Some ScalarIter.overrun)
      (ScalarIter.mkLoopState [[ScalarIter.Obj (OSeries Examples.two_rows)]] 5 6).
Proof.
  destruct (C4_scalar_iter_row_accounting (AtomicType "long") [0%Z]
              Examples.six_after_one_batch
              (ScalarIter.Yield (ScalarIter.Obj (OSeries Examples.six_rows)) ScalarIter.Stop)
              [[ScalarIter.Obj (OSeries Examples.five_rows)];
               [ScalarIter.Obj (OSeries Examples.two_rows)]]
              (ScalarIter.mkLoopState [[ScalarIter.Obj (OSeries Examples.two_rows)]] 5 0)
              [])
    as (consumed & _ & Hi & _ & _ & Hover & _).
  - exact (ScalarIter.after_pull SQL_SCALAR_PANDAS_ITER_UDF (AtomicType "long") [0%Z]
             Examples.six_after_one_batch
             (ScalarIter.mkLoopState
                [[ScalarIter.Obj (OSeries Examples.five_rows)];
                 [ScalarIter.Obj (OSeries Examples.two_rows)]] 0 0)
             (fun _ => ScalarIter.Yield (ScalarIter.Obj (OSeries Examples.six_rows))
                         ScalarIter.Stop)
             (ScalarIter.mkLoopState
                [[ScalarIter.Obj (OSeries Examples.five_rows)];
                 [ScalarIter.Obj (OSeries Examples.two_rows)]] 0 0)
             [] [ScalarIter.Obj (OSeries Examples.five_rows)]
             [[ScalarIter.Obj (OSeries Examples.two_rows)]]
             [ScalarIter.Obj (OSeries Examples.five_rows)] 5
             (ScalarIter.at_start _ _ _ _ _) eq_refl eq_refl).
  - cbn [ScalarIter.num_input_rows] in Hi. unfold Examples.yield_six_after_one_batch.
    rewrite (Hover (ScalarIter.Obj (OSeries Examples.six_rows)) ScalarIter.Stop 6
               eq_refl eq_refl eq_refl).
    + rewrite <- Hi. reflexivity.
    + rewrite <- Hi. cbn. lia.
Defined.

(** The iterator stops after the first of two batches: the unread batch is
    reported. *)
Example scalar_iter_input_left :
  ScalarIter.func SQL_SCALAR_PANDAS_ITER_UDF (AtomicType "long") [0%Z]
    (ScalarIter.Iterator (Examples.echo 1))
    [[ScalarIter.Obj (OSeries Examples.five_rows)];
     [ScalarIter.Obj (OSeries Examples.two_rows)]]
  = ScalarIter.mkRun
      [(ScalarIter.Obj (OSeries Examples.five_rows), to_arrow_type (AtomicType "long"))]
      (Some (PySparkRuntimeError STOP_ITERATION_OCCURRED_FROM_SCALAR_ITER_PANDAS_UDF))
      (ScalarIter.mkLoopState [] 7 5).
Proof. reflexivity. Qed.

(** The identity function over two batches: seven rows in, seven out. *)
Example scalar_iter_echo :
  ScalarIter.func SQL_SCALAR_PANDAS_ITER_UDF (AtomicType "long") [0%Z]
    (ScalarIter.Iterator (Examples.echo 3))
    [[ScalarIter.Obj (OSeries Examples.five_rows)];
     [ScalarIter.Obj (OSeries Examples.two_rows)]]
  = ScalarIter.mkRun
      [(ScalarIter.Obj (OSeries Examples.five_rows), to_arrow_type (AtomicType "long"));
       (ScalarIter.Obj (OSeries Examples.two_rows), to_arrow_type (AtomicType "long"))]
      None (ScalarIter.mkLoopState [] 7 7).
Proof. reflexivity. Qed.

(** ** Table functions *)

Section UDTFProperties.
Import UDTF.
Context {S : Type}.
Variable h : handler_class S.
Variable return_type : DataType.
Variable me : S -> list pyval -> list (string * pyval) -> outcome method_result * S.
Variable mt : S -> outcome method_result * S.
Variable s0 : S.
Hypothesis Hinit : h_init h = Ret s0.
Hypothesis Heval : h_eval h = Method me.
Hypothesis Hterm : h_terminate h = Method mt.
Hypothesis Heval_ok : forall s a kw, valid_result return_type (fst (me s a kw)) = true.
Hypothesis Hterm_ok : forall s, valid_result return_type (fst (mt s)) = true.
Lemma yield_rows_valid (r : outcome method_result) :
  valid_result return_type r = true ->
  exists res out, r = Ret res
    /\ yield_rows (verify_and_convert_result return_type) res = Ret out
    /\ (forall o, res <> MNotIterable o).
Proof.
  unfold valid_result. destruct r as [[| o | rows [e|]]|e]; try discriminate.
  - intros _. exists MNone, []. repeat split. discriminate.
  - intros Hall.
    destruct (mapM_returns (verify_and_convert_result return_type) rows) as (out & Hout & _).
    { intros x Hin. rewrite forallb_forall in Hall. apply Hall.
      apply list_elem_of_In. exact Hin. }
    exists (MRows rows None), out. repeat split; [|discriminate].
    unfold yield_rows. rewrite Hout. reflexivity.
Qed.

Lemma count_created_app (tr1 tr2 : list event) :
  count_created (tr1 ++ tr2) = count_created tr1 + count_created tr2.
Proof. unfold count_created. rewrite List.filter_app, length_app. reflexivity. Qed.

Lemma check_boundaries_key (w : world S) (k : Z) (t : list pyval)
    (pk : option (Z * list pyval)) :
  prev_arguments w
  = match pk with None => [] | Some (k', t') => [PRow (PInt k' :: t')] end ->
  _check_partition_boundaries [0%Z] [PRow (PInt k :: t)] w
  = (Ret (match pk with Some (k', _) => negb (k =? k')%Z | None => false end),
     mkWorld (trace w) (instance w) [PRow (PInt k :: t)]).
Proof.
  intros Hprev. unfold _check_partition_boundaries. rewrite Hprev.
  destruct pk as [[k' t']|]; [|reflexivity].
  cbn. change (Z.to_nat 0) with 0%nat. cbn. unfold any_differ. cbn. rewrite orb_false_r. reflexivity.
Qed.

Lemma mapper_step_partitioned (w : world S) (k : Z) (t : list pyval)
    (pk : option (Z * list pyval)) :
  prev_arguments w
  = match pk with None => [] | Some (k', t') => [PRow (PInt k' :: t')] end ->
  let boundary := match pk with Some (k', _) => negb (k =? k')%Z | None => false end in
  exists out w',
    mapper_step return_type [0%Z] [] (UDTFWithPartitions h [0%Z]) [PRow (PInt k :: t)] w
    = (Ret out, w')
    /\ prev_arguments w' = [PRow (PInt k :: t)]
    /\ fst (instance w')
       = (if boundary then count_created (trace w) else fst (instance w))
    /\ trace w'
       = trace w
         ++ (if boundary
             then [Terminated (fst (instance w)); Created (count_created (trace w))]
             else [])
         ++ [Evaluated (fst (instance w')) [PRow (PInt k :: t)] []].
Proof.
  intros Hprev boundary.
  unfold mapper_step, bind at 1, lift at 1.
  assert (Hargs : mapM (getitem [PRow (PInt k :: t)]) [0%Z] = Ret [PRow (PInt k :: t)])
    by reflexivity.
  rewrite Hargs. unfold bind at 1, lift at 1. rewrite mapM_nil.
  unfold eval, partitioned_eval.
  unfold bind at 1. cbn [map app].
  rewrite (check_boundaries_key w k t pk Hprev). fold boundary.
  rewrite Heval, Hterm.
  destruct (instance w) as [id s] eqn:Hinst.
  destruct boundary.
  - unfold bind at 1. unfold bind at 1. unfold bind at 1.
    unfold generator_body at 1.
    unfold call_terminate at 1. cbn [instance trace prev_arguments].
    destruct (mt s) as [r s'] eqn:Hmt.
    pose proof (Hterm_ok s) as Hv. rewrite Hmt in Hv. cbn [fst] in Hv.
    destruct (yield_rows_valid r Hv) as (res & out1 & -> & Hy1 & _).
    unfold lift at 1. rewrite Hy1.
    unfold bind at 1. unfold generator_body at 1.
    unfold create_udtf, construct. cbn [trace instance prev_arguments].
    rewrite Hinit. unfold ret at 1.
    unfold bind at 1. unfold bind at 1. unfold generator_body at 1.
    unfold call_eval. cbn [instance trace prev_arguments].
    destruct (me s0 [PRow (PInt k :: t)] []) as [r2 s2] eqn:Hme.
    pose proof (Heval_ok s0 [PRow (PInt k :: t)] []) as Hv2. rewrite Hme in Hv2. cbn [fst] in Hv2.
    destruct (yield_rows_valid r2 Hv2) as (res2 & out2 & -> & Hy2 & _).
    unfold lift. rewrite Hy2. unfold ret.
    eexists _, _. split; [reflexivity|].
    cbn [prev_arguments instance trace fst].
    fold (count_created (trace w ++ [Terminated id])).
    rewrite count_created_app. cbn. rewrite Nat.add_0_r.
    repeat split. rewrite <- !app_assoc. reflexivity.
  - unfold bind at 1. unfold ret at 1.
    unfold bind at 1. unfold bind at 1. unfold generator_body at 1.
    unfold call_eval. cbn [instance trace prev_arguments].
    destruct (me s [PRow (PInt k :: t)] []) as [r2 s2] eqn:Hme.
    pose proof (Heval_ok s [PRow (PInt k :: t)] []) as Hv2. rewrite Hme in Hv2. cbn [fst] in Hv2.
    destruct (yield_rows_valid r2 Hv2) as (res2 & out2 & -> & Hy2 & _).
    unfold lift. rewrite Hy2. unfold ret.
    eexists _, _. split; [reflexivity|].
    cbn [prev_arguments instance trace fst app]. repeat split.
Qed.

Lemma mapper_finally_partitioned (w : world S) (pending : option exn) :
  exists out w',
    mapper_finally return_type (UDTFWithPartitions h [0%Z]) pending w
    = (([out], pending), w')
    /\ trace w' = trace w ++ [Terminated (fst (instance w))].
Proof.
  unfold mapper_finally, terminate. cbn [has_terminate].
  unfold evaluate_call, partitioned_terminate. rewrite Hterm.
  unfold bind, try_except, call_terminate.
  destruct (instance w) as [id s] eqn:Hinst.
  destruct (mt s) as [r s'] eqn:Hmt.
  pose proof (Hterm_ok s) as Hv. rewrite Hmt in Hv. cbn [fst] in Hv.
  destruct (yield_rows_valid r Hv) as (res & out & -> & Hy & Hiter).
  assert (Hres : (match res with
                  | MNone => ret []
                  | MNotIterable o =>
                      raise (PySparkRuntimeError (UDTF_RETURN_NOT_ITERABLE (type_name_val o)))
                  | _ => lift (yield_rows (verify_and_convert_result return_type) res)
                  end) (mkWorld (trace w ++ [Terminated id]) (id, s') (prev_arguments w))
                 = (Ret out, mkWorld (trace w ++ [Terminated id]) (id, s') (prev_arguments w))).
  { destruct res as [|o|rws e].
    - cbn in Hy. injection Hy as <-. reflexivity.
    - exfalso. exact (Hiter o eq_refl).
    - unfold lift. rewrite Hy. reflexivity. }
  rewrite Hres. eexists _, _. split; reflexivity.
Qed.

End UDTFProperties.


Example counting_handler_output :
  fst (UDTF.mapper (StructType [mkField "n"]) [0%Z] []
         (UDTF.UDTFWithPartitions Examples.counting_handler [0%Z])
         (map (fun r => [PRow r])
              [[PInt 1; PStr "a"]; [PInt 1; PStr "b"]; [PInt 2; PStr "c"];
               [PInt 2; PStr "d"]; [PInt 1; PStr "e"]])
         (UDTF.mkWorld [UDTF.Created 0] (0, 0) []))
  = ([[]; []; [PTuple [PInt 2]]; []; [PTuple [PInt 2]]; [PTuple [PInt 1]]], None).
Proof. reflexivity. Qed.

(** The wrapper class has an [eval] method whatever the handler has. *)
Lemma has_eval_wrapper {S} (h : UDTF.handler_class S) (partition_child_indexes : list Z) :
  UDTF.has_eval (UDTF.UDTFWithPartitions h partition_child_indexes) = true.
Proof. reflexivity. Qed.

(** Without partition columns a handler without [eval] is rejected when
    the command is read. *)
Example handler_without_eval_rejected :
  UDTF.read_udtf Examples.parse_one_field SQL_TABLE_UDF
    (Examples.udtf_command [] Examples.no_eval_handler)
  = Raise (PySparkRuntimeError UDTF_EVAL_NOT_IMPLEMENTED).
Proof. reflexivity. Qed.

(** C6: with a partition column declared, a handler without [eval] passes
    the validation of [read_udtf], which looks at the wrapper; the first
    input row then fails in the wrapper with an AttributeError, after
    which the [finally] clause of the mapper still calls terminate. *)
Theorem C6_partitioned_handler_without_eval :
  UDTF.read_udtf Examples.parse_one_field SQL_TABLE_UDF
    (Examples.udtf_command [0%Z] Examples.no_eval_handler)
  = Ret (UDTF.mkDecoded [0%Z] []
           (UDTF.UDTFWithPartitions Examples.no_eval_handler [0%Z])
           (StructType [mkField "n"])
           (UDTF.mkWorld [UDTF.Created 0] (0, tt) []), [])
  /\ UDTF.mapper (StructType [mkField "n"]) [0%Z] []
       (UDTF.UDTFWithPartitions Examples.no_eval_handler [0%Z])
       [[PRow [PInt 1]]]
       (UDTF.mkWorld [UDTF.Created 0] (0, tt) [])
     = (([[]], Some (AttributeError "eval")),
        UDTF.mkWorld [UDTF.Created 0; UDTF.Terminated 0] (0, tt) [PRow [PInt 1]]).
Proof. split; reflexivity. Qed.

(** ** The task runner *)

Section MainProperties.
Import Main.
Context {C : Type}.
Variable PYTHON_EXCEPTION_THROWN : Z.
Variable format_exc : exn -> string.
Variable task : Z -> io C -> outcome unit * io C.
Variable report : io C -> ending * io C.

(** C9: when the first field of the input is -1, the worker exits with
    the status -1 and has read that field only: the rest of the input is
    untouched and the task body is not run. *)
Theorem C9_abort_on_partition_index_minus_one
    (rest : Stream.infile C) (out : list written) (closed : bool) :
  exists s',
    main PYTHON_EXCEPTION_THROWN format_exc task report (mkIO (Stream.FInt (-1) :: rest) out closed)
    = (Exited (-1), s')
    /\ (-1 <> 0)%Z
    /\ infile s' = rest
    /\ s' = snd (except_BaseException PYTHON_EXCEPTION_THROWN format_exc (SystemExit (-1))
                   (mkIO rest out closed)).
Proof.
  unfold main. cbn [infile Stream.read_int outfile out_closed].
  change ((-1 =? -1)%Z) with true. cbv iota.
  unfold except_BaseException, write. cbn [out_closed infile outfile].
  destruct closed; eexists; repeat split; lia.
Qed.

End MainProperties.

Example main_aborts_before_reading :
  Main.main (C := unit) (-2) (fun _ => "traceback")
    (fun _ s => (Raise (RuntimeError "the task body ran"), s))
    (fun s => (Main.Returned, s))
    (Main.mkIO [Stream.FInt (-1); Stream.FInt 3; Stream.FBool false] [] false)
  = (Main.Exited (-1),
     Main.mkIO [Stream.FInt 3; Stream.FBool false]
       [Main.WInt (-2); Main.WBytes "traceback"] false).
Proof. reflexivity. Qed.

(** A chain of no stage leaves [return_type] unbound. *)
Example chain_of_none :
  Chain.read_func (V := Z) SQL_BATCHED_UDF (Chain.encode_chain [])
  = Raise (UnboundLocalError "return_type").
Proof. reflexivity. Qed.

(** * Further properties *)

(** ** The argument protocol *)

Section OffsetProperties.
Context {C : Type}.

Lemma read_plain_offsets_loop (offsets : list Z) :
  forall (acc : list Z) (tail : Stream.infile C),
    Stream.for_range (length offsets)
      (fun offs => Stream.bind Stream.read_int (fun o => Stream.ret (offs ++ [o])))
      acc (Driver.encode_plain_offsets offsets ++ tail)
    = Ret (acc ++ offsets, tail).
Proof.
  induction offsets as [|o offsets IH]; intros acc tail.
  - cbn. rewrite app_nil_r. reflexivity.
  - cbn [length Stream.for_range Driver.encode_plain_offsets map app].
    unfold Stream.bind at 1. unfold Stream.bind at 1. cbn [Stream.read_int Stream.ret].
    fold (@Driver.encode_plain_offsets C offsets). rewrite IH, <- app_assoc. reflexivity.
Qed.

Lemma read_named_offsets_loop (args : list (Z * option string)) :
  forall (acc : list Z * list (string * Z)) (tail : Stream.infile C),
    Stream.for_range (length args)
      (fun '(args_offsets, kwargs_offsets) =>
         Stream.bind Stream.read_int (fun offset =>
         Stream.bind Stream.read_bool (fun named =>
         if named
         then Stream.bind Stream.read_utf8 (fun name =>
                Stream.ret (args_offsets, dict_set kwargs_offsets name offset))
         else Stream.ret (args_offsets ++ [offset], kwargs_offsets))))
      acc (Driver.encode_arguments args ++ tail)
    = Ret ((fst acc ++ Driver.positional args, Driver.named args (snd acc)), tail).
Proof.
  induction args as [|[o [name|]] args IH]; intros [pos kw] tail.
  - cbn. rewrite app_nil_r. reflexivity.
  - cbn [length Stream.for_range]. unfold Driver.encode_arguments.
    cbn [map concat Driver.encode_argument fst snd app].
    unfold Stream.bind at 1. unfold Stream.bind at 1. cbn [Stream.read_int].
    unfold Stream.bind at 1. cbn [Stream.read_bool].
    unfold Stream.bind at 1. cbn [Stream.read_utf8 Stream.ret].
    fold (@Driver.encode_arguments C args). rewrite IH. reflexivity.
  - cbn [length Stream.for_range]. unfold Driver.encode_arguments.
    cbn [map concat Driver.encode_argument fst snd app].
    unfold Stream.bind at 1. unfold Stream.bind at 1. cbn [Stream.read_int].
    unfold Stream.bind at 1. cbn [Stream.read_bool Stream.ret].
    fold (@Driver.encode_arguments C args). rewrite IH.
    cbn [fst snd Driver.positional omap]. rewrite <- app_assoc. reflexivity.
Qed.

(** X1: reading the framing of a list of arguments gives back the
    offsets passed by position in their order and the dict of the offsets
    passed by name, and leaves what follows the framing in the stream; in
    the protocol without names the offsets come back as they were
    framed. *)
Theorem X1_argument_offsets_round_trip
    (args : list (Z * option string)) (offsets : list Z) (tail : Stream.infile C) :
  Stream.read_named_offsets (Z.of_nat (length args)) (Driver.encode_arguments args ++ tail)
  = Ret ((Driver.positional args, Driver.named args []), tail)
  /\ Stream.read_plain_offsets (Z.of_nat (length offsets))
       (Driver.encode_plain_offsets offsets ++ tail)
     = Ret (offsets, tail).
Proof.
  split.
  - unfold Stream.read_named_offsets. rewrite Nat2Z.id.
    apply (read_named_offsets_loop args ([], []) tail).
  - unfold Stream.read_plain_offsets. rewrite Nat2Z.id.
    apply (read_plain_offsets_loop offsets [] tail).
Qed.

End OffsetProperties.

Example named_offsets_last_wins :
  Stream.read_named_offsets (C := unit) 4
    (Driver.encode_arguments [(0%Z, None); (3%Z, Some "x"); (1%Z, None); (5%Z, Some "x")])
  = Ret (([0%Z; 1%Z], [("x", 5%Z)]), []).
Proof. reflexivity. Qed.

(** ** The mapper: the first failure *)

Lemma mapM_first_failure {A B} (f : A -> outcome B) (pre post : list A) (x : A) (e : exn) :
  Forall (fun y => returns (f y) = true) pre ->
  f x = Raise e ->
  mapM f (pre ++ x :: post) = Raise e.
Proof.
  intros Hpre Hx. induction Hpre as [|y pre Hy _ IH].
  - cbn [app]. rewrite mapM_cons, Hx. reflexivity.
  - cbn [app]. rewrite mapM_cons. destruct (f y) as [b|e']; [|discriminate].
    rewrite bind_Ret, IH. reflexivity.
Qed.

(** X3: the mapper of the generic batched path raises the exception of
    the first UDF that fails on the row, an offset out of range included;
    the UDFs decoded after it do not change the outcome. *)
Theorem X3_mapper_first_failure {A R}
    (pre post : list (Mapper.udf A R)) (u : Mapper.udf A R) (a : list A) (e : exn) :
  Forall (fun v => returns (Mapper.call_udf a v) = true) pre ->
  Mapper.call_udf a u = Raise e ->
  Mapper.mapper (pre ++ u :: post) a = Raise e.
Proof.
  intros Hpre Hu. unfold Mapper.mapper.
  rewrite (mapM_first_failure _ pre post u e Hpre Hu). reflexivity.
Qed.

(** The second of three UDFs asks for the column 7 of a row of three. *)
Lemma X3_mapper_first_failure_witness :
  let sum : pyfun Z Z := fun args _ => Ret (fold_right Z.add 0%Z args) in
  Mapper.mapper [([0%Z], [], sum); ([7%Z], [], sum); ([1%Z], [], sum)] [10; 20; 30]%Z
  = Raise IndexError.
Proof.
  intros sum.
  apply (X3_mapper_first_failure [([0%Z], [], sum)] [([1%Z], [], sum)]
           ([7%Z], [], sum) [10; 20; 30]%Z IndexError).
  - repeat constructor.
  - reflexivity.
Defined.

(** ** The scalar pandas adapter: what it returns *)

(** X4: when the scalar pandas adapter returns, it returns the object the
    function returned, unchanged, paired with the arrow form of the
    declared type, and that object has the length of the first argument. *)
Theorem X4_scalar_pandas_returns_the_result
    (return_type : DataType) (f : pyfun pobj pobj)
    (a : list pobj) (kw : list (string * pobj)) (r : pobj) (t : ArrowType) :
  Vectorized.wrap_scalar_pandas_udf return_type f a kw = Ret (r, t) ->
  f a kw = Ret r
  /\ t = to_arrow_type return_type
  /\ exists n, len_obj r = Some n /\ Vectorized.first_arg_len a kw = Ret n.
Proof.
  unfold Vectorized.wrap_scalar_pandas_udf, Vectorized.verify.
  destruct (f a kw) as [x|e]; [|discriminate]. rewrite bind_Ret.
  unfold Vectorized.verify_result_type.
  destruct (len_obj x) as [m|] eqn:Hlen; [|discriminate]. rewrite bind_Ret.
  destruct (Vectorized.first_arg_len a kw) as [n|e]; [|discriminate]. rewrite bind_Ret.
  unfold Vectorized.verify_result_length. rewrite Hlen.
  destruct (Nat.eqb_spec m n) as [->|Hne]; [|discriminate].
  rewrite bind_Ret. intros [= <- <-]. repeat split. exists n. split; [exact Hlen|reflexivity].
Qed.

Lemma X4_scalar_pandas_returns_the_result_witness :
  let B := OSeries (mkSeries (LStr "x") [PInt 1; PInt 2; PInt 3]) in
  let id : pyfun pobj pobj := fun a _ => getitem a 0 in
  id [B] [] = Ret B /\ len_obj B = Some 3.
Proof.
  intros B id.
  destruct (X4_scalar_pandas_returns_the_result (AtomicType "long") id [B] [] B
              (to_arrow_type (AtomicType "long")) eq_refl)
    as (Hf & _ & n & Hlen & Hn).
  split; [exact Hf|]. reflexivity.
Defined.

(** ** The arrow-batched adapter: rows of unequal argument series *)

Section ZipProperties.
Import Vectorized.

Lemma shortest_zero {A} (cols : list (list A)) : Measure.shortest 0 cols = 0.
Proof. induction cols as [|c cols IH]; cbn; [reflexivity|]. fold (Measure.shortest 0 cols). rewrite IH. lia. Qed.

Lemma shortest_tails {A} (n : nat) (cols : list (list A)) :
  Forall (fun c => c <> []) cols ->
  Measure.shortest (S n) cols = S (Measure.shortest n (map tail cols)).
Proof.
  induction 1 as [|c cols Hc _ IH]; [reflexivity|].
  cbn [Measure.shortest foldr map].
  fold (Measure.shortest (S n) cols). fold (Measure.shortest n (map tail cols)).
  rewrite IH. destruct c as [|x c]; [contradiction|]. cbn. lia.
Qed.

Lemma shortest_with_empty {A} (n : nat) (cols : list (list A)) :
  Exists (fun c => c = []) cols -> Measure.shortest n cols = 0.
Proof.
  induction 1 as [c cols Hc|c cols _ IH]; cbn [Measure.shortest foldr].
  - subst c. reflexivity.
  - fold (Measure.shortest n cols). rewrite IH. lia.
Qed.

(** [zip] stops at the shortest iterable. *)
Lemma length_zip_rows_shortest {A} (n : nat) :
  forall cols : list (list A), length (zip_rows n cols) = Measure.shortest n cols.
Proof.
  induction n as [|n IH]; intros cols.
  - rewrite shortest_zero. reflexivity.
  - cbn [zip_rows]. destruct (mapM head cols) as [row|] eqn:Hrow.
    + cbn [length]. rewrite IH. symmetry. apply shortest_tails.
      assert (Hs : is_Some (mapM head cols)) by (rewrite Hrow; eauto).
      apply mapM_is_Some_1 in Hs. eapply Forall_impl; [exact Hs|].
      intros [|x c] [y Hy]; [discriminate|discriminate].
    + symmetry. apply shortest_with_empty. apply mapM_None_1 in Hrow.
      eapply Exists_impl; [exact Hrow|]. intros [|x c]; [reflexivity|discriminate].
Qed.

Variable return_type : DataType.
Variable str : pyval -> pyval.
Variable bytes : pyval -> outcome pyval.

(** X5: the arrow-batched adapter builds one row per position that all
    argument series have; when the first positional series is longer than
    the shortest argument and the function returns on every row, the
    adapter raises SCHEMA_MISMATCH_FOR_PANDAS_UDF with the length of the
    first series as expected and the number of rows built as actual. *)
Theorem X5_arrow_batch_unequal_arguments
    (f : pyfun pyval pyval) (s : Series) (args : list Series)
    (kwargs : list (string * Series)) :
  (forall row, returns (row_result return_type str bytes f (s :: args) kwargs row) = true) ->
  Measure.shortest (length (svalues s)) (zipped_columns (s :: args) kwargs)
  < length (svalues s) ->
  wrap_arrow_batch_udf return_type str bytes f (s :: args) kwargs
  = Raise (PySparkRuntimeError
             (SCHEMA_MISMATCH_FOR_PANDAS_UDF (length (svalues s))
                (Measure.shortest (length (svalues s)) (zipped_columns (s :: args) kwargs)))).
Proof.
  intros Hrows Hshort.
  destruct (mapM_returns (row_result return_type str bytes f (s :: args) kwargs)
              (zip_star (zipped_columns (s :: args) kwargs)))
    as (results & Hres & Hlen).
  { intros row _. apply Hrows. }
  unfold wrap_arrow_batch_udf, verify, evaluate. rewrite Hres, !bind_Ret.
  unfold verify_result_type. cbn [len_obj svalues]. rewrite bind_Ret.
  unfold first_arg_len. cbn [map app]. 
  change (getitem (OSeries s :: map OSeries args
                   ++ map snd (map (fun kv => (fst kv, OSeries (snd kv))) kwargs)) 0)
    with (Ret (OSeries s) : outcome pobj).
  rewrite bind_Ret. cbn [len_obj]. rewrite bind_Ret.
  unfold verify_result_length. cbn [len_obj svalues]. rewrite Hlen.
  unfold zip_star, zipped_columns in *. cbn [map app] in *.
  rewrite length_zip_rows_shortest.
  destruct (Nat.eqb_spec
              (Measure.shortest (length (svalues s))
                 (svalues s :: map svalues args ++ map (fun kv => svalues (snd kv)) kwargs))
              (length (svalues s))) as [Heq|Hne]; [lia|reflexivity].
Qed.

End ZipProperties.

(** A series of three rows zipped with a series of two. *)
Lemma X5_arrow_batch_unequal_arguments_witness :
  Vectorized.wrap_arrow_batch_udf (AtomicType "long") (fun v => v) Ret
    (fun _ _ => Ret (PInt 7))
    [mkSeries (LStr "x") [PInt 1; PInt 2; PInt 3]; mkSeries (LStr "y") [PInt 1; PInt 2]] []
  = Raise (PySparkRuntimeError (SCHEMA_MISMATCH_FOR_PANDAS_UDF 3 2)).
Proof.
  apply (X5_arrow_batch_unequal_arguments (AtomicType "long") (fun v => v) Ret
           (fun _ _ => Ret (PInt 7))
           (mkSeries (LStr "x") [PInt 1; PInt 2; PInt 3])
           [mkSeries (LStr "y") [PInt 1; PInt 2]] []).
  - intros row. reflexivity.
  - cbn. lia.
Defined.

(** ** The bounded window adapter: index arrays of different lengths *)

Section WindowSliceProperties.
Import Window.

Variable f : pyfun Series pyval.
Variable return_type : DataType.

Lemma getitem_past_the_end {A} (l : list A) (i : nat) :
  length l <= i -> getitem l (Z.of_nat i) = Raise IndexError.
Proof.
  intros H. unfold getitem. cbv zeta.
  assert (Hn : (Z.of_nat i <? 0)%Z = false) by (apply Z.ltb_ge; lia).
  rewrite !Hn, Nat2Z.id, (lookup_ge_None_2 l i H). reflexivity.
Qed.

Lemma window_slice_past_end (begin_array end_array : list Z) (i : nat) (s : Series) :
  i < length begin_array -> length end_array <= i ->
  window_slice begin_array end_array i s = Raise IndexError.
Proof.
  intros Hb He. unfold window_slice.
  destruct (lookup_lt_is_Some_2 begin_array i Hb) as [b Hbi].
  rewrite (getitem_of_nat _ _ _ Hbi), bind_Ret, getitem_past_the_end by exact He.
  reflexivity.
Qed.

Lemma window_call_past_end (begin_array end_array : list Z)
    (args : list Series) (kwargs : list (string * Series)) (i : nat) :
  i < length begin_array -> length end_array <= i ->
  args <> [] \/ kwargs <> [] ->
  window_call f begin_array end_array args kwargs i = Raise IndexError.
Proof.
  intros Hb He Hsome. unfold window_call.
  destruct args as [|s args].
  - destruct kwargs as [|kv kwargs]; [destruct Hsome; congruence|].
    rewrite mapM_nil, bind_Ret, mapM_cons, window_slice_past_end by assumption.
    reflexivity.
  - rewrite mapM_cons, window_slice_past_end by assumption. reflexivity.
Qed.

Lemma window_loop_short_end (begin_array end_array : list Z)
    (args : list Series) (kwargs : list (string * Series)) (n : nat) :
  (forall a kw, returns (f a kw) = true) ->
  args <> [] \/ kwargs <> [] ->
  forall (i : nat) (result0 : list pyval),
    i <= length end_array < i + n -> i + n <= length begin_array ->
    window_loop f begin_array end_array args kwargs (seq i n) result0 = Raise IndexError.
Proof.
  intros Hret Hsome. induction n as [|n IH]; intros i result0 [Hi He] Hb; [lia|].
  cbn [seq window_loop].
  destruct (decide (i < length end_array)) as [Hlt|Hge].
  - destruct (lookup_lt_is_Some_2 begin_array i) as [b Hbi]; [lia|].
    destruct (lookup_lt_is_Some_2 end_array i Hlt) as [e Hei].
    rewrite (window_call_at f _ _ _ _ i b e Hbi Hei).
    pose proof (Hret (map (iloc b e) args)
                  (map (fun kv => (fst kv, iloc b e (snd kv))) kwargs)) as Hr.
    unfold on_window. cbn [fst snd].
    destruct (f _ _) as [r|ex]; [|discriminate].
    rewrite bind_Ret. apply IH; lia.
  - rewrite window_call_past_end by (try assumption; lia). reflexivity.
Qed.

Lemma window_loop_no_series (begin_array end_array : list Z) (indices : list nat) :
  (forall a kw, returns (f a kw) = true) ->
  forall result0 : list pyval,
  exists rs,
    window_loop f begin_array end_array [] [] indices result0 = Ret (result0 ++ rs)
    /\ length rs = length indices.
Proof.
  intros Hret. induction indices as [|i indices IH]; intros result0.
  - exists []. rewrite app_nil_r. split; reflexivity.
  - cbn [window_loop]. unfold window_call. rewrite !mapM_nil, !bind_Ret.
    pose proof (Hret [] []) as Hr. destruct (f [] []) as [r|ex]; [|discriminate].
    rewrite bind_Ret. destruct (IH (result0 ++ [r])) as (rs & Hrun & Hlen).
    exists (r :: rs). rewrite Hrun, <- app_assoc. split; [reflexivity|]. cbn. lia.
Qed.

(** X7: the array of end indices is read inside the two comprehensions
    over the argument series only.  When it is shorter than the array of
    begin indices and the function returns on every call, the adapter
    given at least one argument series raises IndexError and returns no
    batch, not even for the windows that do have an end; given no
    argument series it never reads the end array and returns one row per
    begin index. *)
Theorem X7_bounded_window_short_end_array
    (begin_index end_index : list Z)
    (args : list Series) (kwargs : list (string * Series)) :
  (forall a kw, returns (f a kw) = true) ->
  length end_index < length begin_index ->
  (args <> [] \/ kwargs <> [] ->
   wrap_bounded_window_agg_pandas_udf f return_type begin_index end_index args kwargs
   = Raise IndexError)
  /\ exists result,
       wrap_bounded_window_agg_pandas_udf f return_type begin_index end_index [] []
       = Ret (mkSeries LNone result, to_arrow_type return_type)
       /\ length result = length begin_index.
Proof.
  intros Hret Hlen. split.
  - intros Hsome. unfold wrap_bounded_window_agg_pandas_udf, wrapped.
    rewrite (window_loop_short_end begin_index end_index args kwargs _ Hret Hsome);
      [reflexivity|lia|lia].
  - destruct (window_loop_no_series begin_index end_index
                (seq 0 (length begin_index)) Hret []) as (rs & Hrun & Hn).
    exists rs. unfold wrap_bounded_window_agg_pandas_udf, wrapped.
    rewrite Hrun. split; [reflexivity|]. rewrite Hn, length_seq. reflexivity.
Qed.

End WindowSliceProperties.

Example window_slice_negative_begin :
  Window.iloc (-2) 100 (mkSeries (LStr "v") [PInt 10; PInt 20; PInt 30])
  = mkSeries (LStr "v") [PInt 20; PInt 30].
Proof. reflexivity. Qed.

(** Two begin indices and one end index, with one argument series and
    with none. *)
Lemma X7_bounded_window_short_end_array_witness :
  Window.wrap_bounded_window_agg_pandas_udf Examples.count_arguments (AtomicType "long")
    [0; 1]%Z [2]%Z [mkSeries (LStr "v") [PInt 10; PInt 20; PInt 30]] []
  = Raise IndexError
  /\ Window.wrap_bounded_window_agg_pandas_udf Examples.count_arguments (AtomicType "long")
       [0; 1]%Z [2]%Z [] []
     = Ret (mkSeries LNone [PInt 0; PInt 0], to_arrow_type (AtomicType "long")).
Proof.
  destruct (X7_bounded_window_short_end_array Examples.count_arguments (AtomicType "long")
              [0; 1]%Z [2]%Z [mkSeries (LStr "v") [PInt 10; PInt 20; PInt 30]] [])
    as [Hraise _].
  - intros a kw. reflexivity.
  - cbn. lia.
  - split; [apply Hraise; left; discriminate|reflexivity].
Defined.

(** ** Verification of a pandas result: names, positions, truncation *)

Section PandasResultMoreProperties.
Import PandasResult.

Lemma schema_is_checked_true (df : DataFrame) :
  columns df <> [] -> schema_is_checked df = true.
Proof.
  intros Hne. destruct (schema_is_checked df) eqn:E; [reflexivity|].
  apply schema_is_checked_false in E. contradiction.
Qed.

(** X8: a frame whose column labels are the declared field names in any
    order passes [verify_pandas_result], by name or by position, as long
    as the columns are not truncated or the field names are distinct. *)
Theorem X8_permuted_column_names_accepted
    (df : DataFrame) (fields : list StructField)
    (assign_cols_by_name truncate_return_schema : bool) :
  columns df ≡ₚ map (fun fd => LStr (field_name fd)) fields ->
  truncate_return_schema = false \/ NoDup (map (fun fd => LStr (field_name fd)) fields) ->
  verify_pandas_result (OFrame df) (StructType fields)
    assign_cols_by_name truncate_return_schema = Ret tt.
Proof.
  intros Hperm Htrunc. unfold verify_pandas_result.
  destruct (schema_is_checked df); [|reflexivity]. cbv zeta.
  assert (Hlen : length (columns df) = length fields).
  { rewrite (Permutation_length Hperm), length_map. reflexivity. }
  assert (Hcols : (if truncate_return_schema
                   then take (size (field_name_set fields)) (columns df)
                   else columns df) = columns df).
  { destruct truncate_return_schema; [|reflexivity].
    destruct Htrunc as [?|Hnd]; [discriminate|].
    apply take_ge. unfold field_name_set.
    rewrite size_list_to_set by exact Hnd. rewrite length_map. lia. }
  rewrite Hcols.
  assert (Hset : list_to_set (columns df) = field_name_set fields).
  { unfold field_name_set. apply list_to_set_perm_L. exact Hperm. }
  rewrite Hset, bool_decide_eq_true_2 by reflexivity.
  cbn [negb]. rewrite andb_false_r. rewrite Hlen, Nat.eqb_refl. reflexivity.
Qed.

(** X9: without truncation, when columns are not assigned by name or no
    column label is a string, a frame that has columns passes exactly
    when it has as many columns as the type has fields; otherwise
    RESULT_LENGTH_MISMATCH_FOR_PANDAS_UDF reports both numbers. *)
Theorem X9_positional_check_counts_columns
    (df : DataFrame) (fields : list StructField) (assign_cols_by_name : bool) :
  columns df <> [] ->
  assign_cols_by_name = false \/ existsb is_str (columns df) = false ->
  verify_pandas_result (OFrame df) (StructType fields) assign_cols_by_name false
  = if Nat.eqb (length (columns df)) (length fields) then Ret tt
    else Raise (PySparkRuntimeError
                  (RESULT_LENGTH_MISMATCH_FOR_PANDAS_UDF
                     (length fields) (length (columns df)))).
Proof.
  intros Hne Hpos. unfold verify_pandas_result.
  rewrite (schema_is_checked_true df Hne). cbv zeta.
  assert (Hby : assign_cols_by_name && existsb is_str (columns df) = false).
  { destruct Hpos as [->| ->]; [reflexivity|apply andb_false_r]. }
  rewrite Hby. cbn [andb].
  destruct (Nat.eqb (length (columns df)) (length fields)); reflexivity.
Qed.

(** X10: with truncation and distinct field names, a frame checked by
    position passes exactly when it has at least as many columns as the
    type has fields: columns beyond the declared ones are ignored, and a
    frame with too few reports its full number of columns. *)
Theorem X10_truncation_ignores_surplus_columns
    (df : DataFrame) (fields : list StructField) (assign_cols_by_name : bool) :
  columns df <> [] ->
  assign_cols_by_name = false \/ existsb is_str (columns df) = false ->
  NoDup (map (fun fd => LStr (field_name fd)) fields) ->
  verify_pandas_result (OFrame df) (StructType fields) assign_cols_by_name true
  = if Nat.leb (length fields) (length (columns df)) then Ret tt
    else Raise (PySparkRuntimeError
                  (RESULT_LENGTH_MISMATCH_FOR_PANDAS_UDF
                     (length fields) (length (columns df)))).
Proof.
  intros Hne Hpos Hnd. unfold verify_pandas_result.
  rewrite (schema_is_checked_true df Hne). cbv zeta.
  assert (Hby : assign_cols_by_name && existsb is_str (columns df) = false).
  { destruct Hpos as [->| ->]; [reflexivity|apply andb_false_r]. }
  rewrite Hby. cbn [andb].
  unfold field_name_set. rewrite size_list_to_set by exact Hnd.
  rewrite length_map, length_take.
  destruct (Nat.leb_spec (length fields) (length (columns df))) as [Hle|Hgt].
  - rewrite Nat.min_l by lia. rewrite Nat.eqb_refl. reflexivity.
  - rewrite Nat.min_r by lia.
    destruct (Nat.eqb_spec (length (columns df)) (length fields)); [lia|reflexivity].
Qed.

(** X11: the vectorised table function accepts a result frame exactly
    when it has neither rows nor columns or has as many columns as the
    return type has fields; the run of [verify_pandas_result] that follows
    the count check never rejects a frame that passed it. *)
Theorem X11_arrow_udtf_result_check (df : DataFrame) (fields : list StructField) :
  ArrowUDTF.verify_result (StructType fields) df
  = if (Nat.ltb 0 (length (rows df)) || Nat.ltb 0 (length (columns df)))
       && negb (Nat.eqb (length (columns df)) (length fields))
    then Raise (PySparkRuntimeError
                  (UDTF_RETURN_SCHEMA_MISMATCH (length fields) (length (columns df))))
    else Ret df.
Proof.
  unfold ArrowUDTF.verify_result. cbn [type_len].
  destruct (Nat.ltb 0 (length (rows df)) || Nat.ltb 0 (length (columns df))) eqn:Hany;
    cbn [andb].
  - destruct (Nat.eqb_spec (length (columns df)) (length fields)) as [Heq|Hne];
      cbn [negb]; [|reflexivity].
    unfold verify_pandas_result. destruct (schema_is_checked df); [|reflexivity].
    cbv zeta. cbn [andb]. rewrite Heq, Nat.eqb_refl. reflexivity.
  - apply orb_false_elim in Hany as [_ Hc].
    assert (Hcols : columns df = []).
    { destruct (columns df); [reflexivity|discriminate]. }
    unfold verify_pandas_result.
    rewrite (proj2 (schema_is_checked_false df) Hcols). reflexivity.
Qed.

End PandasResultMoreProperties.

Lemma X8_permuted_column_names_accepted_witness :
  PandasResult.verify_pandas_result
    (OFrame (mkDataFrame [LStr "b"; LStr "a"] [[PInt 1; PInt 2]]))
    (StructType [mkField "a"; mkField "b"]) true false = Ret tt.
Proof.
  apply (X8_permuted_column_names_accepted
           (mkDataFrame [LStr "b"; LStr "a"] [[PInt 1; PInt 2]])
           [mkField "a"; mkField "b"] true false).
  - apply perm_swap.
  - left. reflexivity.
Defined.

Lemma X9_positional_check_counts_columns_witness :
  PandasResult.verify_pandas_result
    (OFrame (mkDataFrame [LInt 0; LInt 1; LInt 2] [[PInt 1; PInt 2; PInt 3]]))
    (StructType [mkField "a"; mkField "b"]) true false
  = Raise (PySparkRuntimeError (RESULT_LENGTH_MISMATCH_FOR_PANDAS_UDF 2 3)).
Proof.
  apply (X9_positional_check_counts_columns
           (mkDataFrame [LInt 0; LInt 1; LInt 2] [[PInt 1; PInt 2; PInt 3]])
           [mkField "a"; mkField "b"] true).
  - discriminate.
  - right. reflexivity.
Defined.

Lemma X10_truncation_ignores_surplus_columns_witness :
  PandasResult.verify_pandas_result
    (OFrame (mkDataFrame [LInt 0; LInt 1; LInt 2] [[PInt 1; PInt 2; PInt 3]]))
    (StructType [mkField "a"; mkField "b"]) true true
  = Ret tt.
Proof.
  apply (X10_truncation_ignores_surplus_columns
           (mkDataFrame [LInt 0; LInt 1; LInt 2] [[PInt 1; PInt 2; PInt 3]])
           [mkField "a"; mkField "b"] true).
  - discriminate.
  - right. reflexivity.
  - apply (bool_decide_unpack (NoDup [LStr "a"; LStr "b"])). vm_compute. exact I.
Defined.

(** The frame of one empty row is refused by the vectorised table
    function, though [verify_pandas_result] alone lets it through. *)
Example arrow_udtf_empty_row :
  ArrowUDTF.verify_result (StructType [mkField "a"]) (mkDataFrame [] [[]])
  = Raise (PySparkRuntimeError (UDTF_RETURN_SCHEMA_MISMATCH 1 0)).
Proof. reflexivity. Qed.

(** ** Lazy verification of a returned sequence *)

(** X12: a sequence verified element by element delivers exactly the
    elements that come before the first one that fails the check, each as
    the check returned it; it then ends with the exception of that check,
    or, when every element passes, the way the underlying iterator
    ends. *)
Theorem X12_lazy_verification_delivers_valid_prefix {A B}
    (check : A -> outcome B) (items : list A) (ending : option exn) :
  exists n,
    n <= length items
    /\ Forall2 (fun x y => check x = Ret y) (take n items)
         (fst (Gen.checked check items ending))
    /\ ((n = length items /\ snd (Gen.checked check items ending) = ending)
        \/ (exists x e, items !! n = Some x /\ check x = Raise e
                        /\ snd (Gen.checked check items ending) = Some e)).
Proof.
  induction items as [|x items IH].
  - exists 0. cbn. split; [lia|]. split; [constructor|]. left. split; reflexivity.
  - cbn [Gen.checked]. destruct (check x) as [y|e] eqn:Hx.
    + destruct IH as (n & Hn & Hall & Hend).
      destruct (Gen.checked check items ending) as [ys e'] eqn:Hc.
      exists (S n). cbn [fst snd length take] in *. split; [lia|]. split.
      * constructor; assumption.
      * destruct Hend as [[-> He]|(x' & ex & Hx' & Hcx & He)].
        -- left. split; [reflexivity|exact He].
        -- right. exists x', ex. split; [exact Hx'|]. split; [exact Hcx|exact He].
    + exists 0. cbn. split; [lia|]. split; [constructor|].
      right. exists x, e. split; [reflexivity|]. split; [exact Hx|reflexivity].
Qed.

(** The second of three returned objects is not a DataFrame. *)
Example grouped_map_with_state_second_element_invalid :
  Gen.checked (GroupedMapWithState.verify_element (StructType [mkField "a"]))
    [OFrame (mkDataFrame [LStr "a"] [[PInt 1]]); OVal (PInt 3);
     OFrame (mkDataFrame [LStr "a"] [[PInt 2]])] None
  = ([mkDataFrame [LStr "a"] [[PInt 1]]],
     Some (PySparkTypeError
             (UDF_RETURN_TYPE "iterator of pandas.DataFrame" "iterator of int"))).
Proof. reflexivity. Qed.

(** ** The map iterators *)

Section IteratorLoopProperties.
Import ScalarIter.

Variable eval_type : PythonEvalType.
Variable return_type : DataType.
Variable arg_offsets : list Z.

Lemma verify_element_has_len (elem r : item) :
  verify_element eval_type return_type elem = Ret r -> exists n, item_len r = Some n.
Proof.
  intros Hv. rewrite (verify_element_same _ _ _ _ Hv). revert Hv.
  unfold verify_element, verify_arrow_element, verify_pandas_element.
  destruct (is_map_arrow_iter eval_type).
  - destruct elem as [o|b]; [discriminate|]. intros _. eexists; reflexivity.
  - destruct elem as [[v|sr|df]|b]; cbv zeta; try discriminate;
      intros _; eexists; reflexivity.
Qed.

(** X14: in a map-iterator task, pandas or arrow, the rows are not
    counted against the input: a guest iterator that raises nothing and
    yields only elements that pass the element check of its adapter ends
    the run without an error, whatever the numbers of rows read and
    yielded and whether or not it has read all its input. *)
Theorem X14_map_iter_has_no_row_accounting (g : ugen) :
  eval_type = SQL_MAP_PANDAS_ITER_UDF \/ eval_type = SQL_MAP_ARROW_ITER_UDF ->
  GuestIterator.well_behaved eval_type return_type g ->
  forall st, ended (loop eval_type return_type arg_offsets g st) = None.
Proof.
  intros Hmode.
  assert (Hmap : is_map_pandas_iter eval_type || is_map_arrow_iter eval_type = true).
  { destruct Hmode as [-> | ->]; reflexivity. }
  assert (Hscalar : is_scalar_iter eval_type = false).
  { destruct Hmode as [-> | ->]; reflexivity. }
  induction 1 as [|elem k Hv _ IH|k _ IH]; intros st.
  - cbn [loop]. unfold after_loop. rewrite Hscalar. reflexivity.
  - cbn [loop].
    destruct (verify_element eval_type return_type elem) as [rb|e] eqn:Hve; [|discriminate].
    destruct (verify_element_has_len elem rb Hve) as (n & Hlen).
    rewrite Hlen. cbv zeta. rewrite Hmap. cbn [orb emit ended]. apply IH.
  - cbn [loop]. destruct (input st) as [|batch rest]; [apply IH|].
    destruct (map_batch arg_offsets batch) as [[args n]|e]; apply IH.
Qed.

End IteratorLoopProperties.

(** A map iterator that reads one batch of five rows and yields six, as
    a pandas Series and as an arrow record batch. *)
Lemma X14_map_iter_has_no_row_accounting_witness :
  ScalarIter.ended
    (ScalarIter.loop SQL_MAP_PANDAS_ITER_UDF (AtomicType "long") [0%Z]
       Examples.six_after_one_batch
       (ScalarIter.mkLoopState
          [[ScalarIter.Obj (OSeries Examples.five_rows)];
           [ScalarIter.Obj (OSeries Examples.two_rows)]] 0 0))
  = None
  /\ ScalarIter.ended
       (ScalarIter.loop SQL_MAP_ARROW_ITER_UDF (AtomicType "long") [0%Z]
          Examples.six_after_one_record_batch
          (ScalarIter.mkLoopState [[ScalarIter.Batch Examples.five_row_batch]] 0 0))
     = None.
Proof.
  split.
  - apply (X14_map_iter_has_no_row_accounting SQL_MAP_PANDAS_ITER_UDF
             (AtomicType "long") [0%Z]); [left; reflexivity|].
    apply GuestIterator.wb_Next. intros p.
    apply GuestIterator.wb_Yield; [reflexivity|apply GuestIterator.wb_Stop].
  - apply (X14_map_iter_has_no_row_accounting SQL_MAP_ARROW_ITER_UDF
             (AtomicType "long") [0%Z]); [right; reflexivity|].
    apply GuestIterator.wb_Next. intros p.
    apply GuestIterator.wb_Yield; [reflexivity|apply GuestIterator.wb_Stop].
Defined.

Example map_iter_six_rows_from_five :
  ScalarIter.func SQL_MAP_PANDAS_ITER_UDF (AtomicType "long") [0%Z]
    Examples.yield_six_after_one_batch
    [[ScalarIter.Obj (OSeries Examples.five_rows)];
     [ScalarIter.Obj (OSeries Examples.two_rows)]]
  = ScalarIter.mkRun
      [(ScalarIter.Obj (OSeries Examples.six_rows), to_arrow_type (AtomicType "long"))] None
      (ScalarIter.mkLoopState [[ScalarIter.Obj (OSeries Examples.two_rows)]] 5 6).
Proof. reflexivity. Qed.

(** The arrow map iterator takes record batches only: a pandas Series is
    refused by its element check, and a record batch by the check of the
    pandas map iterator. *)
Example arrow_map_iter_elements :
  ScalarIter.func SQL_MAP_ARROW_ITER_UDF (AtomicType "long") [0%Z]
    (ScalarIter.Iterator Examples.six_after_one_record_batch)
    [[ScalarIter.Batch Examples.five_row_batch]]
  = ScalarIter.mkRun
      [(ScalarIter.Batch Examples.six_row_batch, to_arrow_type (AtomicType "long"))] None
      (ScalarIter.mkLoopState [] 5 6)
  /\ ScalarIter.ended
       (ScalarIter.func SQL_MAP_ARROW_ITER_UDF (AtomicType "long") [0%Z]
          Examples.yield_six_after_one_batch [[ScalarIter.Batch Examples.five_row_batch]])
     = Some (PySparkTypeError
               (UDF_RETURN_TYPE "iterator of pyarrow.RecordBatch" "iterator of Series"))
  /\ ScalarIter.ended
       (ScalarIter.func SQL_MAP_PANDAS_ITER_UDF (AtomicType "long") [0%Z]
          (ScalarIter.Iterator Examples.six_after_one_record_batch)
          [[ScalarIter.Batch Examples.five_row_batch]])
     = Some (PySparkTypeError
               (UDF_RETURN_TYPE "iterator of pandas.Series" "iterator of RecordBatch")).
Proof. repeat split; reflexivity. Qed.

(** ** Key and value offsets of the grouped modes *)

Section GroupedOffsetsProperties.
Import GroupedOffsets.

Lemma slice_middle {A} (pre mid post : list A) :
  Window.slice (pre ++ mid ++ post) (Z.of_nat (length pre))
    (Z.of_nat (length pre) + Z.of_nat (length mid)) = mid.
Proof.
  unfold Window.slice, Window.slice_bound.
  assert (H1 : (Z.of_nat (length pre) <? 0)%Z = false) by (apply Z.ltb_ge; lia).
  assert (H2 : (Z.of_nat (length pre) + Z.of_nat (length mid) <? 0)%Z = false)
    by (apply Z.ltb_ge; lia).
  rewrite H1, H2, !length_app.
  replace (Nat.min (Z.to_nat (Z.of_nat (length pre)))
             (length pre + (length mid + length post))) with (length pre) by lia.
  replace (Nat.min (Z.to_nat (Z.of_nat (length pre) + Z.of_nat (length mid)))
             (length pre + (length mid + length post)) - length pre)
    with (length mid) by lia.
  rewrite drop_app_length, take_app_length. reflexivity.
Qed.

Lemma getitem_middle {A} (pre post : list A) (x : A) :
  getitem (pre ++ x :: post) (Z.of_nat (length pre)) = Ret x.
Proof. apply getitem_of_nat. apply list_lookup_middle. reflexivity. Qed.

Lemma extract_loop_groups (groups : list (list Z * list Z)) :
  forall (pre : list Z) (parsed : list (list Z * list Z)) (fuel : nat),
    length groups < fuel ->
    extract_loop fuel (pre ++ encode_groups groups) (Z.of_nat (length pre)) parsed
    = Some (Ret (parsed ++ groups)).
Proof.
  induction groups as [|[keys values] groups IH]; intros pre parsed fuel Hfuel.
  - destruct fuel as [|fuel]; [cbn in Hfuel; lia|].
    cbn [extract_loop encode_groups map concat]. rewrite !app_nil_r.
    rewrite Z.ltb_irrefl. reflexivity.
  - destruct fuel as [|fuel]; [cbn in Hfuel; lia|].
    cbn [length] in Hfuel.
    cbn [extract_loop]. unfold encode_groups. cbn [map concat].
    fold (encode_groups groups).
    set (L := Z.of_nat (1 + length keys + length values)).
    set (K := Z.of_nat (length keys)).
    assert (Henc : encode_group (keys, values) = L :: K :: keys ++ values) by reflexivity.
    rewrite Henc.
    assert (Hlt : (Z.of_nat (length pre)
                   <? Z.of_nat (length (pre ++ (L :: K :: keys ++ values)
                                        ++ encode_groups groups)))%Z = true).
    { apply Z.ltb_lt. rewrite length_app. cbn [app length]. lia. }
    rewrite Hlt.
    change ((L :: K :: keys ++ values) ++ encode_groups groups)
      with (L :: (K :: keys ++ values) ++ encode_groups groups).
    rewrite getitem_middle. cbv zeta.
    assert (Hoffsets :
      Window.slice (pre ++ L :: (K :: keys ++ values) ++ encode_groups groups)
        (Z.of_nat (length pre) + 1) (Z.of_nat (length pre) + 1 + L)
      = K :: keys ++ values).
    { pose proof (slice_middle (pre ++ [L]) (K :: keys ++ values) (encode_groups groups)) as Hm.
      rewrite <- app_assoc in Hm. cbn [app] in Hm.
      rewrite length_app in Hm. cbn [length] in Hm.
      replace (Z.of_nat (length pre) + 1 + L)%Z
        with (Z.of_nat (length pre + 1) + Z.of_nat (length (K :: keys ++ values)))%Z
        by (unfold L; cbn [length]; rewrite length_app; lia).
      replace (Z.of_nat (length pre) + 1)%Z with (Z.of_nat (length pre + 1)) by lia.
      exact Hm. }
    rewrite Hoffsets.
    change (getitem (K :: keys ++ values) 0) with (Ret K : outcome Z). cbv iota.
    assert (Hkeys : Window.slice (K :: keys ++ values) 1 (K + 1) = keys).
    { pose proof (slice_middle [K] keys values) as Hm. cbn [app length] in Hm.
      replace (K + 1)%Z with (Z.of_nat 1 + Z.of_nat (length keys))%Z by (unfold K; lia).
      exact Hm. }
    assert (Hvalues : Window.slice (K :: keys ++ values) (K + 1)
                        (Z.of_nat (length (K :: keys ++ values))) = values).
    { pose proof (slice_middle (K :: keys) values []) as Hm.
      rewrite app_nil_r in Hm. cbn [app] in Hm.
      replace (K + 1)%Z with (Z.of_nat (length (K :: keys))) by (unfold K; cbn [length]; lia).
      replace (Z.of_nat (length (K :: keys ++ values)))
        with (Z.of_nat (length (K :: keys)) + Z.of_nat (length values))%Z
        by (cbn [length]; rewrite length_app; lia).
      exact Hm. }
    rewrite Hkeys, Hvalues.
    specialize (IH (pre ++ L :: K :: keys ++ values) (parsed ++ [(keys, values)]) fuel).
    rewrite <- !app_assoc in IH. cbn [app] in IH.
    replace (Z.of_nat (length pre) + 1 + L)%Z
      with (Z.of_nat (length (pre ++ L :: K :: keys ++ values))).
    + cbn [app]. apply IH. lia.
    + rewrite length_app. cbn [length]. rewrite length_app. unfold L. lia.
Qed.

(** X15: [extract_key_value_indexes] gives back, in their order, the key
    and value offsets of any number of groups written in the format of its
    docstring; the loop ends within one pass per group. *)
Theorem X15_key_value_indexes_round_trip
    (groups : list (list Z * list Z)) (fuel : nat) :
  length groups < fuel ->
  extract_key_value_indexes fuel (encode_groups groups) = Some (Ret groups).
Proof.
  intros Hfuel. unfold extract_key_value_indexes.
  apply (extract_loop_groups groups [] [] fuel Hfuel).
Qed.

End GroupedOffsetsProperties.

(** The offsets of a cogrouped map: one key and two values on the left,
    one key and one value on the right. *)
Lemma X15_key_value_indexes_round_trip_witness :
  GroupedOffsets.extract_key_value_indexes 3 [4; 1; 0; 1; 2; 3; 1; 3; 4]%Z
  = Some (Ret [([0], [1; 2]); ([3], [4])]%Z).
Proof.
  apply (X15_key_value_indexes_round_trip [([0], [1; 2]); ([3], [4])]%Z 3).
  cbn. lia.
Defined.

(** A group that declares the length zero has no first item. *)
Example key_value_indexes_empty_group :
  GroupedOffsets.extract_key_value_indexes 5 [0; 1; 2]%Z = Some (Raise IndexError).
Proof. reflexivity. Qed.

(** ** The grouped-map and cogrouped-map adapters *)

Section GroupedMapProperties.
Import GroupedMap.

Variable f : list pobj -> outcome pobj.
Variable return_type : DataType.
Variable _assign_cols_by_name : bool.

Lemma verified_Ret (result : option pobj) (r : pobj) :
  verified return_type _assign_cols_by_name result = Ret r ->
  result = Some r
  /\ PandasResult.verify_pandas_result r return_type _assign_cols_by_name false = Ret tt.
Proof.
  unfold verified. destruct result as [x|]; [|discriminate].
  destruct (PandasResult.verify_pandas_result x return_type _assign_cols_by_name false)
    as [[]|e] eqn:Hv; [|discriminate].
  rewrite bind_Ret. intros [= <-]. split; [reflexivity|exact Hv].
Qed.

(** X16: what the grouped-map adapter or the cogrouped-map adapter
    returns is a list of exactly one pair: a result that has passed
    [verify_pandas_result] without truncation, and the arrow form of the
    declared type. *)
Theorem X16_grouped_adapters_return_one_verified_result
    (nargs : nat) (k v kl vl kr vr : list Series) (l : list (pobj * ArrowType)) :
  wrap_grouped_map_pandas_udf f return_type nargs _assign_cols_by_name k v = Ret l
  \/ wrap_cogrouped_map_pandas_udf f return_type nargs _assign_cols_by_name kl vl kr vr
     = Ret l ->
  exists r,
    l = [(r, to_arrow_type return_type)]
    /\ PandasResult.verify_pandas_result r return_type _assign_cols_by_name false = Ret tt.
Proof.
  intros [H|H].
  - unfold wrap_grouped_map_pandas_udf in H.
    destruct (grouped_wrapped f return_type nargs _assign_cols_by_name k v) as [r|e] eqn:Hw;
      [|discriminate].
    rewrite bind_Ret in H. injection H as <-. exists r. split; [reflexivity|].
    unfold grouped_wrapped in Hw.
    destruct nargs as [|[|[|n]]].
    + apply verified_Ret in Hw as [? _]. discriminate.
    + destruct (GroupedMapWithState.concat v) as [df|e]; [|discriminate].
      rewrite bind_Ret in Hw. destruct (f [OFrame df]) as [x|e]; [|discriminate].
      rewrite bind_Ret in Hw. apply verified_Ret in Hw as [[= ->] Hv]. exact Hv.
    + destruct (key_of k) as [key|e]; [|discriminate]. rewrite bind_Ret in Hw.
      destruct (GroupedMapWithState.concat v) as [df|e]; [|discriminate].
      rewrite bind_Ret in Hw. destruct (f [key; OFrame df]) as [x|e]; [|discriminate].
      rewrite bind_Ret in Hw. apply verified_Ret in Hw as [[= ->] Hv]. exact Hv.
    + apply verified_Ret in Hw as [? _]. discriminate.
  - unfold wrap_cogrouped_map_pandas_udf in H.
    destruct (cogrouped_wrapped f return_type nargs _assign_cols_by_name kl vl kr vr)
      as [r|e] eqn:Hw; [|discriminate].
    rewrite bind_Ret in H. injection H as <-. exists r. split; [reflexivity|].
    unfold cogrouped_wrapped in Hw.
    destruct (GroupedMapWithState.concat vl) as [ldf|e]; [|discriminate].
    rewrite bind_Ret in Hw.
    destruct (GroupedMapWithState.concat vr) as [rdf|e]; [|discriminate].
    rewrite bind_Ret in Hw.
    destruct nargs as [|[|[|[|n]]]].
    + apply verified_Ret in Hw as [? _]. discriminate.
    + apply verified_Ret in Hw as [? _]. discriminate.
    + destruct (f [OFrame ldf; OFrame rdf]) as [x|e]; [|discriminate].
      rewrite bind_Ret in Hw. apply verified_Ret in Hw as [[= ->] Hv]. exact Hv.
    + cbv zeta in Hw.
      destruct (key_of (if negb (df_empty ldf) then kl else kr)) as [key|e]; [|discriminate].
      rewrite bind_Ret in Hw.
      destruct (f [key; OFrame ldf; OFrame rdf]) as [x|e]; [|discriminate].
      rewrite bind_Ret in Hw. apply verified_Ret in Hw as [[= ->] Hv]. exact Hv.
    + apply verified_Ret in Hw as [? _]. discriminate.
Qed.

(** X17: a grouped-map function that takes neither one nor two
    arguments is never called: the adapter raises UnboundLocalError on
    [result] for every group; so does the cogrouped-map adapter, once both
    frames are built, for a function that takes neither two nor three. *)
Theorem X17_unsupported_arity_leaves_result_unbound
    (nargs : nat) (k v kl vl kr vr : list Series) :
  nargs <> 2 ->
  (nargs <> 1 ->
   wrap_grouped_map_pandas_udf f return_type nargs _assign_cols_by_name k v
   = Raise (UnboundLocalError "result"))
  /\ (nargs <> 3 -> vl <> [] -> vr <> [] ->
      wrap_cogrouped_map_pandas_udf f return_type nargs _assign_cols_by_name kl vl kr vr
      = Raise (UnboundLocalError "result")).
Proof.
  intros H2. split.
  - intros H1. unfold wrap_grouped_map_pandas_udf, grouped_wrapped.
    destruct nargs as [|[|[|n]]]; try contradiction; reflexivity.
  - intros H3 Hvl Hvr. unfold wrap_cogrouped_map_pandas_udf, cogrouped_wrapped.
    destruct vl as [|sl vl']; [contradiction|].
    destruct vr as [|sr vr']; [contradiction|].
    cbn [GroupedMapWithState.concat]. rewrite !bind_Ret.
    destruct nargs as [|[|[|[|n]]]]; try contradiction; reflexivity.
Qed.

Lemma key_of_first_values (key_series : list Series) (key : list pyval) :
  Forall2 (fun s x => head (svalues s) = Some x) key_series key ->
  key_of key_series = Ret (OVal (PTuple key)).
Proof.
  intros Hkey. unfold key_of.
  rewrite (mapM_Ret_intro GroupedMapWithState.series_first key_series key).
  - reflexivity.
  - induction Hkey as [|s x ks k Hx _ IH]; constructor; [|exact IH].
    unfold GroupedMapWithState.series_first. destruct (svalues s); [discriminate|].
    injection Hx as <-. reflexivity.
Qed.

(** X18: for a function of three arguments the cogrouped-map adapter
    takes the key of a group from one side only: it calls the function
    with the tuple of the first values of the right key series when the
    left frame is empty, where the left key series are not looked at, and
    with the tuple of the first values of the left key series otherwise;
    the two frames follow the key, and the result is verified without
    truncation. *)
Theorem X18_cogrouped_key_side
    (kl kr vl vr : list Series) (left_df right_df : DataFrame) (key : list pyval) :
  GroupedMapWithState.concat vl = Ret left_df ->
  GroupedMapWithState.concat vr = Ret right_df ->
  Forall2 (fun s x => head (svalues s) = Some x)
    (if df_empty left_df then kr else kl) key ->
  wrap_cogrouped_map_pandas_udf f return_type 3 _assign_cols_by_name kl vl kr vr
  = (result ← f [OVal (PTuple key); OFrame left_df; OFrame right_df];
     _ ← PandasResult.verify_pandas_result result return_type _assign_cols_by_name false;
     Ret [(result, to_arrow_type return_type)]).
Proof.
  intros Hleft Hright Hkey.
  unfold wrap_cogrouped_map_pandas_udf, cogrouped_wrapped.
  rewrite Hleft, Hright, !bind_Ret. cbv zeta.
  rewrite (key_of_first_values _ key), bind_Ret.
  - destruct (f [OVal (PTuple key); OFrame left_df; OFrame right_df]) as [result|e];
      [|reflexivity].
    rewrite !bind_Ret. unfold verified.
    destruct (PandasResult.verify_pandas_result result return_type
                _assign_cols_by_name false); reflexivity.
  - destruct (df_empty left_df); exact Hkey.
Qed.

End GroupedMapProperties.

Lemma X16_grouped_adapters_return_one_verified_result_witness :
  PandasResult.verify_pandas_result
    (OFrame (mkDataFrame [LStr "a"] [[PInt 10]; [PInt 20]]))
    (StructType [mkField "a"]) true false = Ret tt.
Proof.
  destruct (X16_grouped_adapters_return_one_verified_result
              MoreExamples.last_argument (StructType [mkField "a"]) true 2
              [MoreExamples.key_column] [MoreExamples.value_column] [] [] [] []
              [(OFrame (mkDataFrame [LStr "a"] [[PInt 10]; [PInt 20]]),
                to_arrow_type (StructType [mkField "a"]))]
              (or_introl eq_refl)) as (r & Hl & Hv).
  injection Hl as <-. exact Hv.
Defined.

(** A grouped-map function of three arguments. *)
Lemma X17_unsupported_arity_leaves_result_unbound_witness :
  GroupedMap.wrap_grouped_map_pandas_udf MoreExamples.last_argument
    (StructType [mkField "a"]) 3 true
    [MoreExamples.key_column] [MoreExamples.value_column]
  = Raise (UnboundLocalError "result").
Proof.
  refine (proj1 (X17_unsupported_arity_leaves_result_unbound
                   MoreExamples.last_argument (StructType [mkField "a"]) true 3
                   [MoreExamples.key_column] [MoreExamples.value_column] [] [] [] [] _) _);
    discriminate.
Defined.

(** A cogroup whose left side has no row: the key comes from the right
    key series, and the empty left key series, whose first item does not
    exist, is not read. *)
Lemma X18_cogrouped_key_side_witness :
  GroupedMap.wrap_cogrouped_map_pandas_udf MoreExamples.key_as_frame
    (StructType [mkField "a"]) 3 true
    [MoreExamples.empty_key_column] [MoreExamples.empty_value_column]
    [MoreExamples.key_column] [MoreExamples.value_column]
  = Ret [(OFrame (mkDataFrame [LStr "a"] [[PInt 7]]),
          to_arrow_type (StructType [mkField "a"]))].
Proof.
  rewrite (X18_cogrouped_key_side MoreExamples.key_as_frame
             (StructType [mkField "a"]) true
             [MoreExamples.empty_key_column] [MoreExamples.key_column]
             [MoreExamples.empty_value_column] [MoreExamples.value_column]
             (mkDataFrame [LStr "a"] []) (mkDataFrame [LStr "a"] [[PInt 10]; [PInt 20]])
             [PInt 7] eq_refl eq_refl).
  - reflexivity.
  - repeat constructor.
Defined.

(** With rows on the left side the key comes from the left key series. *)
Example cogrouped_left_key :
  GroupedMap.wrap_cogrouped_map_pandas_udf MoreExamples.key_as_frame
    (StructType [mkField "a"]) 3 true
    [mkSeries (LStr "k") [PInt 3]] [MoreExamples.value_column]
    [MoreExamples.key_column] [MoreExamples.value_column]
  = Ret [(OFrame (mkDataFrame [LStr "a"] [[PInt 3]]),
          to_arrow_type (StructType [mkField "a"]))].
Proof. reflexivity. Qed.

Example cogrouped_left_empty_runs :
  GroupedMap.wrap_cogrouped_map_pandas_udf MoreExamples.last_argument
    (StructType [mkField "a"]) 3 true
    [MoreExamples.empty_key_column] [MoreExamples.empty_value_column]
    [MoreExamples.key_column] [MoreExamples.value_column]
  = Ret [(OFrame (mkDataFrame [LStr "a"] [[PInt 10]; [PInt 20]]),
          to_arrow_type (StructType [mkField "a"]))].
Proof. reflexivity. Qed.

(** ** Table functions: the lifecycle for any input *)

Lemma count_terminated_app (tr1 tr2 : list UDTF.event) :
  UDTF.count_terminated (tr1 ++ tr2)
  = UDTF.count_terminated tr1 + UDTF.count_terminated tr2.
Proof. unfold UDTF.count_terminated. rewrite List.filter_app, length_app. reflexivity. Qed.

Lemma count_evaluated_app (tr1 tr2 : list UDTF.event) :
  Lifecycle.count_evaluated (tr1 ++ tr2)
  = Lifecycle.count_evaluated tr1 + Lifecycle.count_evaluated tr2.
Proof. unfold Lifecycle.count_evaluated. rewrite List.filter_app, length_app. reflexivity. Qed.

Section PartitionedLifecycle.
Import UDTF Lifecycle.
Context {St : Type}.
Variable h : handler_class St.
Variable return_type : DataType.
Variable me : St -> list pyval -> list (string * pyval) -> outcome method_result * St.
Variable mt : St -> outcome method_result * St.
Variable s0 : St.
Hypothesis Hinit : h_init h = Ret s0.
Hypothesis Heval : h_eval h = Method me.
Hypothesis Hterm : h_terminate h = Method mt.
Hypothesis Heval_ok : forall s a kw, valid_result return_type (fst (me s a kw)) = true.
Hypothesis Hterm_ok : forall s, valid_result return_type (fst (mt s)) = true.

Lemma partitioned_mapper_counts (rows : list (Z * list pyval)) :
  forall (w : world St) (pk : option (Z * list pyval)),
    prev_arguments w
    = match pk with None => [] | Some (k', t') => [PRow (PInt k' :: t')] end ->
    exists outs w',
      mapper return_type [0%Z] [] (UDTFWithPartitions h [0%Z]) (map keyed_row rows) w
      = ((outs, None), w')
      /\ length outs = S (length rows)
      /\ count_created (trace w')
         = count_created (trace w)
           + match pk with
             | None => changes (map fst rows)
             | Some (k', _) => key_changes k' (map fst rows)
             end
      /\ count_terminated (trace w')
         = S (count_terminated (trace w)
              + match pk with
                | None => changes (map fst rows)
                | Some (k', _) => key_changes k' (map fst rows)
                end)
      /\ count_evaluated (trace w') = count_evaluated (trace w) + length rows.
Proof.
  induction rows as [|[k t] rows IH]; intros w pk Hprev.
  - destruct (mapper_finally_partitioned h return_type mt Hterm Hterm_ok w None)
      as (out & w' & Hfin & Htr).
    exists [out], w'. cbn [map mapper]. rewrite Hfin, Htr.
    rewrite count_created_app, count_terminated_app, count_evaluated_app.
    destruct pk as [[k' t']|]; cbn; repeat split; lia.
  - destruct (mapper_step_partitioned h return_type me mt s0 Hinit Heval Hterm
                Heval_ok Hterm_ok w k t pk Hprev)
      as (out & w1 & Hstep & Hprev1 & _ & Htr1).
    destruct (IH w1 (Some (k, t)) Hprev1) as (outs & w' & Hrun & Hlen & Hc & Ht & He).
    exists (out :: outs), w'.
    cbn [map mapper]. unfold keyed_row at 1. cbn [fst snd].
    rewrite Hstep. fold (keyed_row). rewrite Hrun.
    split; [reflexivity|]. split; [cbn; lia|].
    rewrite Hc, Ht, He, Htr1.
    rewrite !count_created_app, !count_terminated_app, !count_evaluated_app.
    destruct pk as [[k' t']|]; cbn [map fst changes key_changes length].
    + destruct (Z.eqb_spec k k') as [->|Hne]; cbn; repeat split; lia.
    + cbn. repeat split; lia.
Qed.


End PartitionedLifecycle.


Section PlainLifecycle.
Import UDTF Lifecycle.
Context {St : Type}.
Variable h : handler_class St.
Variable return_type : DataType.
Variable args_offsets : list Z.
Variable kwargs_offsets : list (string * Z).
Variable me : St -> list pyval -> list (string * pyval) -> outcome method_result * St.
Variable mt : St -> outcome method_result * St.
Hypothesis Heval : h_eval h = Method me.
Hypothesis Hterm : h_terminate h = Method mt.
Hypothesis Hterm_ok : forall s, valid_result return_type (fst (mt s)) = true.

Lemma evaluate_call_valid (name : string) (r : outcome method_result) (w w' : world St) (call : prog method_result) :
  call w = (r, w') ->
  valid_result return_type r = true ->
  exists out, evaluate_call return_type name call w = (Ret out, w').
Proof.
  intros Hcall Hv.
  destruct (yield_rows_valid return_type r Hv) as (res & out & -> & Hy & Hiter).
  exists out. unfold evaluate_call, bind, try_except. rewrite Hcall.
  destruct res as [|o|rws e].
  - cbn in Hy. injection Hy as <-. reflexivity.
  - exfalso. exact (Hiter o eq_refl).
  - unfold lift. rewrite Hy. reflexivity.
Qed.

Lemma plain_step (a : list pyval) (ak : list pyval * list (string * pyval)) (w : world St) :
  picked args_offsets kwargs_offsets a = Ret ak ->
  (forall s, valid_result return_type (fst (me s (fst ak) (snd ak))) = true) ->
  exists out w',
    mapper_step return_type args_offsets kwargs_offsets (Plain h) a w = (Ret out, w')
    /\ trace w' = trace w ++ [evaluated (fst (instance w)) ak]
    /\ fst (instance w') = fst (instance w).
Proof.
  intros Hpick Hv. unfold picked in Hpick.
  destruct (mapM (getitem a) args_offsets) as [args|e] eqn:Hargs; [|discriminate].
  rewrite bind_Ret in Hpick.
  destruct (mapM (fun ko => x ← getitem a (snd ko); Ret (fst ko, x)) kwargs_offsets)
    as [kwargs|e] eqn:Hkw; [|discriminate].
  rewrite bind_Ret in Hpick. injection Hpick as <-. cbn [fst snd] in Hv.
  unfold mapper_step, bind at 1, lift at 1. rewrite Hargs.
  unfold bind at 1, lift at 1. rewrite Hkw.
  unfold eval. rewrite Heval.
  destruct (instance w) as [id s] eqn:Hinst.
  destruct (me s args kwargs) as [r s'] eqn:Hme.
  specialize (Hv s). rewrite Hme in Hv. cbn [fst] in Hv.
  destruct (evaluate_call_valid "eval" r w
              (mkWorld (trace w ++ [Evaluated id args kwargs]) (id, s') (prev_arguments w))
              (call_eval me args kwargs)) as [out Hout].
  - unfold call_eval. rewrite Hinst, Hme. reflexivity.
  - exact Hv.
  - exists out, (mkWorld (trace w ++ [Evaluated id args kwargs]) (id, s') (prev_arguments w)).
    split; [exact Hout|]. split; reflexivity.
Qed.

Lemma plain_finally (pending : option exn) (w : world St) :
  exists out w',
    mapper_finally return_type (Plain h) pending w = (([out], pending), w')
    /\ trace w' = trace w ++ [Terminated (fst (instance w))].
Proof.
  unfold mapper_finally, terminate. cbn [has_terminate]. rewrite Hterm.
  destruct (instance w) as [id s] eqn:Hinst.
  destruct (mt s) as [r s'] eqn:Hmt.
  pose proof (Hterm_ok s) as Hv. rewrite Hmt in Hv. cbn [fst] in Hv.
  destruct (evaluate_call_valid "terminate" r w
              (mkWorld (trace w ++ [Terminated id]) (id, s') (prev_arguments w))
              (call_terminate mt)) as [out Hout].
  - unfold call_terminate. rewrite Hinst, Hmt. reflexivity.
  - exact Hv.
  - rewrite Hout. eexists _, _. split; reflexivity.
Qed.

(** The rows before the first failure: each is evaluated on the instance
    in use and gives one output. *)
Lemma plain_prefix (pre : list (list pyval))
    (calls : list (list pyval * list (string * pyval))) :
  Forall2 (fun a ak => picked args_offsets kwargs_offsets a = Ret ak) pre calls ->
  (forall s ak, ak ∈ calls ->
     valid_result return_type (fst (me s (fst ak) (snd ak))) = true) ->
  forall w : world St,
  exists outs w',
    trace w' = trace w ++ map (evaluated (fst (instance w))) calls
    /\ fst (instance w') = fst (instance w)
    /\ length outs = length pre
    /\ forall rest,
         mapper return_type args_offsets kwargs_offsets (Plain h) (pre ++ rest) w
         = (let '((o, e), wf) :=
              mapper return_type args_offsets kwargs_offsets (Plain h) rest w' in
            ((outs ++ o, e), wf)).
Proof.
  induction 1 as [|a ak pre calls Hpick _ IH]; intros Hv w.
  - exists [], w. cbn [map app length]. rewrite app_nil_r. repeat split.
    intros rest. destruct (mapper _ _ _ _ rest w) as [[o e] wf]. reflexivity.
  - destruct (plain_step a ak w Hpick) as (out & w1 & Hstep & Htr1 & Hid1).
    { intros s. apply Hv. left. }
    destruct (IH (fun s x Hx => Hv s x (list_elem_of_further _ _ _ Hx)) w1)
      as (outs & w' & Htr & Hid & Hlen & Hrun).
    exists (out :: outs), w'. split; [|split; [|split]].
    + rewrite Htr, Htr1, Hid1, <- app_assoc. reflexivity.
    + rewrite Hid, Hid1. reflexivity.
    + cbn. lia.
    + intros rest. cbn [app mapper]. rewrite Hstep, Hrun.
      destruct (mapper _ _ _ _ rest w') as [[o e] wf]. reflexivity.
Qed.


(** What the run does around a row whose evaluation fails with [err]
    once the call is recorded: the rows after it are not evaluated and
    [terminate] is called from the [finally] clause. *)
Lemma plain_failure (pre post : list (list pyval)) (a : list pyval)
    (calls : list (list pyval * list (string * pyval)))
    (ak : list pyval * list (string * pyval)) (err : exn) (s0 : St) :
  Forall2 (fun a ak => picked args_offsets kwargs_offsets a = Ret ak) pre calls ->
  (forall s x, x ∈ calls ->
     valid_result return_type (fst (me s (fst x) (snd x))) = true) ->
  (forall w : world St, exists w2,
     mapper_step return_type args_offsets kwargs_offsets (Plain h) a w = (Raise err, w2)
     /\ trace w2 = trace w ++ [evaluated (fst (instance w)) ak]
     /\ fst (instance w2) = fst (instance w)) ->
  exists outs w',
    mapper return_type args_offsets kwargs_offsets (Plain h) (pre ++ a :: post)
      (mkWorld [Created 0] (0, s0) [])
    = ((outs, Some err), w')
    /\ length outs = 1 + length pre
    /\ trace w'
       = Created 0 :: map (evaluated 0) calls ++ [evaluated 0 ak; Terminated 0].
Proof.
  intros Hpick Hv Hfail.
  destruct (plain_prefix pre calls Hpick Hv (mkWorld [Created 0] (0, s0) []))
    as (outs & w1 & Htr & Hid & Hlen & Hrun).
  cbn [trace instance fst] in Htr, Hid.
  destruct (Hfail w1) as (w2 & Hstep & Htr2 & Hid2).
  destruct (plain_finally (Some err) w2) as (out & w' & Hfin & Htr').
  exists (outs ++ [out]), w'. rewrite (Hrun (a :: post)). cbn [mapper].
  rewrite Hstep, Hfin. split; [reflexivity|]. split.
  - rewrite length_app. cbn. lia.
  - rewrite Htr', Htr2, Hid2, Hid, Htr. cbn [app]. rewrite <- !app_assoc. reflexivity.
Qed.

(** The step of the mapper on a row whose evaluation ends with [err]. *)
Lemma plain_step_fails (a : list pyval) (ak : list pyval * list (string * pyval))
    (err : exn) (w : world St) :
  picked args_offsets kwargs_offsets a = Ret ak ->
  (forall w0 : world St,
     fst (evaluate_call return_type "eval" (call_eval me (fst ak) (snd ak)) w0)
     = Raise err) ->
  exists w2,
    mapper_step return_type args_offsets kwargs_offsets (Plain h) a w = (Raise err, w2)
    /\ trace w2 = trace w ++ [evaluated (fst (instance w)) ak]
    /\ fst (instance w2) = fst (instance w).
Proof.
  intros Ha Hcall. unfold picked in Ha.
  destruct (mapM (getitem a) args_offsets) as [args|e'] eqn:Hargs; [|discriminate].
  rewrite bind_Ret in Ha.
  destruct (mapM (fun ko => x ← getitem a (snd ko); Ret (fst ko, x)) kwargs_offsets)
    as [kwargs|e'] eqn:Hkw; [|discriminate].
  rewrite bind_Ret in Ha. injection Ha as <-. cbn [fst snd] in *.
  unfold mapper_step, bind at 1, lift at 1. rewrite Hargs.
  unfold bind at 1, lift at 1. rewrite Hkw.
  unfold eval. rewrite Heval.
  specialize (Hcall w). revert Hcall.
  unfold evaluate_call, bind, try_except, call_eval, lift, ret, raise, evaluated.
  destruct (instance w) as [id s] eqn:Hinst. cbn [fst snd].
  destruct (me s args kwargs) as [r s'] eqn:Hme.
  destruct r as [[|o|rws ending]|e0]; cbn [fst].
  - discriminate.
  - intros [= <-]. eexists. split; [reflexivity|]. split; reflexivity.
  - destruct (yield_rows (verify_and_convert_result return_type) (MRows rws ending))
      as [out|e1]; cbn [fst]; [discriminate|].
    intros [= <-]. eexists. split; [reflexivity|]. split; reflexivity.
  - destruct e0; cbn [fst]; intros [= <-]; eexists;
      (split; [reflexivity|]); split; reflexivity.
Qed.


End PlainLifecycle.



(** A generator that raises is not reported as UDTF_EXEC_ERROR. *)
Example generator_output :
  fst (UDTF.mapper (StructType [mkField "n"]) [0%Z] []
         (UDTF.Plain MoreExamples.generator_handler) [[PInt 1]; [PInt 0]; [PInt 2]]
         (UDTF.mkWorld [UDTF.Created 0] (0, 0) []))
  = ([[PTuple [PInt 1]]; [PTuple [PInt 1]]], Some (UserException "zero")).
Proof. reflexivity. Qed.

Example unless_zero_output :
  fst (UDTF.mapper (StructType [mkField "n"]) [0%Z] []
         (UDTF.Plain MoreExamples.unless_zero_handler) [[PInt 1]; [PInt 0]; [PInt 2]]
         (UDTF.mkWorld [UDTF.Created 0] (0, 0) []))
  = ([[]; [PTuple [PInt 1]]],
     Some (PySparkRuntimeError (UDTF_EXEC_ERROR "eval" (UserException "zero")))).
Proof. reflexivity. Qed.

(** ** Table functions: reading the command *)

Section ReadUDTFProperties.
Import UDTF Lifecycle.
Context {St : Type}.
Variable parse_datatype_json_string : string -> outcome DataType.

Lemma read_conf_loop (conf : list (string * string)) :
  forall (acc : list (string * string)) (tail : Stream.infile (unpickled St)),
  exists runner_conf,
    Stream.for_range (length conf)
      (fun runner_conf =>
         Stream.bind Stream.read_utf8 (fun k =>
         Stream.bind Stream.read_utf8 (fun v =>
         Stream.ret (dict_set runner_conf k v))))
      acc
      (concat (map (fun kv => [Stream.FUtf8 (fst kv); Stream.FUtf8 (snd kv)]) conf) ++ tail)
    = Ret (runner_conf, tail).
Proof.
  induction conf as [|[k v] conf IH]; intros acc tail.
  - exists acc. reflexivity.
  - destruct (IH (dict_set acc k v) tail) as [rc Hrc]. exists rc.
    cbn [length Stream.for_range map concat fst snd app].
    unfold Stream.bind at 1. unfold Stream.bind at 1. cbn [Stream.read_utf8].
    unfold Stream.bind at 1. cbn [Stream.read_utf8 Stream.ret]. exact Hrc.
Qed.

Lemma read_conf_frame (eval_type : PythonEvalType) (conf : list (string * string))
    (tail : Stream.infile (unpickled St)) :
  exists runner_conf,
    (if decide (eval_type = SQL_ARROW_TABLE_UDF) then read_conf else Stream.ret [])
      ((if decide (eval_type = SQL_ARROW_TABLE_UDF) then encode_conf conf else []) ++ tail)
    = Ret (runner_conf, tail).
Proof.
  destruct (decide (eval_type = SQL_ARROW_TABLE_UDF)).
  - destruct (read_conf_loop conf [] tail) as [rc Hrc]. exists rc.
    unfold read_conf, encode_conf. cbn [app]. unfold Stream.bind at 1.
    cbn [Stream.read_int]. rewrite Nat2Z.id. exact Hrc.
  - exists []. reflexivity.
Qed.

(** What [read_udtf] does with a framed command once its fields are
    read. *)
Lemma read_udtf_frame (eval_type : PythonEvalType) (conf : list (string * string))
    (args : list (Z * option string)) (partition_child_indexes : list Z)
    (handler : unpickled St) (json : string) (tail : Stream.infile (unpickled St)) :
  read_udtf parse_datatype_json_string eval_type
    (encode_command eval_type conf args partition_child_indexes handler json ++ tail)
  = match handler with
    | Instance type_name => Raise (PySparkRuntimeError (INVALID_UDTF_HANDLER_TYPE type_name))
    | Class h =>
        match parse_datatype_json_string json with
        | Raise e => Raise e
        | Ret return_type =>
            if negb (is_struct return_type) then
              Raise (PySparkRuntimeError UDTF_RETURN_TYPE_NOT_STRUCT)
            else
              match construct h [] with
              | (Raise (SystemExit c), _) => Raise (SystemExit c)
              | (Raise e, _) => Raise (PySparkRuntimeError (UDTF_EXEC_ERROR "__init__" e))
              | (Ret inst, tr) =>
                  let udtf :=
                    if Nat.ltb 0 (length partition_child_indexes)
                    then UDTFWithPartitions h partition_child_indexes
                    else Plain h in
                  if negb (has_eval udtf) then
                    Raise (PySparkRuntimeError UDTF_EVAL_NOT_IMPLEMENTED)
                  else
                    Ret (mkDecoded (Driver.positional args) (Driver.named args []) udtf
                           return_type (mkWorld tr inst []), tail)
              end
        end
    end.
Proof.
  unfold read_udtf, encode_command.
  rewrite <- app_assoc.
  destruct (read_conf_frame eval_type conf
              ((Stream.FInt (Z.of_nat (length args)) :: Driver.encode_arguments args
                ++ Stream.FInt (Z.of_nat (length partition_child_indexes))
                   :: Driver.encode_plain_offsets partition_child_indexes
                ++ [Stream.FCommand handler; Stream.FUtf8 json]) ++ tail))
    as [rc Hrc].
  unfold Stream.bind at 1. rewrite Hrc.
  cbn [app]. unfold Stream.bind at 1. cbn [Stream.read_int].
  unfold Stream.bind at 1. unfold Stream.read_named_offsets. rewrite Nat2Z.id.
  rewrite <- app_assoc.
  rewrite (read_named_offsets_loop args ([], [])). cbn [fst snd app].
  unfold Stream.bind at 1. cbn [Stream.read_int].
  unfold Stream.bind at 1. unfold Stream.read_plain_offsets. rewrite Nat2Z.id.
  rewrite <- app_assoc.
  rewrite (read_plain_offsets_loop partition_child_indexes []). cbn [app].
  unfold Stream.bind at 1. cbn [Stream.read_command].
  destruct handler as [h|type_name]; [|reflexivity].
  unfold Stream.bind at 1. cbn [Stream.read_utf8]. reflexivity.
Qed.

(** X22: reading the framed command of a table function whose handler
    is a class with a constructor that returns, with a struct return type
    and an eval method, gives back the argument offsets and the return
    type, makes exactly one instance, wraps it when and only when
    partition columns are declared, and leaves what follows the command in
    the stream. *)
Theorem X22_read_udtf_round_trip
    (eval_type : PythonEvalType) (conf : list (string * string))
    (args : list (Z * option string)) (partition_child_indexes : list Z)
    (h : handler_class St) (json : string) (tail : Stream.infile (unpickled St))
    (fields : list StructField) (s0 : St) :
  parse_datatype_json_string json = Ret (StructType fields) ->
  h_init h = Ret s0 ->
  h_eval h <> Missing ->
  read_udtf parse_datatype_json_string eval_type
    (encode_command eval_type conf args partition_child_indexes (Class h) json ++ tail)
  = Ret (mkDecoded (Driver.positional args) (Driver.named args [])
           (match partition_child_indexes with
            | [] => Plain h
            | _ => UDTFWithPartitions h partition_child_indexes
            end)
           (StructType fields) (mkWorld [Created 0] (0, s0) []), tail).
Proof.
  intros Hparse Hinit Heval. rewrite read_udtf_frame, Hparse. cbn [is_struct negb].
  unfold construct. rewrite Hinit. cbn [List.filter length app]. cbv zeta.
  destruct partition_child_indexes as [|i idx]; cbn [length Nat.ltb Nat.leb has_eval].
  - destruct (h_eval h); [contradiction|reflexivity|reflexivity].
  - reflexivity.
Qed.

(** X23: [read_udtf] rejects a command before any instance is used: a
    handler that is not a class, whatever the return type; then a return
    type that is not a struct, without calling the constructor; then a
    constructor that raises an exception, reported as UDTF_EXEC_ERROR
    naming __init__. *)
Theorem X23_read_udtf_rejections
    (eval_type : PythonEvalType) (conf : list (string * string))
    (args : list (Z * option string)) (partition_child_indexes : list Z)
    (h : handler_class St) (json : string) (tail : Stream.infile (unpickled St))
    (type_name : string) (return_type : DataType) (e : exn) :
  parse_datatype_json_string json = Ret return_type ->
  read_udtf parse_datatype_json_string eval_type
    (encode_command eval_type conf args partition_child_indexes (Instance type_name) json
     ++ tail)
  = Raise (PySparkRuntimeError (INVALID_UDTF_HANDLER_TYPE type_name))
  /\ (is_struct return_type = false ->
      read_udtf parse_datatype_json_string eval_type
        (encode_command eval_type conf args partition_child_indexes (Class h) json ++ tail)
      = Raise (PySparkRuntimeError UDTF_RETURN_TYPE_NOT_STRUCT))
  /\ (is_struct return_type = true -> h_init h = Raise e -> is_Exception e = true ->
      read_udtf parse_datatype_json_string eval_type
        (encode_command eval_type conf args partition_child_indexes (Class h) json ++ tail)
      = Raise (PySparkRuntimeError (UDTF_EXEC_ERROR "__init__" e))).
Proof.
  intros Hparse. split; [|split].
  - rewrite read_udtf_frame. reflexivity.
  - intros Hs. rewrite read_udtf_frame, Hparse, Hs. reflexivity.
  - intros Hs Hinit Hexc. rewrite read_udtf_frame, Hparse, Hs. cbn [negb].
    unfold construct. rewrite Hinit. destruct e; try reflexivity. discriminate.
Qed.

End ReadUDTFProperties.

Lemma X22_read_udtf_round_trip_witness :
  UDTF.read_udtf MoreExamples.parse_struct_or_string SQL_ARROW_TABLE_UDF
    (Lifecycle.encode_command SQL_ARROW_TABLE_UDF
       [("spark.sql.session.timeZone", "UTC")]
       [(0%Z, None); (2%Z, Some "k"); (1%Z, None)] [0%Z]
       (UDTF.Class MoreExamples.unless_zero_handler) "struct<n:int>"
     ++ [Stream.FInt 7])
  = Ret (UDTF.mkDecoded [0%Z; 1%Z] [("k", 2%Z)]
           (UDTF.UDTFWithPartitions MoreExamples.unless_zero_handler [0%Z])
           (StructType [mkField "n"])
           (UDTF.mkWorld [UDTF.Created 0] (0, 0) []), [Stream.FInt 7]).
Proof.
  apply (X22_read_udtf_round_trip MoreExamples.parse_struct_or_string SQL_ARROW_TABLE_UDF
           [("spark.sql.session.timeZone", "UTC")]
           [(0%Z, None); (2%Z, Some "k"); (1%Z, None)] [0%Z]
           MoreExamples.unless_zero_handler "struct<n:int>" [Stream.FInt 7]
           [mkField "n"] 0).
  - reflexivity.
  - reflexivity.
  - intros H. discriminate H.
Defined.

Lemma X23_read_udtf_rejections_witness :
  UDTF.read_udtf MoreExamples.parse_struct_or_string SQL_TABLE_UDF
    (Lifecycle.encode_command SQL_TABLE_UDF [] [(0%Z, None)] []
       (UDTF.Class MoreExamples.unless_zero_handler) "string" ++ [])
  = Raise (PySparkRuntimeError UDTF_RETURN_TYPE_NOT_STRUCT)
  /\ UDTF.read_udtf MoreExamples.parse_struct_or_string SQL_TABLE_UDF
       (Lifecycle.encode_command SQL_TABLE_UDF [] [(0%Z, None)] []
          (UDTF.Class MoreExamples.failing_init_handler) "struct<n:int>" ++ [])
     = Raise (PySparkRuntimeError (UDTF_EXEC_ERROR "__init__" (ValueError "init"))).
Proof.
  split.
  - apply (X23_read_udtf_rejections MoreExamples.parse_struct_or_string SQL_TABLE_UDF []
             [(0%Z, None)] [] MoreExamples.unless_zero_handler "string" [] "int"
             StringType (ValueError "init")); reflexivity.
  - apply (X23_read_udtf_rejections MoreExamples.parse_struct_or_string SQL_TABLE_UDF []
             [(0%Z, None)] [] MoreExamples.failing_init_handler "struct<n:int>" [] "int"
             (StructType [mkField "n"]) (ValueError "init")); reflexivity.
Defined.

(** ** Table functions: the rows a method may return *)

(** X24: among the values None, int, str, bytes, list, tuple, Row, dict
    and instance of a class, [verify_and_convert_result] lets a row
    through to the conversion, unchanged, exactly when it is [None], which
    is never checked, or a list, tuple, Row or dict with as many elements
    as the return type has fields, or an instance of a class that has no
    length or has that length.  The length is checked before the type: a
    str or bytes value is never let through, and is reported as
    UDTF_RETURN_SCHEMA_MISMATCH when its length differs from the number
    of fields and as UDTF_INVALID_OUTPUT_ROW_TYPE only when it has that
    length; an int is always UDTF_INVALID_OUTPUT_ROW_TYPE. *)
Theorem X24_accepted_rows (return_type : DataType) (result : pyval) :
  (forall r, UDTF.verify_and_convert_result return_type result = Ret r -> r = result)
  /\ (returns (UDTF.verify_and_convert_result return_type result) = true <->
      result = PNone
      \/ (exists xs, (result = PList xs \/ result = PTuple xs \/ result = PRow xs)
                     /\ length xs = type_len return_type)
      \/ (exists items, result = PDict items /\ length items = type_len return_type)
      \/ (exists id class_name, result = PObject id class_name None
                               \/ result = PObject id class_name
                                             (Some (type_len return_type))))
  /\ (forall s, result = PStr s \/ result = PBytes s ->
      UDTF.verify_and_convert_result return_type result
      = Raise (PySparkRuntimeError
                 (if Nat.eqb (String.length s) (type_len return_type)
                  then UDTF_INVALID_OUTPUT_ROW_TYPE (type_name_val result)
                  else UDTF_RETURN_SCHEMA_MISMATCH (type_len return_type)
                         (String.length s))))
  /\ (forall z, result = PInt z ->
      UDTF.verify_and_convert_result return_type result
      = Raise (PySparkRuntimeError (UDTF_INVALID_OUTPUT_ROW_TYPE "int"))).
Proof.
  split; [|split; [|split]].
  - intros r. unfold UDTF.verify_and_convert_result.
    destruct result as [|z|s|s|xs|xs|xs|items|id c l]; try (intros [= <-]; reflexivity);
      destruct (UDTF.has_other_length _ _); try discriminate;
      cbn [UDTF.is_row_like negb]; try discriminate; intros [= <-]; reflexivity.
  - unfold UDTF.verify_and_convert_result, UDTF.has_other_length.
    destruct result as [|z|s|s|xs|xs|xs|items|id c [n|]];
      cbn [len_val UDTF.is_row_like negb returns].
    + split; [intros _; left; reflexivity | reflexivity].
    + split; [intros H; discriminate H|].
      intros [H|[(xs & [H|[H|H]] & _)|[(it & H & _)|(i & c & [H|H])]]]; discriminate H.
    + destruct (Nat.eqb (String.length s) (type_len return_type)); cbn [negb returns];
        (split; [intros H; discriminate H|]);
        intros [H|[(xs & [H|[H|H]] & _)|[(it & H & _)|(i & c & [H|H])]]]; discriminate H.
    + destruct (Nat.eqb (String.length s) (type_len return_type)); cbn [negb returns];
        (split; [intros H; discriminate H|]);
        intros [H|[(xs & [H|[H|H]] & _)|[(it & H & _)|(i & c & [H|H])]]]; discriminate H.
    + destruct (Nat.eqb_spec (length xs) (type_len return_type)) as [E|E];
        cbn [negb returns].
      * split; [intros _; right; left; exists xs; auto | reflexivity].
      * split; [intros H; discriminate H|].
        intros [H|[(ys & [H|[H|H]] & Hl)|[(it & H & _)|(i & c & [H|H])]]];
          try discriminate H.
        injection H as <-. contradiction.
    + destruct (Nat.eqb_spec (length xs) (type_len return_type)) as [E|E];
        cbn [negb returns].
      * split; [intros _; right; left; exists xs; auto | reflexivity].
      * split; [intros H; discriminate H|].
        intros [H|[(ys & [H|[H|H]] & Hl)|[(it & H & _)|(i & c & [H|H])]]];
          try discriminate H.
        injection H as <-. contradiction.
    + destruct (Nat.eqb_spec (length xs) (type_len return_type)) as [E|E];
        cbn [negb returns].
      * split; [intros _; right; left; exists xs; auto | reflexivity].
      * split; [intros H; discriminate H|].
        intros [H|[(ys & [H|[H|H]] & Hl)|[(it & H & _)|(i & c & [H|H])]]];
          try discriminate H.
        injection H as <-. contradiction.
    + destruct (Nat.eqb_spec (length items) (type_len return_type)) as [E|E];
        cbn [negb returns].
      * split; [intros _; right; right; left; exists items; auto | reflexivity].
      * split; [intros H; discriminate H|].
        intros [H|[(ys & [H|[H|H]] & Hl)|[(it & H & Hl)|(i & c & [H|H])]]];
          try discriminate H.
        injection H as <-. contradiction.
    + destruct (Nat.eqb_spec n (type_len return_type)) as [E|E]; cbn [negb returns].
      * split; [intros _; right; right; right; exists id, c; right; rewrite E; reflexivity
               | reflexivity].
      * split; [intros H; discriminate H|].
        intros [H|[(ys & [H|[H|H]] & Hl)|[(it & H & Hl)|(i & c' & [H|H])]]];
          try discriminate H.
        injection H as _ _ ->. contradiction.
    + split; [intros _; right; right; right; exists id, c; left; reflexivity
             | reflexivity].
  - intros s [->| ->]; unfold UDTF.verify_and_convert_result, UDTF.has_other_length;
      cbn [len_val UDTF.is_row_like negb];
      destruct (Nat.eqb (String.length s) (type_len return_type)); reflexivity.
  - intros z ->. reflexivity.
Qed.

Example string_row_of_the_right_length :
  UDTF.verify_and_convert_result (StructType [mkField "a"; mkField "b"]) (PStr "ab")
  = Raise (PySparkRuntimeError (UDTF_INVALID_OUTPUT_ROW_TYPE "str"))
  /\ UDTF.verify_and_convert_result (StructType [mkField "a"; mkField "b"]) (PStr "abc")
     = Raise (PySparkRuntimeError (UDTF_RETURN_SCHEMA_MISMATCH 2 3)).
Proof. split; reflexivity. Qed.

(** A dict row and an instance of a class pass like a tuple. *)
Example dict_and_instance_rows :
  returns (UDTF.verify_and_convert_result (StructType [mkField "a"; mkField "b"])
             (PDict [("a", PInt 1); ("b", PInt 2)])) = true
  /\ returns (UDTF.verify_and_convert_result (StructType [mkField "a"; mkField "b"])
                (PObject 0 "Point" None)) = true
  /\ UDTF.verify_and_convert_result (StructType [mkField "a"; mkField "b"])
       (PDict [("a", PInt 1)])
     = Raise (PySparkRuntimeError (UDTF_RETURN_SCHEMA_MISMATCH 2 1)).
Proof. repeat split; reflexivity. Qed.

(** ** The task runner: failures *)

Section MainFailure.
Import Main.
Context {C : Type}.
Variable PYTHON_EXCEPTION_THROWN : Z.
Variable format_exc : exn -> string.
Variable task : Z -> io C -> outcome unit * io C.
Variable report : io C -> ending * io C.

(** X25: when the body of the task raises, whatever the exception, a
    SystemExit with code 0 included, the worker exits with the status -1
    and the code after the try statement is not run.  What the task wrote
    is kept; if the peer has not closed the output, the marker of a
    thrown exception and the traceback follow it, in this order, and
    nothing else; if the peer has closed it, nothing is written. *)
Theorem X25_task_failure_is_reported
    (split_index : Z) (rest : Stream.infile C) (out : list written) (closed : bool)
    (e : exn) (s2 : io C) :
  split_index <> (-1)%Z ->
  task split_index (mkIO rest out closed) = (Raise e, s2) ->
  main PYTHON_EXCEPTION_THROWN format_exc task report
    (mkIO (Stream.FInt split_index :: rest) out closed)
  = (Exited (-1),
     if out_closed s2 then s2
     else mkIO (infile s2)
            (outfile s2 ++ [WInt PYTHON_EXCEPTION_THROWN; WBytes (format_exc e)]) false).
Proof.
  intros Hidx Htask. unfold main. cbn [infile Stream.read_int outfile out_closed].
  destruct (Z.eqb_spec split_index (-1)) as [E|_]; [contradiction|].
  rewrite Htask. unfold except_BaseException, write.
  destruct (out_closed s2) eqn:Hc; [reflexivity|].
  cbn [out_closed infile outfile]. rewrite <- app_assoc. reflexivity.
Qed.

End MainFailure.

Lemma X25_task_failure_is_reported_witness :
  Main.main (-2) (fun _ => "traceback") MoreExamples.failing_task
    (fun s => (Main.Returned, s))
    (Main.mkIO [Stream.FInt 3; Stream.FInt 5] [] false)
  = (Main.Exited (-1),
     Main.mkIO [Stream.FInt 5]
       [Main.WInt 3; Main.WInt (-2); Main.WBytes "traceback"] false).
Proof.
  apply (X25_task_failure_is_reported (-2) (fun _ => "traceback") MoreExamples.failing_task
           (fun s => (Main.Returned, s)) 3 [Stream.FInt 5] [] false (ValueError "task")
           (Main.mkIO [Stream.FInt 5] [Main.WInt 3] false)).
  - lia.
  - reflexivity.
Defined.
